(** * Session lifecycle coordinator of [server.js]

    A shallow embedding of the session store, the credential assembler,
    the delivery routine, the connection-event handler, the deferred
    (timer) actions and the request handlers of [server.js], followed by
    the properties of the specification that can be settled on it.

    Conventions.
    - The process-wide [activeSessions] Map is a [gmap string session].
    - Everything the protocol library decides (whether a call rejects,
      which pairing code comes back, whether a message is accepted) is an
      explicit argument of the step that consumes it.
    - [setTimeout] callbacks and the continuations of [await] are kept in
      the world as pending tasks; the environment picks which one runs
      next.  Handlers run to their next suspension point atomically, as
      on the single JavaScript thread.
    - Exceptions are values: a computation yields [Returned a] or
      [Thrown e]; [try_catch] is the source's [try { } catch { }]. *)

From stdpp Require Import gmap strings list pretty.

Open Scope string_scope.
Set Warnings "-register-all".

(** ** JavaScript values read from and written to disk *)

(** Numbers are kept as integers: no property below looks inside one. *)
Inductive json :=
| JNull
| JBool (b : bool)
| JNum (n : Z)
| JStr (s : string)
| JArr (items : list json)
| JObj (props : list (string * json)).

(** A string is kept as its UTF-8 bytes, where JavaScript indexes it
    by UTF-16 code unit: a character of one to three bytes is one unit,
    a character of four bytes is a surrogate pair, each half written
    with the three bytes of its own code.  The length of a character
    is read off its first byte, as in well-formed text, which is what
    a decoded file holds. *)
Definition byte_of (c : Ascii.ascii) : Z := Z.of_N (Ascii.N_of_ascii c).

Definition surrogate (code : Z) : string :=
  String.string_of_list_ascii
    ((fun b => Ascii.ascii_of_N (Z.to_N b)) <$>
       [Z.lor 224 (Z.shiftr code 12);
        Z.lor 128 (Z.land (Z.shiftr code 6) 63);
        Z.lor 128 (Z.land code 63)]).

Fixpoint code_units (l : list Ascii.ascii) : list string :=
  match l with
  | [] => []
  | c0 :: rest =>
      let b0 := byte_of c0 in
      if (b0 <? 192)%Z then String c0 "" :: code_units rest
      else if (b0 <? 224)%Z then
        match rest with
        | c1 :: rest' => String c0 (String c1 "") :: code_units rest'
        | [] => [String c0 ""]
        end
      else if (b0 <? 240)%Z then
        match rest with
        | c1 :: c2 :: rest' =>
            String c0 (String c1 (String c2 "")) :: code_units rest'
        | _ => String c0 "" :: code_units rest
        end
      else
        match rest with
        | c1 :: c2 :: c3 :: rest' =>
            let point :=
              Z.lor (Z.shiftl (Z.land b0 7) 18)
                (Z.lor (Z.shiftl (Z.land (byte_of c1) 63) 12)
                   (Z.lor (Z.shiftl (Z.land (byte_of c2) 63) 6)
                      (Z.land (byte_of c3) 63))) in
            let offset := (point - 65536)%Z in
            surrogate (55296 + Z.shiftr offset 10)
            :: surrogate (56320 + Z.land offset 1023)
            :: code_units rest'
        | _ => String c0 "" :: code_units rest
        end
  end.

(** Own enumerable properties copied by an object spread [{...v}]:
    the properties of an object, the indexed elements of an array, the
    indexed code units of a string, nothing for the other values. *)
Definition chars (s : string) : list json :=
  JStr <$> code_units (String.list_ascii_of_string s).

Definition indexed (l : list json) : list (string * json) :=
  imap (fun i v => (pretty i, v)) l.

Definition spread (v : json) : list (string * json) :=
  match v with
  | JObj props => props
  | JArr items => indexed items
  | JStr s => indexed (chars s)
  | _ => []
  end.

(** Property definition in an object literal, for a key that is not an
    array index: an existing property keeps its place and takes the new
    value, a new property goes last. *)
Fixpoint obj_set (k : string) (v : json) (props : list (string * json))
  : list (string * json) :=
  match props with
  | [] => [(k, v)]
  | (k', v') :: rest =>
      if String.eqb k' k then (k', v) :: rest else (k', v') :: obj_set k v rest
  end.

Fixpoint obj_get (k : string) (props : list (string * json)) : option json :=
  match props with
  | [] => None
  | (k', v') :: rest => if String.eqb k' k then Some v' else obj_get k rest
  end.

(** ** Exceptions *)

Inductive error := Error (message : string).

Inductive outcome (A : Type) :=
| Returned (a : A)
| Thrown (e : error).
Arguments Returned {A} a.
Arguments Thrown {A} e.

(** ** File system *)

Inductive node :=
| File (content : string)
| Dir (entries : list (string * node)).

(** An absolute, normalized path: its components from the root. *)
Definition path := list string.

Fixpoint entry (name : string) (es : list (string * node)) : option node :=
  match es with
  | [] => None
  | (n, x) :: rest => if String.eqb n name then Some x else entry name rest
  end.

Fixpoint fs_lookup (p : path) (n : node) : option node :=
  match p with
  | [] => Some n
  | c :: p' =>
      match n with
      | Dir es => match entry c es with
                  | Some x => fs_lookup p' x
                  | None => None
                  end
      | File _ => None
      end
  end.

(** Removal of the entry at [p] with everything below it. *)
Fixpoint fs_remove (p : path) (n : node) : node :=
  match p with
  | [] => n
  | c :: p' =>
      match n with
      | File _ => n
      | Dir es =>
          match p' with
          | [] => Dir (filter (fun e => negb (String.eqb e.1 c) = true) es)
          | _ => Dir ((fun e => if String.eqb e.1 c
                                then (e.1, fs_remove p' e.2) else e) <$> es)
          end
      end
  end.

(** [mkdir -p]: missing directories are created along [p] (a new entry
    goes last in its parent's listing); a file on the way is an error. *)
Fixpoint fs_mkdirp (p : path) (n : node) : option node :=
  match n with
  | File _ => None
  | Dir es =>
      match p with
      | [] => Some n
      | c :: p' =>
          match entry c es with
          | Some x =>
              match fs_mkdirp p' x with
              | Some x' =>
                  Some (Dir ((fun e => if String.eqb e.1 c
                                       then (e.1, x') else e) <$> es))
              | None => None
              end
          | None =>
              match fs_mkdirp p' (Dir []) with
              | Some x' => Some (Dir (es ++ [(c, x')]))
              | None => None
              end
          end
      end
  end.

(** Writing a file into an existing directory (the protocol layer saving
    a credential fragment). *)
Fixpoint fs_write (p : path) (content : string) (n : node) : node :=
  match p with
  | [] => n
  | c :: p' =>
      match n with
      | File _ => n
      | Dir es =>
          match p' with
          | [] => match entry c es with
                  | Some _ => Dir ((fun e => if String.eqb e.1 c
                                             then (e.1, File content) else e) <$> es)
                  | None => Dir (es ++ [(c, File content)])
                  end
          | _ => Dir ((fun e => if String.eqb e.1 c
                                then (e.1, fs_write p' content e.2) else e) <$> es)
          end
      end
  end.

Definition is_dir (n : node) : Prop := ∃ es, n = Dir es.

Definition existsSync (fs : node) (p : path) : bool :=
  match fs_lookup p fs with Some _ => true | None => false end.

Definition readFileSync (fs : node) (p : path) : outcome string :=
  match fs_lookup p fs with
  | Some (File content) => Returned content
  | Some (Dir _) => Thrown (Error "EISDIR")
  | None => Thrown (Error "ENOENT")
  end.

(** [fs.readdirSync(p)]: the names in the directory, which node hands
    over sorted by their bytes, whatever order the directory keeps
    them in. *)
Fixpoint insert_name (name : string) (l : list string) : list string :=
  match l with
  | [] => [name]
  | n :: l' => if String.leb name n then name :: l else n :: insert_name name l'
  end.

Definition sort_names (l : list string) : list string :=
  foldr insert_name [] l.

Definition readdirSync (fs : node) (p : path) : outcome (list string) :=
  match fs_lookup p fs with
  | Some (Dir es) => Returned (sort_names (fst <$> es))
  | Some (File _) => Thrown (Error "ENOTDIR")
  | None => Thrown (Error "ENOENT")
  end.

(** [fs.mkdirSync(p, { recursive: true })] *)
Definition mkdirSync (fs : node) (p : path) : outcome node :=
  match fs_mkdirp p fs with
  | Some fs' => Returned fs'
  | None => Thrown (Error "ENOTDIR")
  end.

(** [fs.rmSync(p, { recursive: true, force: true })] *)
Definition rmSync (fs : node) (p : path) : node := fs_remove p fs.

Definition unlinkSync (fs : node) (p : path) : outcome node :=
  match fs_lookup p fs with
  | Some (File _) => Returned (fs_remove p fs)
  | Some (Dir _) => Thrown (Error "EISDIR")
  | None => Thrown (Error "ENOENT")
  end.

(** [path.join(base, rel)] for a normalized absolute [base] (POSIX):
    [rel] is cut at every slash (character 47); empty and "." segments are dropped and
    ".." steps up, never above the root. *)
Fixpoint segments (s : string) : list string :=
  match s with
  | EmptyString => [""]
  | String c s' =>
      if Ascii.eqb c (Ascii.ascii_of_nat 47) then "" :: segments s'
      else match segments s' with
           | h :: t => String c h :: t
           | [] => [String c ""]
           end
  end.

Definition join_segment (acc : path) (seg : string) : path :=
  if String.eqb seg "" then acc
  else if String.eqb seg "." then acc
  else if String.eqb seg ".." then removelast acc
  else (acc ++ [seg])%list.

Definition path_join (base : path) (rel : string) : path :=
  foldl join_segment base (segments rel).

(** The joined path keeps a slash that ends [rel], and a path that
    ends in a slash names a directory only:
    [fs.existsSync(path.join(base, rel))]. *)
Fixpoint ends_with_slash (s : string) : bool :=
  match s with
  | EmptyString => false
  | String c EmptyString => Ascii.eqb c (Ascii.ascii_of_nat 47)
  | String _ s' => ends_with_slash s'
  end.

Definition existsSync_join (fs : node) (base : path) (rel : string) : bool :=
  match fs_lookup (path_join base rel) fs with
  | Some (Dir _) => true
  | Some (File _) => negb (ends_with_slash rel)
  | None => false
  end.

(** ** Identifiers and storage paths *)

Definition is_digit (c : Ascii.ascii) : bool :=
  let n := Ascii.nat_of_ascii c in (48 <=? n)%nat && (n <=? 57)%nat.

(** [phoneNumber.replace(/\D/g, '')] *)
Definition remove_non_digits (s : string) : string :=
  String.string_of_list_ascii
    (filter (fun c => is_digit c = true) (String.list_ascii_of_string s)).

(** The value of [DisconnectReason.loggedOut] in the protocol library. *)
Definition DisconnectReason_loggedOut : Z := 401.

Section Server.

(** Directory of [server.js]; [JSON.parse] ([None] is a syntax error)
    and [JSON.stringify] of the runtime. *)
Variable __dirname : path.
Variable JSON_parse : string -> option json.
Variable JSON_stringify : json -> string.

Definition sessionsDir : path := path_join __dirname "sessions".

Definition getSessionPath (phoneNumber : string) : path :=
  path_join sessionsDir ("session_" ++ phoneNumber).

(** ** Credential assembler *)

Definition parse_file (fs : node) (p : path) : outcome json :=
  match readFileSync fs p with
  | Returned text =>
      match JSON_parse text with
      | Some v => Returned v
      | None => Thrown (Error "SyntaxError")
      end
  | Thrown e => Thrown e
  end.

(** A fragment: the first file of the listing whose name starts with
    [prefix], parsed; the empty object when there is none. *)
Definition read_fragment (fs : node) (sessionPath : path)
    (files : list string) (prefix : string) : outcome json :=
  match List.find (String.prefix prefix) files with
  | Some file => parse_file fs (path_join sessionPath file)
  | None => Returned (JObj [])
  end.

(** [{ ...credsData, preKeys, senderKeys, timestamp }] *)
Definition combinedCreds (credsData preKeysData senderKeysData : json)
    (now : string) : list (string * json) :=
  obj_set "timestamp" (JStr now)
    (obj_set "senderKeys" senderKeysData
       (obj_set "preKeys" preKeysData (spread credsData))).

(** The base credentials: [creds.json] parsed when it exists. *)
Definition read_creds (fs : node) (sessionPath : path) : outcome json :=
  let credsPath := path_join sessionPath "creds.json" in
  if existsSync fs credsPath then parse_file fs credsPath
  else Returned (JObj []).

(** The [try] block of [createCredsJson]; [now] is
    [new Date().toISOString()]. *)
Definition createCredsJson_try (fs : node) (now : string) (sessionPath : path)
  : outcome string :=
  match read_creds fs sessionPath with
  | Thrown e => Thrown e
  | Returned credsData =>
      match readdirSync fs sessionPath with
      | Thrown e => Thrown e
      | Returned files =>
          match read_fragment fs sessionPath files "pre-key-" with
          | Thrown e => Thrown e
          | Returned preKeysData =>
              match read_fragment fs sessionPath files "sender-key-" with
              | Thrown e => Thrown e
              | Returned senderKeysData =>
                  Returned (JSON_stringify
                    (JObj (combinedCreds credsData preKeysData senderKeysData now)))
              end
          end
      end
  end.

(** [createCredsJson]: the result is [Some text], or [None] for [null]
    when the [catch] block ran. *)
Definition createCredsJson (fs : node) (now : string) (sessionPath : path)
  : outcome (option string) :=
  match createCredsJson_try fs now sessionPath with
  | Returned text => Returned (Some text)
  | Thrown _ => Returned None
  end.

(** The files the assembler parses in a directory: [creds.json] when
    it exists, and the first listed file of each fragment prefix. *)
Definition reads_fragment (fs : node) (sessionPath : path) (file : string) : Prop :=
  (file = "creds.json" ∧
   existsSync fs (path_join sessionPath "creds.json") = true) ∨
  (∃ files, readdirSync fs sessionPath = Returned files ∧
     (List.find (String.prefix "pre-key-") files = Some file ∨
      List.find (String.prefix "sender-key-") files = Some file)).

(** ** The world of the server process *)

(** A record of [activeSessions].  [sock] names the connection made by
    [makeWASocket]; [saveCreds] is the directory the saver writes to. *)
Record session := {
  sock : nat;
  sessionPath : path;
  saveCreds : path;
  connected : bool
}.

(** [session.connected = true] *)
Definition mark_connected (r : session) : session :=
  {| sock := sock r; sessionPath := sessionPath r;
     saveCreds := saveCreds r; connected := true |}.

(** A protocol connection: the identifier and directory its handlers
    closed over, and whether it is still live (neither ended by
    [sock.end()] nor closed by the protocol layer). *)
Record wa_socket := {
  owner : string;
  storage : path;
  live : bool
}.

Inductive conn_status :=
| St_initializing | St_connecting | St_reconnecting | St_connected | St_logged_out.

Inductive notification :=
| N_pairingCode (phoneNumber pairingCode : string)
| N_connectionStatus (phoneNumber : string) (status : conn_status)
| N_sessionReady (phoneNumber message : string) (sessionSent : bool)
| N_error (phoneNumber : option string) (message : string).

(** [io.emit] reaches every observer, [socket.emit] one client. *)
Inductive emitter := Io | Socket (client : nat).

Inductive response :=
| Json (status : nat) (body : json)
| Download (filePath : path).

(** What goes out on a protocol connection, in order. *)
Inductive wire_op :=
| RequestPairingCode (sk : nat) (phoneNumber code : string)
| SendMessage (sk : nat) (jid text : string)
| Sleep (ms : Z).

(** The callbacks handed to [setTimeout], with what they closed over. *)
Inductive callback :=
| PairingCode (sk : nat) (phoneNumber : string)
| Stabilized (sk : nat) (phoneNumber : string) (sessionPath : path)
| Retire (phoneNumber : string) (sessionPath : path)
| Reconnect (phoneNumber : string)
| DeleteDownloaded (filePath : path).

(** Who awaits a call of [initializeWhatsApp]. *)
Inductive caller :=
| FromSocket (client : nat)
| FromRest (req : nat)
| FromTimer.

(** A call of [initializeWhatsApp] suspended at its [await]s. *)
Record pending_init := {
  p_phoneNumber : string;
  p_sessionPath : path;
  p_caller : caller
}.

Record world := {
  activeSessions : gmap string session;
  connections : list wa_socket;
  fs : node;
  timers : list (callback * Z);
  awaiting : list pending_init;
  downloads : list (nat * path);
  emitted : list (emitter * notification);
  responses : list (nat * response);
  wire : list wire_op;
  rejections : list error
}.

Definition with_activeSessions (f : gmap string session -> gmap string session)
    (w : world) : world :=
  {| activeSessions := f (activeSessions w); connections := connections w;
     fs := fs w; timers := timers w; awaiting := awaiting w;
     downloads := downloads w; emitted := emitted w;
     responses := responses w; wire := wire w; rejections := rejections w |}.

Definition with_connections (f : list wa_socket -> list wa_socket)
    (w : world) : world :=
  {| activeSessions := activeSessions w; connections := f (connections w);
     fs := fs w; timers := timers w; awaiting := awaiting w;
     downloads := downloads w; emitted := emitted w;
     responses := responses w; wire := wire w; rejections := rejections w |}.

Definition with_fs (f : node -> node) (w : world) : world :=
  {| activeSessions := activeSessions w; connections := connections w;
     fs := f (fs w); timers := timers w; awaiting := awaiting w;
     downloads := downloads w; emitted := emitted w;
     responses := responses w; wire := wire w; rejections := rejections w |}.

Definition with_timers (f : list (callback * Z) -> list (callback * Z))
    (w : world) : world :=
  {| activeSessions := activeSessions w; connections := connections w;
     fs := fs w; timers := f (timers w); awaiting := awaiting w;
     downloads := downloads w; emitted := emitted w;
     responses := responses w; wire := wire w; rejections := rejections w |}.

Definition with_awaiting (f : list pending_init -> list pending_init)
    (w : world) : world :=
  {| activeSessions := activeSessions w; connections := connections w;
     fs := fs w; timers := timers w; awaiting := f (awaiting w);
     downloads := downloads w; emitted := emitted w;
     responses := responses w; wire := wire w; rejections := rejections w |}.

Definition with_downloads (f : list (nat * path) -> list (nat * path))
    (w : world) : world :=
  {| activeSessions := activeSessions w; connections := connections w;
     fs := fs w; timers := timers w; awaiting := awaiting w;
     downloads := f (downloads w); emitted := emitted w;
     responses := responses w; wire := wire w; rejections := rejections w |}.

Definition with_emitted
    (f : list (emitter * notification) -> list (emitter * notification))
    (w : world) : world :=
  {| activeSessions := activeSessions w; connections := connections w;
     fs := fs w; timers := timers w; awaiting := awaiting w;
     downloads := downloads w; emitted := f (emitted w);
     responses := responses w; wire := wire w; rejections := rejections w |}.

Definition with_responses
    (f : list (nat * response) -> list (nat * response)) (w : world) : world :=
  {| activeSessions := activeSessions w; connections := connections w;
     fs := fs w; timers := timers w; awaiting := awaiting w;
     downloads := downloads w; emitted := emitted w;
     responses := f (responses w); wire := wire w; rejections := rejections w |}.

Definition with_wire (f : list wire_op -> list wire_op) (w : world) : world :=
  {| activeSessions := activeSessions w; connections := connections w;
     fs := fs w; timers := timers w; awaiting := awaiting w;
     downloads := downloads w; emitted := emitted w;
     responses := responses w; wire := f (wire w); rejections := rejections w |}.

Definition with_rejections (f : list error -> list error) (w : world) : world :=
  {| activeSessions := activeSessions w; connections := connections w;
     fs := fs w; timers := timers w; awaiting := awaiting w;
     downloads := downloads w; emitted := emitted w;
     responses := responses w; wire := wire w; rejections := f (rejections w) |}.

(** ** Computations over the world that may throw *)

Definition M (A : Type) : Type := world -> outcome A * world.

Definition ret {A} (a : A) : M A := fun w => (Returned a, w).

Definition bind {A B} (m : M A) (k : A -> M B) : M B :=
  fun w => match m w with
           | (Returned a, w') => k a w'
           | (Thrown e, w') => (Thrown e, w')
           end.

Definition throw {A} (e : error) : M A := fun w => (Thrown e, w).

Definition try_catch {A} (m : M A) (handler : error -> M A) : M A :=
  fun w => match m w with
           | (Returned a, w') => (Returned a, w')
           | (Thrown e, w') => handler e w'
           end.

Definition get : M world := fun w => (Returned w, w).

Definition modify (f : world -> world) : M unit := fun w => (Returned tt, f w).

Definition lift {A} (o : outcome A) : M A := fun w => (o, w).

Notation "x <- m ;; k" := (bind m (fun x => k))
  (at level 100, m at next level, right associativity, only parsing).
Notation "m ;;; k" := (bind m (fun _ => k))
  (at level 100, right associativity, only parsing).

(** ** Primitive effects *)

(** [io.emit] and [socket.emit] *)
Definition emit (t : emitter) (n : notification) : M unit :=
  modify (with_emitted (fun l => (l ++ [(t, n)])%list)).

(** [res.status(..).json(..)] and [res.json(..)] *)
Definition respond (req : nat) (r : response) : M unit :=
  modify (with_responses (fun l => (l ++ [(req, r)])%list)).

Definition setTimeout (cb : callback) (ms : Z) : M unit :=
  modify (with_timers (fun l => (l ++ [(cb, ms)])%list)).

Definition store_set (phoneNumber : string) (r : session) : M unit :=
  modify (with_activeSessions (fun m => <[phoneNumber := r]> m)).

Definition store_delete (phoneNumber : string) : M unit :=
  modify (with_activeSessions (fun m => delete phoneNumber m)).

Definition close_connection (sk : nat) (cs : list wa_socket) : list wa_socket :=
  alter (fun c => {| owner := owner c; storage := storage c; live := false |}) sk cs.

(** [sock.end()]; [end_ok = false] makes the call throw. *)
Definition sock_end (sk : nat) (end_ok : bool) : M unit :=
  if end_ok then modify (with_connections (close_connection sk))
  else throw (Error "end failed").

(** [makeWASocket(..)]: a new live connection, named by its rank. *)
Definition makeWASocket (phoneNumber : string) (sessionPath : path) : M nat :=
  w <- get ;;
  modify (with_connections (fun cs =>
    (cs ++ [{| owner := phoneNumber; storage := sessionPath; live := true |}])%list)) ;;;
  ret (length (connections w)).

(** [await sock.sendMessage(jid, { text })]; [ok = false] rejects. *)
Definition sendMessage (sk : nat) (jid text : string) (ok : bool) : M unit :=
  modify (with_wire (fun l => (l ++ [SendMessage sk jid text])%list)) ;;;
  if ok then ret tt else throw (Error "send failed").

(** [await new Promise(resolve => setTimeout(resolve, ms))] *)
Definition sleep (ms : Z) : M unit :=
  modify (with_wire (fun l => (l ++ [Sleep ms])%list)).

(** [await sock.requestPairingCode(phoneNumber, code)] *)
Definition requestPairingCode (sk : nat) (phoneNumber code : string)
    (answer : outcome string) : M string :=
  modify (with_wire (fun l => (l ++ [RequestPairingCode sk phoneNumber code])%list)) ;;;
  lift answer.

(** ** Delivery: [sendSessionViaWhatsApp] *)

Definition nl : string := String (Ascii.ascii_of_nat 10) "".
Definition dq : string := String (Ascii.ascii_of_nat 34) "".

Definition instructionsMessage : string :=
  "🔐 *WhatsApp Session Generated Successfully*" ++ nl ++ nl ++
  "📱 *Instructions:*" ++ nl ++
  "1. Save the next message as " ++ dq ++ "creds.json" ++ dq ++ nl ++
  "2. Use it in your WhatsApp bot project" ++ nl ++
  "3. Keep it secure and don't share" ++ nl ++ nl ++
  "⚠️ *Important:* This session is tied to this device. If you logout from WhatsApp, you'll need to generate a new session." ++ nl ++ nl ++
  "The creds.json content will be sent in the next message...".

Definition sendSessionViaWhatsApp (sk : nat) (phoneNumber sessionData : string)
    (first_ok second_ok : bool) : M bool :=
  try_catch
    (let jid := phoneNumber ++ "@s.whatsapp.net" in
     sendMessage sk jid instructionsMessage first_ok ;;;
     sleep 2000%Z ;;;
     let credsMessage := sessionData in
     sendMessage sk jid credsMessage second_ok ;;;
     ret true)
    (fun _ => ret false).

(** ** [initializeWhatsApp] *)

(** What the protocol library answers between the first [await] and
    the end of [makeWASocket]. *)
Inductive init_result :=
| UseMultiFileAuthStateRejects (e : error)
| FetchLatestBaileysVersionRejects (e : error)
| MakeWASocketThrows (e : error)
| Made (registered : bool).

(** The [catch] block of [initializeWhatsApp]. *)
Definition initializeWhatsApp_catch {A} (phoneNumber : string) (e : error) : M A :=
  emit Io (N_error (Some phoneNumber) "Failed to initialize WhatsApp connection") ;;;
  throw e.

(** From the call to the first [await]: the storage directory. *)
Definition initializeWhatsApp_enter (phoneNumber : string) : M path :=
  try_catch
    (let sessionPath := getSessionPath phoneNumber in
     w <- get ;;
     (if existsSync (fs w) sessionPath then ret tt
      else fs' <- lift (mkdirSync (fs w) sessionPath) ;;
           modify (with_fs (fun _ => fs'))) ;;;
     ret sessionPath)
    (initializeWhatsApp_catch phoneNumber).

(** From the [await]s to [return sock]: connection, Store record,
    pairing timer, handler registration. *)
Definition initializeWhatsApp_leave (phoneNumber : string) (sessionPath : path)
    (r : init_result) : M nat :=
  try_catch
    (match r with
     | UseMultiFileAuthStateRejects e => throw e
     | FetchLatestBaileysVersionRejects e => throw e
     | MakeWASocketThrows e => throw e
     | Made registered =>
         sk <- makeWASocket phoneNumber sessionPath ;;
         store_set phoneNumber
           {| sock := sk; sessionPath := sessionPath;
              saveCreds := sessionPath; connected := false |} ;;;
         (if negb registered then setTimeout (PairingCode sk phoneNumber) 3000%Z
          else ret tt) ;;;
         ret sk
     end)
    (initializeWhatsApp_catch phoneNumber).

(** What the caller does once the promise of [initializeWhatsApp]
    settles: the rest of its [try] block, or its [catch] block.  The
    reconnect timer has neither: a rejection stays unhandled. *)
Definition settle (c : caller) (cleanPhoneNumber : string) (r : outcome nat)
  : M unit :=
  match c, r with
  | FromSocket _, Returned _ => ret tt
  | FromSocket client, Thrown _ =>
      emit (Socket client)
        (N_error (Some cleanPhoneNumber) "Failed to generate session")
  | FromRest req, Returned _ =>
      respond req (Json 200 (JObj [("success", JBool true);
                                   ("message", JStr "Session generation started");
                                   ("phoneNumber", JStr cleanPhoneNumber)]))
  | FromRest req, Thrown _ =>
      respond req (Json 500 (JObj [("error", JStr "Failed to generate session")]))
  | FromTimer, Returned _ => ret tt
  | FromTimer, Thrown e => throw e
  end.

(** [await initializeWhatsApp(phoneNumber, io)] seen from the caller:
    either the call fails before its first [await] and the caller is
    settled at once, or it is suspended. *)
Definition await_initializeWhatsApp (phoneNumber : string) (c : caller) : M unit :=
  fun w =>
    match initializeWhatsApp_enter phoneNumber w with
    | (Returned sessionPath, w') =>
        (Returned tt,
         with_awaiting (fun l =>
           (l ++ [{| p_phoneNumber := phoneNumber; p_sessionPath := sessionPath;
                     p_caller := c |}])%list) w')
    | (Thrown e, w') => settle c phoneNumber (Thrown e) w'
    end.

(** A suspended call resumes with the library's answer. *)
Definition resume_initializeWhatsApp (p : pending_init) (r : init_result) : M unit :=
  fun w =>
    match initializeWhatsApp_leave (p_phoneNumber p) (p_sessionPath p) r w with
    | (o, w') => settle (p_caller p) (p_phoneNumber p) o w'
    end.

(** ** The [connection.update] handler *)

Inductive connection_state := close | open | connecting.

(** The fields of an update the handler reads: [connection], and
    [lastDisconnect?.error?.output?.statusCode] ([None]: undefined). *)
Record update := {
  connection : option connection_state;
  statusCode : option Z
}.

Definition shouldReconnect (u : update) : bool :=
  negb (bool_decide (statusCode u = Some DisconnectReason_loggedOut)).

Definition on_connection_update (sk : nat) (phoneNumber : string)
    (sessionPath : path) (u : update) : M unit :=
  match connection u with
  | Some close =>
      if shouldReconnect u then
        emit Io (N_connectionStatus phoneNumber St_reconnecting) ;;;
        store_delete phoneNumber ;;;
        setTimeout (Reconnect phoneNumber) 5000%Z
      else
        emit Io (N_connectionStatus phoneNumber St_logged_out) ;;;
        store_delete phoneNumber
  | Some open =>
      emit Io (N_connectionStatus phoneNumber St_connected) ;;;
      w <- get ;;
      match activeSessions w !! phoneNumber with
      | Some session =>
          store_set phoneNumber (mark_connected session) ;;;
          setTimeout (Stabilized sk phoneNumber sessionPath) 3000%Z
      | None => ret tt
      end
  | Some connecting =>
      emit Io (N_connectionStatus phoneNumber St_connecting)
  | None => ret tt
  end.

(** ** Deferred actions *)

(** What the environment answers while a callback runs. *)
Record answers := {
  end_ok : bool;
  pairing : outcome string;
  now : string;
  first_send_ok : bool;
  second_send_ok : bool
}.

(** The pairing-code request, 3000 ms after registration. *)
Definition on_pairing_timer (sk : nat) (phoneNumber : string)
    (answer : outcome string) : M unit :=
  try_catch
    (let customPairCode := "SAMUEL01" in
     pairingCode <- requestPairingCode sk phoneNumber customPairCode answer ;;
     emit Io (N_pairingCode phoneNumber pairingCode))
    (fun _ => emit Io (N_error (Some phoneNumber)
                         "Failed to generate custom pairing code")).

(** The retirement, 10000 ms after a delivery. *)
Definition on_retire_timer (phoneNumber : string) (sessionPath : path)
    (end_ok : bool) : M unit :=
  try_catch
    (w <- get ;;
     match activeSessions w !! phoneNumber with
     | Some session =>
         sock_end (sock session) end_ok ;;;
         store_delete phoneNumber
     | None => ret tt
     end ;;;
     w' <- get ;;
     if existsSync (fs w') sessionPath
     then modify (with_fs (fun f => rmSync f sessionPath))
     else ret tt)
    (fun _ => ret tt).

(** A string is truthy unless it is empty; [null] is falsy. *)
Definition truthy (sessionData : option string) : option string :=
  match sessionData with
  | Some text => if String.eqb text "" then None else Some text
  | None => None
  end.

(** The text of an assembly that succeeded, as the callback tests it. *)
Definition truthy_text (r : outcome (option string)) : option string :=
  match r with
  | Returned sessionData => truthy sessionData
  | Thrown _ => None
  end.

(** Assembly and delivery, 3000 ms after [open].  The [await]s of the
    delivery touch the wire only, so the callback runs as one task. *)
Definition on_stabilized_timer (sk : nat) (phoneNumber : string)
    (sessionPath : path) (a : answers) : M unit :=
  try_catch
    (w <- get ;;
     sessionData <- lift (createCredsJson (fs w) (now a) sessionPath) ;;
     match truthy sessionData with
     | Some sessionData =>
         sent <- sendSessionViaWhatsApp sk phoneNumber sessionData
                   (first_send_ok a) (second_send_ok a) ;;
         if sent : bool then
           emit Io (N_sessionReady phoneNumber
                      "Session sent to your WhatsApp! Check your messages." true) ;;;
           setTimeout (Retire phoneNumber sessionPath) 10000%Z
         else
           emit Io (N_error (Some phoneNumber) "Failed to send session via WhatsApp")
     | None =>
         emit Io (N_error (Some phoneNumber) "Error creating session file")
     end)
    (fun _ => emit Io (N_error (Some phoneNumber) "Error processing session")).

(** The reconnection, 5000 ms after a close that was not a logout. *)
Definition on_reconnect_timer (phoneNumber : string) : M unit :=
  await_initializeWhatsApp phoneNumber FromTimer.

(** Removal of a downloaded file, 5000 ms after the download. *)
Definition on_delete_timer (filePath : path) : M unit :=
  try_catch
    (w <- get ;;
     if existsSync (fs w) filePath
     then fs' <- lift (unlinkSync (fs w) filePath) ;;
          modify (with_fs (fun _ => fs'))
     else ret tt)
    (fun _ => ret tt).

Definition run_callback (cb : callback) (a : answers) : M unit :=
  match cb with
  | PairingCode sk phoneNumber => on_pairing_timer sk phoneNumber (pairing a)
  | Stabilized sk phoneNumber sessionPath =>
      on_stabilized_timer sk phoneNumber sessionPath a
  | Retire phoneNumber sessionPath =>
      on_retire_timer phoneNumber sessionPath (end_ok a)
  | Reconnect phoneNumber => on_reconnect_timer phoneNumber
  | DeleteDownloaded filePath => on_delete_timer filePath
  end.

(** ** Request handlers *)

(** Both entry points: an existing record is closed (an error of
    [end] is swallowed) and removed. *)
Definition evict (cleanPhoneNumber : string) (end_ok : bool) : M unit :=
  w <- get ;;
  match activeSessions w !! cleanPhoneNumber with
  | Some existingSession =>
      try_catch (sock_end (sock existingSession) end_ok) (fun _ => ret tt) ;;;
      store_delete cleanPhoneNumber
  | None => ret tt
  end.

(** [!phoneNumber] for a value that is absent or a string. *)
Definition missing (phoneNumber : option string) : bool :=
  match phoneNumber with
  | None => true
  | Some s => String.eqb s ""
  end.

(** [socket.on('generateSession', ..)] *)
Definition on_generateSession (client : nat) (phoneNumber : option string)
    (end_ok : bool) : M unit :=
  match phoneNumber with
  | None => emit (Socket client) (N_error None "Phone number is required")
  | Some phoneNumber =>
      if String.eqb phoneNumber "" then
        emit (Socket client) (N_error None "Phone number is required")
      else
        let cleanPhoneNumber := remove_non_digits phoneNumber in
        if (String.length cleanPhoneNumber <? 10)%nat then
          emit (Socket client) (N_error None "Invalid phone number format")
        else
          evict cleanPhoneNumber end_ok ;;;
          emit (Socket client) (N_connectionStatus cleanPhoneNumber St_initializing) ;;;
          await_initializeWhatsApp cleanPhoneNumber (FromSocket client)
  end.

(** [app.post('/api/generate-session', ..)] *)
Definition post_generate_session (req : nat) (phoneNumber : option string)
    (end_ok : bool) : M unit :=
  match phoneNumber with
  | None => respond req (Json 400 (JObj [("error", JStr "Phone number is required")]))
  | Some phoneNumber =>
      if String.eqb phoneNumber "" then
        respond req (Json 400 (JObj [("error", JStr "Phone number is required")]))
      else
        let cleanPhoneNumber := remove_non_digits phoneNumber in
        evict cleanPhoneNumber end_ok ;;;
        await_initializeWhatsApp cleanPhoneNumber (FromRest req)
  end.

(** [app.get('/download/:filename', ..)] up to the call of
    [res.download], whose transfer completes later.  The path handed
    on is kept without the slash that may end it. *)
Definition get_download (req : nat) (filename : string) : M unit :=
  let filePath := path_join sessionsDir filename in
  w <- get ;;
  if negb (existsSync_join (fs w) sessionsDir filename) then
    respond req (Json 404 (JObj [("error", JStr "File not found")]))
  else
    modify (with_downloads (fun l => (l ++ [(req, filePath)])%list)).

(** The callback of [res.download]. *)
Definition download_callback (req : nat) (filePath : path) (err : bool) : M unit :=
  if err then
    respond req (Json 500 (JObj [("error", JStr "Download failed")]))
  else
    respond req (Download filePath) ;;;
    setTimeout (DeleteDownloaded filePath) 5000%Z.

(** ** The event loop *)

Inductive event :=
| GenerateSession (client : nat) (phoneNumber : option string) (end_ok : bool)
| PostGenerateSession (req : nat) (phoneNumber : option string) (end_ok : bool)
| Resume (i : nat) (r : init_result)
| ConnectionUpdate (sk : nat) (u : update)
| Fire (i : nat) (a : answers)
| GetDownload (req : nat) (filename : string)
| DownloadDone (i : nat) (err : bool)
| ProtocolSave (p : path) (content : string).

(** A task runs to completion; what it throws past its last handler is
    an unhandled rejection, which the process only logs. *)
Definition exec (m : M unit) (w : world) : world :=
  match m w with
  | (Returned _, w') => w'
  | (Thrown e, w') => with_rejections (fun l => (l ++ [e])%list) w'
  end.

Definition step (ev : event) (w : world) : world :=
  match ev with
  | GenerateSession client phoneNumber end_ok =>
      exec (on_generateSession client phoneNumber end_ok) w
  | PostGenerateSession req phoneNumber end_ok =>
      exec (post_generate_session req phoneNumber end_ok) w
  | Resume i r =>
      match awaiting w !! i with
      | Some p =>
          exec (resume_initializeWhatsApp p r)
            (with_awaiting (fun l => delete i l) w)
      | None => w
      end
  | ConnectionUpdate sk u =>
      match connections w !! sk with
      | Some c =>
          let w' := match connection u with
                    | Some close => with_connections (close_connection sk) w
                    | _ => w
                    end in
          exec (on_connection_update sk (owner c) (storage c) u) w'
      | None => w
      end
  | Fire i a =>
      match timers w !! i with
      | Some (cb, _) =>
          exec (run_callback cb a) (with_timers (fun l => delete i l) w)
      | None => w
      end
  | GetDownload req filename => exec (get_download req filename) w
  | DownloadDone i err =>
      match downloads w !! i with
      | Some (req, filePath) =>
          exec (download_callback req filePath err)
            (with_downloads (fun l => delete i l) w)
      | None => w
      end
  | ProtocolSave p content => with_fs (fs_write p content) w
  end.

Definition run (evs : list event) (w : world) : world :=
  foldl (fun w ev => step ev w) w evs.

(** The process at start-up: the sessions directory exists. *)
Definition boot (disk : node) : world :=
  {| activeSessions := ∅; connections := [];
     fs := (if existsSync disk sessionsDir then disk
            else match mkdirSync disk sessionsDir with
                 | Returned disk' => disk'
                 | Thrown _ => disk
                 end);
     timers := []; awaiting := []; downloads := [];
     emitted := []; responses := []; wire := []; rejections := [] |}.

(** The connections that are live for an identifier. *)
Definition live_for (phoneNumber : string) (w : world) : list wa_socket :=
  filter (fun c => owner c = phoneNumber ∧ live c = true) (connections w).

Definition is_live (sk : nat) (w : world) : bool :=
  match connections w !! sk with
  | Some c => live c
  | None => false
  end.

(** Every record of the Store names a connection that was made for its
    identifier and its directory. *)
Definition registered (w : world) : Prop :=
  ∀ id r, activeSessions w !! id = Some r →
    ∃ c, connections w !! sock r = Some c ∧ owner c = id ∧ storage c = sessionPath r.

(** How one task may change the Store and the connections. *)
Inductive moves (w w' : world) : Prop :=
| moves_same :
    activeSessions w' = activeSessions w → connections w' = connections w →
    moves w w'
| moves_delete id :
    activeSessions w' = delete id (activeSessions w) →
    connections w' = connections w → moves w w'
| moves_close sk :
    activeSessions w' = activeSessions w →
    connections w' = close_connection sk (connections w) → moves w w'
| moves_evict id sk :
    activeSessions w' = delete id (activeSessions w) →
    connections w' = close_connection sk (connections w) → moves w w'
| moves_mark id r :
    activeSessions w !! id = Some r →
    activeSessions w' = <[id := mark_connected r]> (activeSessions w) →
    connections w' = connections w → moves w w'
| moves_register id p :
    activeSessions w' =
      <[id := {| sock := length (connections w); sessionPath := p;
                 saveCreds := p; connected := false |}]> (activeSessions w) →
    connections w' =
      (connections w ++ [{| owner := id; storage := p; live := true |}])%list →
    moves w w'.

(** The text a stabilization callback delivers, when assembly gives a
    non-empty text and both messages are accepted. *)
Definition delivered (w : world) (sessionPath : path) (a : answers)
  : option string :=
  match createCredsJson (fs w) (now a) sessionPath with
  | Returned sessionData =>
      match truthy sessionData with
      | Some text =>
          if first_send_ok a && second_send_ok a then Some text else None
      | None => None
      end
  | Thrown _ => None
  end.

(** ** What the specification asks of the coordinator, as predicates *)

(** At most one live connection for an identifier. *)
Definition one_live_connection (phoneNumber : string) (w : world) : Prop :=
  (length (live_for phoneNumber w) ≤ 1)%nat.

(** A retirement armed by the session of connection [sk] does nothing
    when the Store holds the record of another connection. *)
Definition retirement_spares_newer (sk : nat) (phoneNumber : string)
    (sessionPath : path) (end_ok : bool) (w : world) : Prop :=
  ∀ r, activeSessions w !! phoneNumber = Some r → sock r ≠ sk →
       let w' := exec (on_retire_timer phoneNumber sessionPath end_ok) w in
       connections w' = connections w ∧
       activeSessions w' = activeSessions w ∧
       fs w' = fs w.

(** A retry started by the reconnect timer leaves a record that is
    already in the Store in place. *)
Definition retry_yields_to_newer (i : nat) (r : init_result) (w : world) : Prop :=
  ∀ p rec, awaiting w !! i = Some p → p_caller p = FromTimer →
           activeSessions w !! p_phoneNumber p = Some rec →
           activeSessions (step (Resume i r) w) !! p_phoneNumber p = Some rec.

(** An event leaves no exception unhandled. *)
Definition never_rethrown (ev : event) (w : world) : Prop :=
  rejections (step ev w) = rejections w.

(** Delivery puts the instructions, a pause of 2000 ms and the artifact
    on the wire of the session's connection. *)
Definition sends_two_messages (sk : nat) (phoneNumber sessionData : string)
    (first_ok second_ok : bool) (w : world) : Prop :=
  wire (sendSessionViaWhatsApp sk phoneNumber sessionData first_ok second_ok w).2
  = (wire w ++
     [SendMessage sk (phoneNumber +:+ "@s.whatsapp.net") instructionsMessage;
      Sleep 2000;
      SendMessage sk (phoneNumber +:+ "@s.whatsapp.net") sessionData])%list.

(** A request for a session is refused: the world is as before but for
    one notification to the client or one response with a 4xx status. *)
Definition refused (w w' : world) : Prop :=
  activeSessions w' = activeSessions w ∧ connections w' = connections w ∧
  fs w' = fs w ∧ timers w' = timers w ∧ awaiting w' = awaiting w ∧
  ((∃ client message,
      emitted w' = (emitted w ++ [(Socket client, N_error None message)])%list ∧
      responses w' = responses w) ∨
   (∃ req status body,
      responses w' = (responses w ++ [(req, Json status body)])%list ∧
      (400 ≤ status < 500)%nat ∧ emitted w' = emitted w)).

(** The file a requested name stands for under the sessions directory:
    the name resolves to a path below that directory and a regular
    file is there. *)
Definition file_under_sessionsDir (filename : string) (w : world) : Prop :=
  ∃ rel content,
    path_join sessionsDir filename = (sessionsDir ++ rel)%list ∧
    fs_lookup (sessionsDir ++ rel)%list (fs w) = Some (File content).

(** A download of a name with no file under the sessions directory is
    answered 404 and leaves the disk as it was. *)
Definition absent_download_refused (req : nat) (filename : string)
    (w : world) : Prop :=
  ¬ file_under_sessionsDir filename w →
  let w' := step (GetDownload req filename) w in
  responses w' =
    (responses w ++
     [(req, Json 404 (JObj [("error", JStr "File not found")]))])%list ∧
  fs w' = fs w.

End Server.

(** ** A runtime and inputs for the examples *)

Definition example_dirname : path := ["srv"; "app"].

Definition example_disk : node := Dir [("srv", Dir [("app", Dir [])])].

Definition foo_bar : string :=
  "{" ++ dq ++ "foo" ++ dq ++ ":" ++ dq ++ "bar" ++ dq ++ "}".

(** Base credentials that carry a [preKeys] field of their own. *)
Definition stale_creds : string := "{" ++ dq ++ "preKeys" ++ dq ++ ":1}".

(** [JSON.parse] on the texts the examples store. *)
Definition example_parse (text : string) : option json :=
  if String.eqb text foo_bar then Some (JObj [("foo", JStr "bar")])
  else if String.eqb text stale_creds then Some (JObj [("preKeys", JNum 1)])
  else if String.eqb text "{}" then Some (JObj [])
  else None.

(** A session directory [/s] with stale base credentials and one
    pre-key fragment, and one whose base credentials do not parse. *)
Definition stale_disk : node :=
  Dir [("s", Dir [("creds.json", File stale_creds);
                  ("pre-key-1.json", File "{}")])].

Definition broken_disk : node :=
  Dir [("s", Dir [("creds.json", File "{")])].

(** [JSON.stringify] for values whose strings need no escape. *)
Fixpoint print_json (v : json) : string :=
  match v with
  | JNull => "null"
  | JBool true => "true"
  | JBool false => "false"
  | JNum n => pretty n
  | JStr s => dq ++ s ++ dq
  | JArr items =>
      "[" ++ (fix go (l : list json) : string :=
                match l with
                | [] => ""
                | [x] => print_json x
                | x :: rest => print_json x ++ "," ++ go rest
                end) items ++ "]"
  | JObj props =>
      "{" ++ (fix go (l : list (string * json)) : string :=
                match l with
                | [] => ""
                | [(k, x)] => dq ++ k ++ dq ++ ":" ++ print_json x
                | (k, x) :: rest =>
                    dq ++ k ++ dq ++ ":" ++ print_json x ++ "," ++ go rest
                end) props ++ "}"
  end.

Definition example_answers : answers :=
  {| end_ok := true; pairing := Returned "SAMUEL01";
     now := "2026-01-01T00:00:00.000Z";
     first_send_ok := true; second_send_ok := true |}.

Definition example_id : string := "15551234567".

Definition example_path : path := getSessionPath example_dirname example_id.

Definition example_boot : world := boot example_dirname example_disk.

Definition example_step : event -> world -> world :=
  step example_dirname example_parse print_json.

Definition example_run : list event -> world -> world :=
  run example_dirname example_parse print_json.

Definition opened : update := {| connection := Some open; statusCode := None |}.

(** A close without a status code, as after a network drop. *)
Definition dropped : update := {| connection := Some close; statusCode := None |}.

Definition logged_out : update :=
  {| connection := Some close; statusCode := Some DisconnectReason_loggedOut |}.

(** Two requests for one identifier, the second arriving while the
    first is still suspended in [initializeWhatsApp]. *)
Definition overlapping_requests : list event :=
  [GenerateSession 0 (Some example_id) true;
   GenerateSession 1 (Some example_id) true;
   Resume 0 (Made false);
   Resume 0 (Made false)].

(** A session is delivered; before its retirement fires (10000 ms) the
    same identifier is requested again and the new session registers. *)
Definition superseded_before_retirement : list event :=
  [GenerateSession 0 (Some example_id) true;
   Resume 0 (Made true);
   ConnectionUpdate 0 opened;
   Fire 0 example_answers;
   GenerateSession 1 (Some example_id) true;
   Resume 0 (Made true)].

(** A connection drops; before the retry fires (5000 ms) the same
    identifier is requested again and the new session registers; then
    the retry fires. *)
Definition requested_before_retry : list event :=
  [GenerateSession 0 (Some example_id) true;
   Resume 0 (Made true);
   ConnectionUpdate 0 dropped;
   GenerateSession 1 (Some example_id) true;
   Resume 0 (Made true);
   Fire 0 example_answers].

(** A connection drops and the retry fires. *)
Definition retry_after_drop : list event :=
  [GenerateSession 0 (Some example_id) true;
   Resume 0 (Made true);
   ConnectionUpdate 0 dropped;
   Fire 0 example_answers].

(** ** Digit strings and diverging paths *)

Fixpoint all_digits (s : string) : bool :=
  match s with
  | EmptyString => true
  | String c s' => is_digit c && all_digits s'
  end.

(** Two paths that part at some component: neither is inside the other. *)
Definition diverge (p q : path) : Prop :=
  ∃ l a b p' q', p = (l ++ a :: p')%list ∧ q = (l ++ b :: q')%list ∧ a ≠ b.

(** ** Environment, allowed origins and the CORS check *)

(** [v || d] for a value that is absent or a string. *)
Definition or_default (v : option string) (d : string) : string :=
  match truthy v with
  | Some s => s
  | None => d
  end.

(** [process.env.NODE_ENV || 'development'] *)
Definition NODE_ENV (env_NODE_ENV : option string) : string :=
  or_default env_NODE_ENV "development".

(** The list built at start-up; [.filter(Boolean)] drops an absent or
    empty [FRONTEND_URL]. *)
Definition allowedOrigins (env_NODE_ENV FRONTEND_URL : option string)
  : list string :=
  if String.eqb (NODE_ENV env_NODE_ENV) "production" then
    omap truthy
      [FRONTEND_URL;
       Some "https://your-infinityfree-domain.infinityfreeapp.com"]
  else
    ["http://localhost:3001";
     "http://localhost:3000";
     "http://127.0.0.1:3001";
     "http://127.0.0.1:5500";
     "http://127.0.0.1:3000"].

(** The [origin] function given to [cors]: [callback(null, true)] is
    [Returned true], [callback(new Error(..))] is [Thrown]. *)
Definition cors_origin (allowed : list string) (origin : option string)
  : outcome bool :=
  match truthy origin with
  | None => Returned true
  | Some origin =>
      if bool_decide (origin ∈ allowed) then Returned true
      else Thrown (Error "Not allowed by CORS")
  end.

(** What an error-handling middleware does with an error. *)
Inductive handled :=
| Responded (r : response)
| Next (err : error).

(** The error-handling middleware registered after [cors]. *)
Definition cors_error_middleware (allowed : list string) (err : error) : handled :=
  match err with
  | Error message =>
      if String.eqb message "Not allowed by CORS" then
        Responded (Json 403
          (JObj [("error", JStr "CORS policy violation");
                 ("message", JStr "Origin not allowed");
                 ("allowedOrigins", JArr (JStr <$> allowed))]))
      else Next err
  end.

(** ** Read-only endpoints *)

(** [GET /api/sessions].  The entries come in the order of
    [map_to_list]; the insertion order of the JavaScript Map is not
    kept by the model. *)
Definition api_sessions (w : world) : json :=
  JObj [("sessions",
         JArr ((λ kv : string * session,
                  JObj [("phoneNumber", JStr kv.1);
                        ("connected", JBool (connected kv.2))])
               <$> map_to_list (activeSessions w)))].

(** [GET /api/health] *)
Definition api_health (env_NODE_ENV FRONTEND_URL : option string)
    (now : string) (w : world) : json :=
  JObj [("status", JStr "OK");
        ("activeSessions", JNum (Z.of_nat (size (activeSessions w))));
        ("timestamp", JStr now);
        ("environment", JStr (NODE_ENV env_NODE_ENV));
        ("allowedOrigins", JArr (JStr <$> allowedOrigins env_NODE_ENV FRONTEND_URL));
        ("frontendUrl", JStr (or_default FRONTEND_URL "Not configured"))].

(** ** Shutdown: [cleanup] *)

(** The body of the [forEach]: [end] on every record's connection, an
    error of [end] swallowed; [end_ok sk] tells whether [end] of
    connection [sk] returns.  The records are visited in the order of
    [map_to_list], not in the insertion order of the JavaScript Map;
    the visits do not depend on one another. *)
Fixpoint end_all (end_ok : nat → bool) (l : list (string * session)) : M unit :=
  match l with
  | [] => ret tt
  | (phoneNumber, session) :: rest =>
      bind (try_catch (sock_end (sock session) (end_ok (sock session)))
              (λ _, ret tt))
        (λ _, end_all end_ok rest)
  end.

Definition cleanup (end_ok : nat → bool) : M unit :=
  bind get (λ w,
  bind (end_all end_ok (map_to_list (activeSessions w))) (λ _,
  modify (with_activeSessions (λ _, ∅)))).

(** The connections after the [forEach] of [cleanup] over the records
    [l]. *)
Definition ended_by (end_ok : nat → bool) (l : list (string * session))
    (cs : list wa_socket) : list wa_socket :=
  foldl (λ cs kv, if end_ok (sock kv.2) then close_connection (sock kv.2) cs else cs)
    cs l.

(** ** Names kept by the coordinator *)

(** An identifier made of digits, with the storage path derived from it. *)
Definition named (d : path) (phoneNumber : string) (sessionPath : path) : Prop :=
  all_digits phoneNumber = true ∧ sessionPath = getSessionPath d phoneNumber.

Definition callback_named (d : path) (cb : callback) : Prop :=
  match cb with
  | PairingCode _ phoneNumber => all_digits phoneNumber = true
  | Stabilized _ phoneNumber sessionPath => named d phoneNumber sessionPath
  | Retire phoneNumber sessionPath => named d phoneNumber sessionPath
  | Reconnect phoneNumber => all_digits phoneNumber = true
  | DeleteDownloaded _ => True
  end.

(** Every identifier the process holds, in the Store, in a connection,
    in a suspended initialization or in a pending timer, is made of
    digits and goes with the storage path derived from it. *)
Definition well_named (d : path) (w : world) : Prop :=
  (∀ id r, activeSessions w !! id = Some r → named d id (sessionPath r)) ∧
  Forall (λ c, named d (owner c) (storage c)) (connections w) ∧
  Forall (λ p, named d (p_phoneNumber p) (p_sessionPath p)) (awaiting w) ∧
  Forall (λ t : callback * Z, callback_named d t.1) (timers w).

(** ** Monotone facts along a run *)

(** A connection keeps its place, identifier and directory, and does
    not come back to life. *)
Definition kept (w w' : world) : Prop :=
  ∀ i c, connections w !! i = Some c →
    ∃ c', connections w' !! i = Some c' ∧ owner c' = owner c ∧
          storage c' = storage c ∧ (live c' = true → live c = true).

(** A record of connection [sk] under [id] is marked connected, and
    every connection to come has a later rank. *)
Definition stays_connected (id : string) (sk : nat) (w : world) : Prop :=
  registered w ∧ sk < length (connections w) ∧
  ∀ r, activeSessions w !! id = Some r → sock r = sk → connected r = true.

(** A name that [path.join] appends as it is: not empty, not "." or
    "..", and without a slash. *)
Fixpoint no_slash (s : string) : bool :=
  match s with
  | EmptyString => true
  | String c s' => negb (Ascii.eqb c (Ascii.ascii_of_nat 47)) && no_slash s'
  end.

Definition plain_name (s : string) : bool :=
  no_slash s && negb (String.eqb s "") && negb (String.eqb s ".")
  && negb (String.eqb s "..").

(** ** Inputs for the further examples *)

Definition other_id : string := "15557654321".

Definition other_path : path := getSessionPath example_dirname other_id.

(** A session directory [/s] with two pre-key files, the second one
    written first. *)
Definition two_prekeys_disk : node :=
  Dir [("s", Dir [("creds.json", File "{}");
                  ("pre-key-2.json", File "{");
                  ("pre-key-1.json", File foo_bar)])].

(** The first session was superseded by a second one whose connection
    is live. *)
Definition superseded : world :=
  example_run [GenerateSession 0 (Some example_id) true;
               Resume 0 (Made true);
               GenerateSession 1 (Some example_id) true;
               Resume 0 (Made true)] example_boot.

(** Two identifiers with a session each; the second has saved its base
    credentials. *)
Definition two_sessions : world :=
  example_run [GenerateSession 0 (Some example_id) true;
               Resume 0 (Made true);
               GenerateSession 1 (Some other_id) true;
               Resume 0 (Made true);
               ProtocolSave (other_path ++ ["creds.json"])%list foo_bar]
    example_boot.

(** A session whose record is marked connected. *)
Definition connected_world : world :=
  example_run [GenerateSession 0 (Some example_id) true;
               Resume 0 (Made true);
               ConnectionUpdate 0 opened] example_boot.

(** The application directory holds [server.js]. *)
Definition deployed : world :=
  example_step (ProtocolSave (example_dirname ++ ["server.js"])%list "code")
    example_boot.

(** * Properties *)

(** ** File system and objects *)

Lemma fs_lookup_app (p q : path) (n : node) :
  fs_lookup (p ++ q)%list n = fs_lookup p n ≫= fs_lookup q.
Proof.
  revert n. induction p as [|c p IH]; intros n; simpl.
  - reflexivity.
  - destruct n as [|es]; [reflexivity|].
    destruct (entry c es); [apply IH|reflexivity].
Qed.

Lemma path_join_creds (p : path) :
  path_join p "creds.json" = (p ++ ["creds.json"])%list.
Proof. reflexivity. Qed.

Lemma obj_get_set_eq k v l : obj_get k (obj_set k v l) = Some v.
Proof.
  induction l as [|[k' v'] l IH]; simpl.
  - by rewrite String.eqb_refl.
  - destruct (String.eqb k' k) eqn:E; simpl; rewrite E; [reflexivity|apply IH].
Qed.

Lemma obj_get_set_ne k k' v l :
  k ≠ k' → obj_get k' (obj_set k v l) = obj_get k' l.
Proof.
  intros Hne. induction l as [|[k0 v0] l IH]; simpl.
  - destruct (String.eqb k k') eqn:E; [|reflexivity].
    apply String.eqb_eq in E. contradiction.
  - destruct (String.eqb k0 k) eqn:E; simpl.
    + apply String.eqb_eq in E. subst k0.
      destruct (String.eqb k k') eqn:E'; [|reflexivity].
      apply String.eqb_eq in E'. contradiction.
    + by rewrite IH.
Qed.

Lemma entry_filter c (es : list (string * node)) :
  entry c (filter (λ e, negb (String.eqb e.1 c) = true) es) = None.
Proof.
  induction es as [|[k x] es IH]; [reflexivity|].
  rewrite filter_cons. cbn [fst].
  destruct (decide (negb (String.eqb k c) = true)) as [H|H].
  - simpl. apply negb_true_iff in H. rewrite H. apply IH.
  - apply IH.
Qed.

Lemma entry_fmap c (f : node → node) (es : list (string * node)) :
  entry c ((λ e, if String.eqb e.1 c then (e.1, f e.2) else e) <$> es)
  = f <$> entry c es.
Proof.
  induction es as [|[k x] es IH]; [reflexivity|].
  rewrite fmap_cons. simpl.
  destruct (String.eqb k c) eqn:E; simpl; rewrite E; [reflexivity|apply IH].
Qed.

Lemma fs_lookup_remove p n : p ≠ [] → fs_lookup p (fs_remove p n) = None.
Proof.
  revert n. induction p as [|c p IH]; intros n Hp; [done|].
  destruct n as [content|es]; [reflexivity|].
  destruct p as [|c' p].
  - simpl. by rewrite entry_filter.
  - change (fs_remove (c :: c' :: p) (Dir es))
      with (Dir ((λ e, if String.eqb e.1 c
                       then (e.1, fs_remove (c' :: p) e.2) else e) <$> es)).
    change (fs_lookup (c :: c' :: p) (Dir ?l))
      with (match entry c l with
            | Some x => fs_lookup (c' :: p) x | None => None end).
    rewrite entry_fmap.
    destruct (entry c es) as [x|]; simpl; [|reflexivity].
    apply IH. discriminate.
Qed.

(** ** Credential assembler *)

Section Assembler.
Context (JSON_parse : string → option json) (JSON_stringify : json → string).

Lemma read_creds_empty fs sessionPath :
  fs_lookup sessionPath fs = Some (Dir []) →
  read_creds JSON_parse fs sessionPath = Returned (JObj []).
Proof.
  intros H. unfold read_creds, existsSync.
  rewrite path_join_creds, fs_lookup_app, H. reflexivity.
Qed.

(** C5. [createCredsJson] never throws; on a directory without files
    it returns the serialized object [{preKeys: {}, senderKeys: {},
    timestamp}]; when a file it parses (the base credentials or a
    selected fragment) cannot be read or parsed, or the directory
    cannot be listed, it returns [null]. *)
Theorem createCredsJson_soft_failure fs now sessionPath :
  (∃ r, createCredsJson JSON_parse JSON_stringify fs now sessionPath = Returned r) ∧
  (fs_lookup sessionPath fs = Some (Dir []) →
   createCredsJson JSON_parse JSON_stringify fs now sessionPath =
   Returned (Some (JSON_stringify
     (JObj [("preKeys", JObj []); ("senderKeys", JObj []);
            ("timestamp", JStr now)])))) ∧
  (∀ file e, reads_fragment fs sessionPath file →
     parse_file JSON_parse fs (path_join sessionPath file) = Thrown e →
     createCredsJson JSON_parse JSON_stringify fs now sessionPath = Returned None) ∧
  (∀ e, readdirSync fs sessionPath = Thrown e →
     createCredsJson JSON_parse JSON_stringify fs now sessionPath = Returned None).
Proof.
  split; [|split; [|split]]; cycle 3.
  { intros e Hdir. unfold createCredsJson, createCredsJson_try.
    destruct (read_creds _ _ _); [|reflexivity]. rewrite Hdir. reflexivity. }
  - unfold createCredsJson.
    destruct (createCredsJson_try _ _ _ _ _); eauto.
  - intros H. unfold createCredsJson, createCredsJson_try.
    rewrite (read_creds_empty _ _ H). unfold readdirSync. rewrite H.
    reflexivity.
  - intros file e Hread Hparse.
    unfold createCredsJson, createCredsJson_try.
    destruct Hread as [[-> Hex]|(files & Hdir & Hfind)].
    + unfold read_creds. rewrite Hex, Hparse. reflexivity.
    + destruct (read_creds _ _ _); [|reflexivity].
      rewrite Hdir. unfold read_fragment.
      destruct Hfind as [Hf|Hf].
      * rewrite Hf, Hparse. reflexivity.
      * rewrite Hf.
        destruct (List.find (String.prefix "pre-key-") files) as [f|].
        -- destruct (parse_file JSON_parse fs (path_join sessionPath f)) eqn:Hpre;
             [|reflexivity].
           rewrite Hparse. reflexivity.
        -- rewrite Hparse. reflexivity.
Qed.

(** C9. In the assembled artifact [preKeys], [senderKeys] and
    [timestamp] are the pre-key fragment, the sender-key fragment and
    the current time, whatever the base credentials hold under those
    names; every other key is the base credentials'. *)
Theorem fragments_take_precedence fs now sessionPath text :
  createCredsJson_try JSON_parse JSON_stringify fs now sessionPath = Returned text →
  ∃ credsData preKeysData senderKeysData files,
    read_creds JSON_parse fs sessionPath = Returned credsData ∧
    readdirSync fs sessionPath = Returned files ∧
    read_fragment JSON_parse fs sessionPath files "pre-key-" = Returned preKeysData ∧
    read_fragment JSON_parse fs sessionPath files "sender-key-" = Returned senderKeysData ∧
    let artifact := combinedCreds credsData preKeysData senderKeysData now in
    text = JSON_stringify (JObj artifact) ∧
    obj_get "preKeys" artifact = Some preKeysData ∧
    obj_get "senderKeys" artifact = Some senderKeysData ∧
    obj_get "timestamp" artifact = Some (JStr now) ∧
    ∀ k, k ≠ "preKeys" → k ≠ "senderKeys" → k ≠ "timestamp" →
         obj_get k artifact = obj_get k (spread credsData).
Proof.
  unfold createCredsJson_try. intros H.
  destruct (read_creds _ _ _) as [credsData|] eqn:Hc; [|discriminate].
  destruct (readdirSync _ _) as [files|] eqn:Hd; [|discriminate].
  destruct (read_fragment _ _ _ _ "pre-key-") as [pre|] eqn:Hp; [|discriminate].
  destruct (read_fragment _ _ _ _ "sender-key-") as [sender|] eqn:Hs;
    [|discriminate].
  injection H as <-.
  exists credsData, pre, sender, files.
  do 4 (split; [first [assumption|reflexivity]|]). cbv zeta.
  split; [reflexivity|]. unfold combinedCreds.
  split; [|split; [|split]].
  - rewrite !obj_get_set_ne by discriminate. apply obj_get_set_eq.
  - rewrite obj_get_set_ne by discriminate. apply obj_get_set_eq.
  - apply obj_get_set_eq.
  - intros k H1 H2 H3.
    rewrite !obj_get_set_ne by congruence. reflexivity.
Qed.

End Assembler.

Lemma createCredsJson_soft_failure_witness :
  createCredsJson example_parse print_json example_disk "T" ["srv"; "app"] =
    Returned (Some (print_json
      (JObj [("preKeys", JObj []); ("senderKeys", JObj []);
             ("timestamp", JStr "T")]))) ∧
  createCredsJson example_parse print_json broken_disk "T" ["s"] = Returned None.
Proof.
  split.
  - apply (createCredsJson_soft_failure example_parse print_json
             example_disk "T" ["srv"; "app"]).
    reflexivity.
  - apply (proj1 (proj2 (proj2 (createCredsJson_soft_failure example_parse
             print_json broken_disk "T" ["s"]))) "creds.json" (Error "SyntaxError")).
    + left. split; reflexivity.
    + reflexivity.
Defined.

Lemma fragments_take_precedence_witness :
  ∃ credsData preKeysData senderKeysData files,
    read_creds example_parse stale_disk ["s"] = Returned credsData ∧
    readdirSync stale_disk ["s"] = Returned files ∧
    read_fragment example_parse stale_disk ["s"] files "pre-key-"
      = Returned preKeysData ∧
    read_fragment example_parse stale_disk ["s"] files "sender-key-"
      = Returned senderKeysData ∧
    let artifact := combinedCreds credsData preKeysData senderKeysData "T" in
    print_json (JObj [("preKeys", JObj []); ("senderKeys", JObj []);
                      ("timestamp", JStr "T")])
      = print_json (JObj artifact) ∧
    obj_get "preKeys" artifact = Some preKeysData ∧
    obj_get "senderKeys" artifact = Some senderKeysData ∧
    obj_get "timestamp" artifact = Some (JStr "T") ∧
    ∀ k, k ≠ "preKeys" → k ≠ "senderKeys" → k ≠ "timestamp" →
         obj_get k artifact = obj_get k (spread credsData).
Proof.
  apply (fragments_take_precedence example_parse print_json stale_disk "T" ["s"]).
  vm_compute. reflexivity.
Defined.

(** The stale [preKeys] of the base credentials is replaced in place. *)
Example stale_preKeys_overwritten :
  createCredsJson example_parse print_json stale_disk "T" ["s"] =
  Returned (Some (print_json
    (JObj [("preKeys", JObj []); ("senderKeys", JObj []);
           ("timestamp", JStr "T")]))).
Proof. reflexivity. Qed.

(** ** Handlers, one by one *)

Ltac unfold_m :=
  cbv [bind ret throw try_catch get modify lift emit respond setTimeout
       store_set store_delete sock_end makeWASocket sendMessage sleep
       requestPairingCode].

(** C7. A close event whose reason is a logout emits [logged_out],
    removes the record of the identifier within the handler itself,
    and schedules nothing: no timer, no suspended call. *)
Theorem logout_removes_record w sk phoneNumber sessionPath u :
  connection u = Some close →
  statusCode u = Some DisconnectReason_loggedOut →
  ∃ w', on_connection_update sk phoneNumber sessionPath u w = (Returned tt, w') ∧
    emitted w' = (emitted w ++ [(Io, N_connectionStatus phoneNumber St_logged_out)])%list ∧
    activeSessions w' = delete phoneNumber (activeSessions w) ∧
    activeSessions w' !! phoneNumber = None ∧
    connections w' = connections w ∧
    timers w' = timers w ∧ awaiting w' = awaiting w.
Proof.
  intros Hc Hs. unfold on_connection_update, shouldReconnect.
  rewrite Hc, Hs. rewrite bool_decide_eq_true_2 by reflexivity. simpl.
  unfold_m. simpl. eexists. split; [reflexivity|]. simpl.
  repeat split. apply lookup_delete_eq.
Qed.

Lemma close_reconnects w sk phoneNumber sessionPath u :
  connection u = Some close →
  statusCode u ≠ Some DisconnectReason_loggedOut →
  on_connection_update sk phoneNumber sessionPath u w =
  (Returned tt,
   with_timers (λ l, l ++ [(Reconnect phoneNumber, 5000%Z)])%list
     (with_activeSessions (delete phoneNumber)
        (with_emitted (λ l, l ++ [(Io, N_connectionStatus phoneNumber St_reconnecting)])%list w))).
Proof.
  intros Hc Hs. unfold on_connection_update, shouldReconnect.
  rewrite Hc. rewrite bool_decide_eq_false_2 by assumption. simpl.
  unfold_m. reflexivity.
Qed.

Lemma retire_spec w phoneNumber sessionPath e_ok :
  on_retire_timer phoneNumber sessionPath e_ok w =
  (Returned tt,
   match activeSessions w !! phoneNumber with
   | Some r =>
       if e_ok then
         let w1 := with_activeSessions (delete phoneNumber)
                     (with_connections (close_connection (sock r)) w) in
         if existsSync (fs w) sessionPath
         then with_fs (λ f, rmSync f sessionPath) w1 else w1
       else w
   | None =>
       if existsSync (fs w) sessionPath
       then with_fs (λ f, rmSync f sessionPath) w else w
   end).
Proof.
  unfold on_retire_timer. unfold_m.
  destruct (activeSessions w !! phoneNumber) as [r|]; simpl.
  - destruct e_ok; simpl; [|reflexivity].
    destruct (existsSync (fs w) sessionPath); reflexivity.
  - destruct (existsSync (fs w) sessionPath); reflexivity.
Qed.

Lemma send_spec w sk phoneNumber sessionData ok1 ok2 :
  sendSessionViaWhatsApp sk phoneNumber sessionData ok1 ok2 w =
  (Returned (ok1 && ok2),
   with_wire (λ l, l ++
     (let jid := phoneNumber +:+ "@s.whatsapp.net" in
      if ok1 then [SendMessage sk jid instructionsMessage; Sleep 2000;
                   SendMessage sk jid sessionData]
      else [SendMessage sk jid instructionsMessage]))%list w).
Proof.
  unfold sendSessionViaWhatsApp. unfold_m.
  destruct w; destruct ok1, ok2; simpl; unfold with_wire; simpl;
    rewrite <- ?app_assoc; reflexivity.
Qed.

Lemma delete_spec filePath w :
  on_delete_timer filePath w =
  (Returned tt,
   match fs_lookup filePath (fs w) with
   | Some (File _) => with_fs (λ _, fs_remove filePath (fs w)) w
   | _ => w
   end).
Proof.
  unfold on_delete_timer, existsSync, unlinkSync.
  cbv [bind ret throw try_catch get modify lift].
  destruct (fs_lookup filePath (fs w)) as [[content|es]|]; reflexivity.
Qed.

Lemma close_connection_dead sk cs :
  (close_connection sk cs !! sk) ≫= (λ c, Some (live c)) ≠ Some true.
Proof.
  unfold close_connection. rewrite list_lookup_alter_eq.
  by destruct (cs !! sk).
Qed.

Section Coordinator.
Context (__dirname : path) (JSON_parse : string → option json)
        (JSON_stringify : json → string).

Lemma enter_spec phoneNumber w :
  initializeWhatsApp_enter __dirname phoneNumber w =
  let sessionPath := getSessionPath __dirname phoneNumber in
  if existsSync (fs w) sessionPath then (Returned sessionPath, w)
  else match mkdirSync (fs w) sessionPath with
       | Returned fs' => (Returned sessionPath, with_fs (λ _, fs') w)
       | Thrown e =>
           (Thrown e,
            with_emitted (λ l, l ++ [(Io, N_error (Some phoneNumber)
              "Failed to initialize WhatsApp connection")])%list w)
       end.
Proof.
  unfold initializeWhatsApp_enter, initializeWhatsApp_catch. unfold_m. simpl.
  destruct (existsSync _ _); [reflexivity|].
  destruct (mkdirSync _ _); reflexivity.
Qed.

Lemma leave_spec phoneNumber sessionPath r w :
  initializeWhatsApp_leave phoneNumber sessionPath r w =
  match r with
  | Made registered =>
      let sk := length (connections w) in
      let w1 :=
        with_activeSessions
          (λ m, <[phoneNumber := {| sock := sk; sessionPath := sessionPath;
                                    saveCreds := sessionPath; connected := false |}]> m)
          (with_connections
             (λ cs, cs ++ [{| owner := phoneNumber; storage := sessionPath;
                              live := true |}])%list w) in
      (Returned sk,
       if registered then w1
       else with_timers (λ l, l ++ [(PairingCode sk phoneNumber, 3000%Z)])%list w1)
  | UseMultiFileAuthStateRejects e
  | FetchLatestBaileysVersionRejects e
  | MakeWASocketThrows e =>
      (Thrown e,
       with_emitted (λ l, l ++ [(Io, N_error (Some phoneNumber)
         "Failed to initialize WhatsApp connection")])%list w)
  end.
Proof.
  unfold initializeWhatsApp_leave, initializeWhatsApp_catch. unfold_m.
  destruct r as [e|e|e|[]]; reflexivity.
Qed.

Lemma settle_keeps c phoneNumber r w o w' :
  settle c phoneNumber r w = (o, w') →
  activeSessions w' = activeSessions w ∧ connections w' = connections w ∧
  fs w' = fs w ∧ timers w' = timers w ∧ awaiting w' = awaiting w.
Proof.
  destruct c, r; unfold settle; unfold_m; intros [= <- <-]; repeat split.
Qed.

Lemma await_keeps phoneNumber c w o w' :
  await_initializeWhatsApp __dirname phoneNumber c w = (o, w') →
  activeSessions w' = activeSessions w ∧ connections w' = connections w ∧
  timers w' = timers w.
Proof.
  unfold await_initializeWhatsApp. rewrite enter_spec. cbv zeta.
  destruct (existsSync _ _).
  - intros [= <- <-]. repeat split.
  - destruct (mkdirSync _ _).
    + intros [= <- <-]. repeat split.
    + intros H. apply settle_keeps in H as (Hs & Hc & _ & Ht & _).
      repeat split; assumption.
Qed.

Lemma evict_spec clean e_ok w :
  evict clean e_ok w =
  (Returned tt,
   match activeSessions w !! clean with
   | Some old =>
       with_activeSessions (delete clean)
         (if e_ok then with_connections (close_connection (sock old)) w else w)
   | None => w
   end).
Proof.
  unfold evict. unfold_m.
  destruct (activeSessions w !! clean); [|reflexivity].
  destruct e_ok; reflexivity.
Qed.

Lemma pairing_spec sk phoneNumber answer w :
  on_pairing_timer sk phoneNumber answer w =
  (Returned tt,
   with_emitted (λ l, l ++ [(Io, match answer with
       | Returned pairingCode => N_pairingCode phoneNumber pairingCode
       | Thrown _ => N_error (Some phoneNumber) "Failed to generate custom pairing code"
       end)])%list
     (with_wire (λ l, l ++ [RequestPairingCode sk phoneNumber "SAMUEL01"])%list w)).
Proof.
  unfold on_pairing_timer. unfold_m. destruct answer; reflexivity.
Qed.

Lemma stabilized_spec sk phoneNumber sessionPath a w :
  ∃ w', on_stabilized_timer JSON_parse JSON_stringify sk phoneNumber sessionPath a w
        = (Returned tt, w') ∧
    activeSessions w' = activeSessions w ∧ connections w' = connections w ∧
    fs w' = fs w ∧
    timers w' = (timers w ++
      match delivered JSON_parse JSON_stringify w sessionPath a with
      | Some _ => [(Retire phoneNumber sessionPath, 10000%Z)]
      | None => []
      end)%list ∧
    wire w' = (wire w ++
      match createCredsJson JSON_parse JSON_stringify (fs w) (now a) sessionPath with
      | Returned sessionData =>
          match truthy sessionData with
          | Some text =>
              let jid := phoneNumber +:+ "@s.whatsapp.net" in
              if first_send_ok a
              then [SendMessage sk jid instructionsMessage; Sleep 2000;
                    SendMessage sk jid text]
              else [SendMessage sk jid instructionsMessage]
          | None => []
          end
      | Thrown _ => []
      end)%list ∧
    ∃ n, emitted w' = (emitted w ++ [(Io, n)])%list ∧
         match delivered JSON_parse JSON_stringify w sessionPath a with
         | Some _ => ∃ message, n = N_sessionReady phoneNumber message true
         | None => ∃ message, n = N_error (Some phoneNumber) message
         end.
Proof.
  unfold on_stabilized_timer, delivered, createCredsJson.
  cbv [bind get lift try_catch].
  destruct (createCredsJson_try _ _ _ _ _) as [text|e]; simpl.
  - destruct (String.eqb text "") eqn:E.
    + unfold_m. eexists; split; [reflexivity|]. simpl.
      rewrite !app_nil_r. repeat split. eauto.
    + rewrite send_spec.
      destruct (first_send_ok a), (second_send_ok a); unfold_m; simpl;
        (eexists; split; [reflexivity|]); simpl; rewrite ?app_nil_r;
        repeat split; eauto.
  - unfold_m. eexists; split; [reflexivity|]. simpl.
    rewrite !app_nil_r. repeat split. eauto.
Qed.

Lemma resume_made_spec p registered w :
  ∃ w', resume_initializeWhatsApp p (Made registered) w = (Returned tt, w') ∧
    connections w' =
      (connections w ++ [{| owner := p_phoneNumber p; storage := p_sessionPath p;
                            live := true |}])%list ∧
    activeSessions w' =
      <[p_phoneNumber p := {| sock := length (connections w);
                              sessionPath := p_sessionPath p;
                              saveCreds := p_sessionPath p;
                              connected := false |}]> (activeSessions w).
Proof.
  unfold resume_initializeWhatsApp. rewrite leave_spec. cbv zeta.
  destruct (p_caller p), registered; unfold settle; unfold_m;
    (eexists; split; [reflexivity|]); split; reflexivity.
Qed.

Lemma request_evicts clean e_ok c (pre : M unit) w old :
  (∀ w0, ∃ w1, pre w0 = (Returned tt, w1) ∧
               activeSessions w1 = activeSessions w0 ∧
               connections w1 = connections w0) →
  activeSessions w !! clean = Some old →
  let w' := exec (bind (evict clean e_ok)
                    (λ _, bind pre (λ _, await_initializeWhatsApp __dirname clean c))) w in
  activeSessions w' = delete clean (activeSessions w) ∧
  connections w' =
    (if e_ok then close_connection (sock old) (connections w) else connections w).
Proof.
  intros Hpre Hold.
  assert (∃ o w2,
    bind (evict clean e_ok)
      (λ _, bind pre (λ _, await_initializeWhatsApp __dirname clean c)) w = (o, w2) ∧
    activeSessions w2 = delete clean (activeSessions w) ∧
    connections w2 = (if e_ok then close_connection (sock old) (connections w)
                      else connections w)) as (o & w2 & Hrun & Hs & Hc).
  { unfold bind. rewrite evict_spec, Hold.
    destruct (Hpre (with_activeSessions (delete clean)
       (if e_ok then with_connections (close_connection (sock old)) w else w)))
      as (w1 & -> & Hs & Hc).
    destruct (await_initializeWhatsApp _ _ _ w1) as [o w2] eqn:Ha.
    apply await_keeps in Ha as (Hs2 & Hc2 & _).
    exists o, w2. split; [reflexivity|].
    rewrite Hs2, Hc2, Hs, Hc. destruct e_ok; split; reflexivity. }
  cbv zeta. unfold exec. rewrite Hrun.
  destruct o; cbn [activeSessions connections with_rejections];
    split; assumption.
Qed.

(** C1 (as the code has it). The Store holds at most one record per
    identifier.  When a request is accepted for an identifier that has
    a record, the handler, on either entry point, calls [end] on the old
    record's connection (an error of [end] is swallowed) and removes
    the record, and creates no connection in that step; the new
    connection is created and registered when the suspended call of
    [initializeWhatsApp] resumes. *)
Theorem eviction_precedes_registration w phoneNumber e_ok old :
  let clean := remove_non_digits phoneNumber in
  String.eqb phoneNumber "" = false →
  (10 ≤ String.length clean)%nat →
  activeSessions w !! clean = Some old →
  (∀ id r1 r2, (id, r1) ∈ map_to_list (activeSessions w) →
               (id, r2) ∈ map_to_list (activeSessions w) → r1 = r2) ∧
  (∀ ev, (∃ client, ev = GenerateSession client (Some phoneNumber) e_ok) ∨
         (∃ req, ev = PostGenerateSession req (Some phoneNumber) e_ok) →
     let w1 := step __dirname JSON_parse JSON_stringify ev w in
     activeSessions w1 = delete clean (activeSessions w) ∧
     activeSessions w1 !! clean = None ∧
     length (connections w1) = length (connections w) ∧
     (e_ok = true → is_live (sock old) w1 = false)) ∧
  (∀ w2 i p registered, awaiting w2 !! i = Some p →
     let w3 := step __dirname JSON_parse JSON_stringify (Resume i (Made registered)) w2 in
     connections w3 =
       (connections w2 ++ [{| owner := p_phoneNumber p; storage := p_sessionPath p;
                              live := true |}])%list ∧
     activeSessions w3 =
       <[p_phoneNumber p := {| sock := length (connections w2);
                               sessionPath := p_sessionPath p;
                               saveCreds := p_sessionPath p;
                               connected := false |}]> (activeSessions w2)).
Proof.
  intros clean Hne Hlen Hold. split; [|split].
  - intros id r1 r2 H1 H2.
    apply elem_of_map_to_list in H1, H2. congruence.
  - assert (∀ w1, activeSessions w1 = delete clean (activeSessions w) →
              connections w1 = (if e_ok then close_connection (sock old) (connections w)
                                else connections w) →
              activeSessions w1 = delete clean (activeSessions w) ∧
              activeSessions w1 !! clean = None ∧
              length (connections w1) = length (connections w) ∧
              (e_ok = true → is_live (sock old) w1 = false)) as Hfin.
    { intros w1 Hs Hc. split; [assumption|]. split; [|split].
      - rewrite Hs. apply lookup_delete_eq.
      - rewrite Hc. unfold close_connection.
        destruct e_ok; [apply length_alter|reflexivity].
      - intros ->. unfold is_live. rewrite Hc.
        pose proof (close_connection_dead (sock old) (connections w)) as Hd.
        destruct (close_connection (sock old) (connections w) !! sock old) as [c|];
          [|reflexivity].
        simpl in Hd. destruct (live c); [congruence|reflexivity]. }
    intros ev [[client ->]|[req ->]]; cbv zeta; simpl.
    + unfold on_generateSession. rewrite Hne. fold clean.
      destruct (String.length clean <? 10)%nat eqn:E.
      { apply Nat.ltb_lt in E. lia. }
      assert (∀ w0, ∃ w1,
                emit (Socket client) (N_connectionStatus clean St_initializing) w0
                  = (Returned tt, w1) ∧
                activeSessions w1 = activeSessions w0 ∧
                connections w1 = connections w0) as Hpre.
      { intros w0. eexists. split; [reflexivity|]. split; reflexivity. }
      pose proof (request_evicts clean e_ok (FromSocket client) _ w old Hpre Hold)
        as [Hs Hc].
      apply Hfin; [exact Hs|exact Hc].
    + unfold post_generate_session. rewrite Hne. fold clean.
      assert (∀ w0, ∃ w1, ret tt w0 = (Returned tt, w1) ∧
                activeSessions w1 = activeSessions w0 ∧
                connections w1 = connections w0) as Hpre.
      { intros w0. eexists. split; [reflexivity|]. split; reflexivity. }
      pose proof (request_evicts clean e_ok (FromRest req) _ w old Hpre Hold)
        as [Hs Hc].
      apply Hfin; [exact Hs|exact Hc].
  - intros w2 i p registered Hp. cbv zeta. simpl. rewrite Hp.
    destruct (resume_made_spec p registered (with_awaiting (λ l, delete i l) w2))
      as (w' & Hrun & Hc & Hs).
    unfold exec. rewrite Hrun. split; assumption.
Qed.

(** C2 (as the code has it). A stabilization callback arms one
    retirement timer (10000 ms) exactly when it has delivered; firing
    removes the timer.  When it runs, the retirement looks up the
    identifier only: a record that is there, whichever connection it
    names, has its connection ended and is removed; with no record no
    connection is touched; the storage directory is removed whenever
    it exists.  If [end] throws, nothing else is done. *)
Theorem retirement_acts_on_current_record phoneNumber sessionPath :
  (∀ w sk a, ∃ w1,
     on_stabilized_timer JSON_parse JSON_stringify sk phoneNumber sessionPath a w
       = (Returned tt, w1) ∧
     timers w1 = (timers w ++
       match delivered JSON_parse JSON_stringify w sessionPath a with
       | Some _ => [(Retire phoneNumber sessionPath, 10000%Z)]
       | None => []
       end)%list) ∧
  (∀ w i delay a, timers w !! i = Some (Retire phoneNumber sessionPath, delay) →
     step __dirname JSON_parse JSON_stringify (Fire i a) w =
     exec (on_retire_timer phoneNumber sessionPath (end_ok a))
       (with_timers (λ l, delete i l) w)) ∧
  (∀ w e_ok, ∃ w',
     on_retire_timer phoneNumber sessionPath e_ok w = (Returned tt, w') ∧
     timers w' = timers w ∧ emitted w' = emitted w ∧
     let swept := if existsSync (fs w) sessionPath
                  then rmSync (fs w) sessionPath else fs w in
     match activeSessions w !! phoneNumber with
     | Some r =>
         if e_ok then
           connections w' = close_connection (sock r) (connections w) ∧
           activeSessions w' = delete phoneNumber (activeSessions w) ∧
           fs w' = swept
         else w' = w
     | None =>
         connections w' = connections w ∧
         activeSessions w' = activeSessions w ∧
         fs w' = swept
     end).
Proof.
  split; [|split].
  - intros w sk a.
    destruct (stabilized_spec sk phoneNumber sessionPath a w)
      as (w1 & Hrun & _ & _ & _ & Ht & _).
    exists w1. split; assumption.
  - intros w i delay a Hi. simpl. rewrite Hi. reflexivity.
  - intros w e_ok. rewrite retire_spec. eexists. split; [reflexivity|].
    destruct (activeSessions w !! phoneNumber) as [r|]; [destruct e_ok|];
      destruct (existsSync (fs w) sessionPath); repeat split.
Qed.

(** C3 (as the code has it). A close event that is not a logout emits
    [reconnecting], removes the record of the identifier without
    ending any connection and arms one reconnect timer (5000 ms).
    When it fires, the reconnection calls [initializeWhatsApp] without
    looking at the Store, and when that call resumes it registers a
    fresh record under the identifier, whatever the Store holds. *)
Theorem reconnect_is_unconditional w sk phoneNumber sessionPath u :
  connection u = Some close →
  statusCode u ≠ Some DisconnectReason_loggedOut →
  (∃ w1, on_connection_update sk phoneNumber sessionPath u w = (Returned tt, w1) ∧
     emitted w1 =
       (emitted w ++ [(Io, N_connectionStatus phoneNumber St_reconnecting)])%list ∧
     activeSessions w1 = delete phoneNumber (activeSessions w) ∧
     connections w1 = connections w ∧
     timers w1 = (timers w ++ [(Reconnect phoneNumber, 5000%Z)])%list ∧
     awaiting w1 = awaiting w) ∧
  (∀ w2, existsSync (fs w2) (getSessionPath __dirname phoneNumber) = true →
     on_reconnect_timer __dirname phoneNumber w2 =
     (Returned tt,
      with_awaiting (λ l, l ++
        [{| p_phoneNumber := phoneNumber;
            p_sessionPath := getSessionPath __dirname phoneNumber;
            p_caller := FromTimer |}])%list w2)) ∧
  (∀ w3 storage registered, ∃ w4,
     resume_initializeWhatsApp
       {| p_phoneNumber := phoneNumber; p_sessionPath := storage;
          p_caller := FromTimer |} (Made registered) w3 = (Returned tt, w4) ∧
     connections w4 =
       (connections w3 ++ [{| owner := phoneNumber; storage := storage;
                              live := true |}])%list ∧
     activeSessions w4 !! phoneNumber =
       Some {| sock := length (connections w3); sessionPath := storage;
               saveCreds := storage; connected := false |}).
Proof.
  intros Hc Hs. split; [|split].
  - rewrite (close_reconnects w sk phoneNumber sessionPath u Hc Hs).
    eexists. split; [reflexivity|]. repeat split.
  - intros w2 Hex. unfold on_reconnect_timer, await_initializeWhatsApp.
    rewrite enter_spec. cbv zeta. rewrite Hex. reflexivity.
  - intros w3 storage registered.
    destruct (resume_made_spec
                {| p_phoneNumber := phoneNumber; p_sessionPath := storage;
                   p_caller := FromTimer |} registered w3) as (w4 & Hrun & Hcs & Hst).
    exists w4. split; [assumption|]. split; [assumption|].
    rewrite Hst. apply lookup_insert_eq.
Qed.

(** Where a failure goes, handler by handler.  A failure of the
    initialization, in directory creation or in connection
    construction, is notified under the identifier and thrown again to
    the caller; the two request handlers catch it, the reconnection
    callback has no handler around the call.  The other callbacks and
    the connection handler never throw: a failed pairing request, a
    failed assembly and a failed delivery are notified; retirement and
    file removal notify nothing. *)
Lemma failure_handling phoneNumber :
  let failed := (Io, N_error (Some phoneNumber)
                       "Failed to initialize WhatsApp connection") in
  (∀ w e, existsSync (fs w) (getSessionPath __dirname phoneNumber) = false →
     mkdirSync (fs w) (getSessionPath __dirname phoneNumber) = Thrown e →
     initializeWhatsApp_enter __dirname phoneNumber w =
     (Thrown e, with_emitted (λ l, l ++ [failed])%list w)) ∧
  (∀ w sessionPath r e,
     r = UseMultiFileAuthStateRejects e ∨ r = FetchLatestBaileysVersionRejects e ∨
     r = MakeWASocketThrows e →
     initializeWhatsApp_leave phoneNumber sessionPath r w =
     (Thrown e, with_emitted (λ l, l ++ [failed])%list w)) ∧
  (∀ w e,
     (∀ client, ∃ w',
        settle (FromSocket client) phoneNumber (Thrown e) w = (Returned tt, w')) ∧
     (∀ req, ∃ w',
        settle (FromRest req) phoneNumber (Thrown e) w = (Returned tt, w')) ∧
     settle FromTimer phoneNumber (Thrown e) w = (Thrown e, w)) ∧
  (∀ w sk e, ∃ w',
     on_pairing_timer sk phoneNumber (Thrown e) w = (Returned tt, w') ∧
     emitted w' = (emitted w ++ [(Io, N_error (Some phoneNumber)
                     "Failed to generate custom pairing code")])%list) ∧
  (∀ w sk sessionPath a, ∃ w',
     on_stabilized_timer JSON_parse JSON_stringify sk phoneNumber sessionPath a w
       = (Returned tt, w') ∧
     (delivered JSON_parse JSON_stringify w sessionPath a = None →
      ∃ message, emitted w' =
        (emitted w ++ [(Io, N_error (Some phoneNumber) message)])%list)) ∧
  (∀ w sessionPath e_ok, ∃ w',
     on_retire_timer phoneNumber sessionPath e_ok w = (Returned tt, w') ∧
     emitted w' = emitted w) ∧
  (∀ w filePath, ∃ w',
     on_delete_timer filePath w = (Returned tt, w') ∧ emitted w' = emitted w) ∧
  (∀ w sk sessionPath u, ∃ w',
     on_connection_update sk phoneNumber sessionPath u w = (Returned tt, w')).
Proof.
  cbv zeta. repeat apply conj.
  - intros w e Hex Hmk. rewrite enter_spec. cbv zeta. rewrite Hex, Hmk. reflexivity.
  - intros w sessionPath r e [->|[->| ->]]; rewrite leave_spec; reflexivity.
  - intros w e. repeat split; intros; eexists; reflexivity.
  - intros w sk e. rewrite pairing_spec. eexists. split; reflexivity.
  - intros w sk sessionPath a.
    destruct (stabilized_spec sk phoneNumber sessionPath a w)
      as (w' & Hrun & _ & _ & _ & _ & _ & n & Hem & Hn).
    exists w'. split; [assumption|]. intros Hd. rewrite Hd in Hn.
    destruct Hn as [message ->]. eauto.
  - intros w sessionPath e_ok. rewrite retire_spec. eexists. split; [reflexivity|].
    destruct (activeSessions w !! phoneNumber); [destruct e_ok|];
      destruct (existsSync (fs w) sessionPath); reflexivity.
  - intros w filePath. rewrite delete_spec. eexists. split; [reflexivity|].
    destruct (fs_lookup filePath (fs w)) as [[]|]; reflexivity.
  - intros w sk sessionPath u. unfold on_connection_update.
    destruct (connection u) as [[]|]; [destruct (shouldReconnect u)| | |];
      unfold_m; try (eexists; reflexivity).
    destruct (activeSessions _ !! phoneNumber); eexists; reflexivity.
Qed.

(** C8 (as the code has it). After an assembly that gave a text, the
    stabilization callback sends, on the connection of its own session
    and to the identifier's address, the instructions and, when that
    message was accepted, after a pause of 2000 ms the text as it is;
    when the first message is refused nothing else is sent. *)
Theorem delivery_messages w sk phoneNumber sessionPath a text :
  truthy_text (createCredsJson JSON_parse JSON_stringify (fs w) (now a) sessionPath)
    = Some text →
  let jid := phoneNumber +:+ "@s.whatsapp.net" in
  (∀ w0, ∃ w',
     sendSessionViaWhatsApp sk phoneNumber text (first_send_ok a) (second_send_ok a) w0
       = (Returned (first_send_ok a && second_send_ok a), w') ∧
     wire w' = (wire w0 ++
       if first_send_ok a
       then [SendMessage sk jid instructionsMessage; Sleep 2000;
             SendMessage sk jid text]
       else [SendMessage sk jid instructionsMessage])%list) ∧
  ∃ w', on_stabilized_timer JSON_parse JSON_stringify sk phoneNumber sessionPath a w
          = (Returned tt, w') ∧
    wire w' = (wire w ++
       if first_send_ok a
       then [SendMessage sk jid instructionsMessage; Sleep 2000;
             SendMessage sk jid text]
       else [SendMessage sk jid instructionsMessage])%list.
Proof.
  intros Htext jid. split.
  - intros w0. rewrite send_spec. eexists. split; [reflexivity|].
    destruct w0; reflexivity.
  - destruct (stabilized_spec sk phoneNumber sessionPath a w)
      as (w' & Hrun & _ & _ & _ & _ & Hw & _).
    exists w'. split; [assumption|]. rewrite Hw.
    unfold truthy_text in Htext.
    destruct (createCredsJson _ _ _ _ _) as [sessionData|]; [|discriminate].
    rewrite Htext. reflexivity.
Qed.

(** C10 (as the code has it). A download of a name that, joined to the
    sessions directory, resolves to nothing on the disk (or, ending in
    a slash, to a regular file) answers 404 and leaves the world as it
    was but for that response; a completed download arms one removal
    timer (5000 ms); once that timer has fired there is no file at the
    served path. *)
Theorem download_endpoint :
  (∀ w req filename,
     existsSync_join (fs w) (sessionsDir __dirname) filename = false →
     step __dirname JSON_parse JSON_stringify (GetDownload req filename) w =
     with_responses (λ l, l ++
       [(req, Json 404 (JObj [("error", JStr "File not found")]))])%list w) ∧
  (∀ w i req filePath, downloads w !! i = Some (req, filePath) →
     let w' := step __dirname JSON_parse JSON_stringify (DownloadDone i false) w in
     timers w' = (timers w ++ [(DeleteDownloaded filePath, 5000%Z)])%list ∧
     fs w' = fs w ∧
     responses w' = (responses w ++ [(req, Download filePath)])%list) ∧
  (∀ w j filePath delay a,
     timers w !! j = Some (DeleteDownloaded filePath, delay) →
     is_dir (fs w) →
     let w' := step __dirname JSON_parse JSON_stringify (Fire j a) w in
     (∀ content, fs_lookup filePath (fs w') ≠ Some (File content)) ∧
     (∀ content, fs_lookup filePath (fs w) = Some (File content) →
                 fs w' = fs_remove filePath (fs w)) ∧
     timers w' = delete j (timers w) ∧
     rejections w' = rejections w).
Proof.
  split; [|split].
  - intros w req filename Hex. simpl. unfold exec, get_download.
    cbv [bind get]. rewrite Hex. reflexivity.
  - intros w i req filePath Hi. cbv zeta. simpl. rewrite Hi.
    unfold exec, download_callback. unfold_m. simpl. repeat split.
  - intros w j filePath delay a Hj [es Hroot]. cbv zeta. simpl. rewrite Hj.
    unfold exec. simpl. rewrite delete_spec. simpl.
    destruct (fs_lookup filePath (fs w)) as [[content|es']|] eqn:Hl; simpl.
    + split; [|split; [|split]]; [|intros; reflexivity|reflexivity|reflexivity].
      intros content'. rewrite fs_lookup_remove; [discriminate|].
      intros ->. simpl in Hl. rewrite Hroot in Hl. discriminate.
    + split; [|split; [|split]]; [| |reflexivity|reflexivity];
        intros content; rewrite ?Hl; discriminate.
    + split; [|split; [|split]]; [| |reflexivity|reflexivity];
        intros content; rewrite ?Hl; discriminate.
Qed.

End Coordinator.

(** ** Invariants of every run *)

Lemma fs_remove_dir p n : is_dir n → is_dir (fs_remove p n).
Proof.
  intros [es ->]. destruct p as [|c [|c' p]]; simpl; eexists; reflexivity.
Qed.

Lemma fs_mkdirp_dir p n n' : fs_mkdirp p n = Some n' → is_dir n'.
Proof.
  destruct n as [|es]; destruct p as [|c p]; simpl; try discriminate.
  - intros [= <-]. eexists; reflexivity.
  - destruct (entry c es).
    + destruct (fs_mkdirp p n); [|discriminate]. intros [= <-]. eexists; reflexivity.
    + destruct (fs_mkdirp p (Dir [])); [|discriminate]. intros [= <-].
      eexists; reflexivity.
Qed.

Lemma fs_write_dir p content n : is_dir n → is_dir (fs_write p content n).
Proof.
  intros [es ->]. destruct p as [|c [|c' p]]; simpl.
  - eexists; reflexivity.
  - destruct (entry c es); eexists; reflexivity.
  - eexists; reflexivity.
Qed.

Lemma close_connection_lookup sk cs i c :
  cs !! i = Some c →
  ∃ c', close_connection sk cs !! i = Some c' ∧ owner c' = owner c ∧
        storage c' = storage c.
Proof.
  intros H. unfold close_connection. rewrite list_lookup_alter.
  destruct (decide (sk = i)) as [->|]; rewrite H; simpl;
    (eexists; split; [reflexivity|]); split; reflexivity.
Qed.

Lemma moves_registered w w' : moves w w' → registered w → registered w'.
Proof.
  intros Hm Hw id r Hr. destruct Hm as [Hs Hc|id' Hs Hc|sk Hs Hc|id' sk Hs Hc|id' r' Hr' Hs Hc|id' p Hs Hc];
    rewrite Hs in Hr; rewrite Hc.
  - apply Hw, Hr.
  - apply lookup_delete_Some in Hr as [_ Hr]. apply Hw, Hr.
  - destruct (Hw id r Hr) as (c & Hl & Ho & Hp).
    destruct (close_connection_lookup sk _ _ _ Hl) as (c' & ? & ? & ?).
    exists c'. repeat split; congruence.
  - apply lookup_delete_Some in Hr as [_ Hr].
    destruct (Hw id r Hr) as (c & Hl & Ho & Hp).
    destruct (close_connection_lookup sk _ _ _ Hl) as (c' & ? & ? & ?).
    exists c'. repeat split; congruence.
  - destruct (decide (id' = id)) as [->|Hne].
    + rewrite lookup_insert_eq in Hr. injection Hr as <-.
      apply (Hw id r' Hr').
    + rewrite lookup_insert_ne in Hr by assumption. apply Hw, Hr.
  - destruct (decide (id' = id)) as [->|Hne].
    + rewrite lookup_insert_eq in Hr. injection Hr as <-. simpl.
      eexists. split.
      { rewrite lookup_app_r by reflexivity. rewrite Nat.sub_diag. reflexivity. }
      split; reflexivity.
    + rewrite lookup_insert_ne in Hr by assumption.
      destruct (Hw id r Hr) as (c & Hl & Ho & Hp).
      exists c. split; [|split; assumption].
      rewrite lookup_app_l; [assumption|]. eapply lookup_lt_Some, Hl.
Qed.

Section Invariants.
Context (__dirname : path) (JSON_parse : string → option json)
        (JSON_stringify : json → string).

Lemma await_root_dir phoneNumber c w o w' :
  await_initializeWhatsApp __dirname phoneNumber c w = (o, w') →
  is_dir (fs w) → is_dir (fs w').
Proof.
  unfold await_initializeWhatsApp, initializeWhatsApp_enter, initializeWhatsApp_catch.
  cbv [bind ret throw try_catch get modify lift emit]. simpl.
  destruct (existsSync _ _).
  - intros [= <- <-]. auto.
  - unfold mkdirSync. destruct (fs_mkdirp _ _) eqn:E.
    + intros [= <- <-] _. simpl. eapply fs_mkdirp_dir; eassumption.
    + destruct c; simpl; cbv [emit respond throw modify]; intros [= <- <-]; auto.
Qed.

Lemma exec_root_dir (m : M unit) w :
  (∀ o w', m w = (o, w') → is_dir (fs w) → is_dir (fs w')) →
  is_dir (fs w) → is_dir (fs (exec m w)).
Proof.
  intros Hm Hw. unfold exec. destruct (m w) as [o w'] eqn:E.
  specialize (Hm o w' eq_refl Hw). destruct o; exact Hm.
Qed.

Lemma step_root_dir ev w :
  is_dir (fs w) → is_dir (fs (step __dirname JSON_parse JSON_stringify ev w)).
Proof.
  intros Hw. destruct ev as [client phone e_ok|req phone e_ok|i r|sk u|i a|req f|i err|p content];
    simpl.
  - apply exec_root_dir; [|assumption]. intros o w'. unfold on_generateSession.
    destruct phone as [s|]; [|intros [= <- <-]; auto].
    destruct (String.eqb s ""); [intros [= <- <-]; auto|].
    destruct (_ <? _)%nat; [intros [= <- <-]; auto|].
    unfold bind at 1. rewrite evict_spec. unfold bind at 1, emit at 1, modify.
    intros H Hd. eapply await_root_dir; [exact H|].
    destruct (activeSessions w !! _); [destruct e_ok|]; exact Hd.
  - apply exec_root_dir; [|assumption]. intros o w'. unfold post_generate_session.
    destruct phone as [s|]; [|intros [= <- <-]; auto].
    destruct (String.eqb s ""); [intros [= <- <-]; auto|].
    unfold bind at 1. rewrite evict_spec.
    intros H Hd. eapply await_root_dir; [exact H|].
    destruct (activeSessions w !! _); [destruct e_ok|]; exact Hd.
  - destruct (awaiting w !! i) as [p|]; [|assumption].
    apply exec_root_dir; [|assumption]. intros o w'.
    unfold resume_initializeWhatsApp. rewrite leave_spec.
    destruct r as [e|e|e|[]], (p_caller p); simpl;
      cbv [emit respond throw modify ret]; intros [= <- <-]; auto.
  - destruct (connections w !! sk) as [c|]; [|assumption].
    apply exec_root_dir.
    + intros o w'. unfold on_connection_update.
      destruct (connection u) as [[]|]; [destruct (shouldReconnect u)| | |];
        cbv [bind emit store_delete store_set setTimeout modify ret get];
        try (intros [= <- <-]; auto).
      simpl. destruct (activeSessions _ !! _); intros [= <- <-]; auto.
    + destruct (connection u) as [[]|]; assumption.
  - destruct (timers w !! i) as [[cb ms]|]; [|assumption].
    apply exec_root_dir; [|assumption]. intros o w'.
    destruct cb as [sk ph|sk ph sp|ph sp|ph|fp]; simpl.
    + rewrite pairing_spec. intros [= <- <-]; auto.
    + destruct (stabilized_spec JSON_parse JSON_stringify sk ph sp a
                  (with_timers (λ l, delete i l) w)) as (w1 & -> & _ & _ & Hf & _).
      intros [= <- <-]. rewrite Hf. auto.
    + rewrite retire_spec. intros [= <- <-]. simpl.
      destruct (activeSessions w !! ph); [destruct (end_ok a)|];
        destruct (existsSync (fs w) sp); simpl; auto;
        intros; apply fs_remove_dir; assumption.
    + intros H Hd. eapply await_root_dir; [exact H|exact Hd].
    + rewrite delete_spec. intros [= <- <-]. simpl.
      destruct (fs_lookup fp (fs w)) as [[]|]; simpl; auto.
      intros; apply fs_remove_dir; assumption.
  - apply exec_root_dir; [|assumption]. intros o w'. unfold get_download.
    cbv [bind get respond modify]. destruct (negb _); intros [= <- <-]; auto.
  - destruct (downloads w !! i) as [[req fp]|]; [|assumption].
    apply exec_root_dir; [|assumption]. intros o w'. unfold download_callback.
    destruct err; cbv [bind respond setTimeout modify]; intros [= <- <-]; auto.
  - apply fs_write_dir. assumption.
Qed.

Lemma run_root_dir evs w :
  is_dir (fs w) → is_dir (fs (run __dirname JSON_parse JSON_stringify evs w)).
Proof.
  revert w. induction evs as [|ev evs IH]; intros w Hw; [exact Hw|].
  apply IH, step_root_dir, Hw.
Qed.

Lemma boot_root_dir es : is_dir (fs (boot __dirname (Dir es))).
Proof.
  unfold boot. simpl. destruct (existsSync _ _); [eexists; reflexivity|].
  unfold mkdirSync. destruct (fs_mkdirp _ _) eqn:E; [|eexists; reflexivity].
  eapply fs_mkdirp_dir. exact E.
Qed.
Lemma exec_moves (m : M unit) w :
  (∀ o w', m w = (o, w') → moves w w') → moves w (exec m w).
Proof.
  intros Hm. unfold exec. destruct (m w) as [o w'] eqn:E.
  specialize (Hm o w' eq_refl). destruct o; [exact Hm|].
  destruct Hm; [eapply moves_same|eapply moves_delete|eapply moves_close
               |eapply moves_evict|eapply moves_mark|eapply moves_register];
    eassumption.
Qed.

Lemma moves_after w w1 w2 :
  moves w w1 → activeSessions w2 = activeSessions w1 →
  connections w2 = connections w1 → moves w w2.
Proof.
  intros Hm Hs Hc.
  destruct Hm as [Hs1 Hc1|id Hs1 Hc1|sk Hs1 Hc1|id sk Hs1 Hc1|id r Hr Hs1 Hc1
                 |id p Hs1 Hc1]; rewrite <- Hs in Hs1; rewrite <- Hc in Hc1.
  - apply moves_same; assumption.
  - eapply moves_delete; eassumption.
  - eapply moves_close; eassumption.
  - eapply moves_evict; eassumption.
  - eapply moves_mark; eassumption.
  - eapply moves_register; eassumption.
Qed.

Lemma moves_from w0 w w' :
  moves w0 w' → activeSessions w0 = activeSessions w →
  connections w0 = connections w → moves w w'.
Proof.
  intros Hm Hs Hc.
  destruct Hm as [Hs1 Hc1|id Hs1 Hc1|sk Hs1 Hc1|id sk Hs1 Hc1|id r Hr Hs1 Hc1
                 |id p Hs1 Hc1]; rewrite Hs in *; rewrite Hc in *.
  - apply moves_same; assumption.
  - eapply moves_delete; eassumption.
  - eapply moves_close; eassumption.
  - eapply moves_evict; eassumption.
  - eapply moves_mark; eassumption.
  - eapply moves_register; eassumption.
Qed.

Lemma evict_moves clean e_ok w :
  moves w (evict clean e_ok w).2.
Proof.
  rewrite evict_spec. simpl.
  destruct (activeSessions w !! clean) as [old|]; [destruct e_ok|].
  - eapply moves_evict; reflexivity.
  - eapply moves_delete; reflexivity.
  - apply moves_same; reflexivity.
Qed.

Lemma request_moves clean e_ok c (pre : M unit) w o w' :
  (∀ w0, ∃ w1, pre w0 = (Returned tt, w1) ∧
               activeSessions w1 = activeSessions w0 ∧
               connections w1 = connections w0) →
  bind (evict clean e_ok)
    (λ _, bind pre (λ _, await_initializeWhatsApp __dirname clean c)) w = (o, w') →
  moves w w'.
Proof.
  intros Hpre. unfold bind.
  pose proof (evict_moves clean e_ok w) as Hm.
  rewrite evict_spec in *. simpl in Hm.
  match goal with |- context [pre ?x] => destruct (Hpre x) as (w1 & -> & Hs & Hc) end.
  intros Ha. apply await_keeps in Ha as (Hs2 & Hc2 & _).
  eapply moves_after; [exact Hm| |]; congruence.
Qed.

Lemma connection_update_moves sk phoneNumber sessionPath u w o w' :
  on_connection_update sk phoneNumber sessionPath u w = (o, w') →
  connections w' = connections w ∧
  match connection u with
  | Some close => activeSessions w' = delete phoneNumber (activeSessions w)
  | Some open =>
      activeSessions w' = activeSessions w ∨
      ∃ r, activeSessions w !! phoneNumber = Some r ∧
           activeSessions w' = <[phoneNumber := mark_connected r]> (activeSessions w)
  | _ => activeSessions w' = activeSessions w
  end.
Proof.
  unfold on_connection_update.
  destruct (connection u) as [[]|]; [destruct (shouldReconnect u)| | |];
    cbv [bind emit store_delete store_set setTimeout modify ret get]; simpl;
    try destruct (activeSessions w !! phoneNumber) as [r|] eqn:E;
    intros [= <- <-]; (split; [reflexivity|]);
    first [ reflexivity
          | left; reflexivity
          | right; exists r; split; reflexivity ].
Qed.

Lemma step_moves ev w :
  moves w (step __dirname JSON_parse JSON_stringify ev w).
Proof.
  destruct ev as [client phone e_ok|req phone e_ok|i r|sk u|i a|req f|i err|p content];
    simpl.
  - apply exec_moves. intros o w'. unfold on_generateSession.
    destruct phone as [s|]; [|intros [= <- <-]; apply moves_same; reflexivity].
    destruct (String.eqb s ""); [intros [= <- <-]; apply moves_same; reflexivity|].
    destruct (_ <? _)%nat; [intros [= <- <-]; apply moves_same; reflexivity|].
    apply request_moves. intros w0. eexists. split; [reflexivity|]. split; reflexivity.
  - apply exec_moves. intros o w'. unfold post_generate_session.
    destruct phone as [s|]; [|intros [= <- <-]; apply moves_same; reflexivity].
    destruct (String.eqb s ""); [intros [= <- <-]; apply moves_same; reflexivity|].
    apply (request_moves _ _ _ (ret tt)).
    intros w0. eexists. split; [reflexivity|]. split; reflexivity.
  - destruct (awaiting w !! i) as [p|]; [|apply moves_same; reflexivity].
    assert (∀ w0, moves w0 (exec (resume_initializeWhatsApp p r) w0)) as H.
    { intros w0. apply exec_moves. intros o w'.
      destruct r as [e|e|e|registered].
      4: { destruct (resume_made_spec p registered w0) as (w1 & -> & Hc & Hs).
           intros [= <- <-]. eapply moves_register; eassumption. }
      all: unfold resume_initializeWhatsApp; rewrite leave_spec;
        intros H; apply settle_keeps in H as (Hs & Hc & _);
        apply moves_same; assumption. }
    apply (moves_from _ _ _ (H (with_awaiting (λ l, delete i l) w))); reflexivity.
  - destruct (connections w !! sk) as [c|]; [|apply moves_same; reflexivity].
    unfold exec.
    destruct (on_connection_update _ _ _ _ _) as [o w'] eqn:E.
    apply connection_update_moves in E as [Hconns Hstore].
    assert (∀ w0, moves w w' → w0 = match o with
              | Returned _ => w'
              | Thrown e => with_rejections (λ l, (l ++ [e])%list) w' end →
              moves w w0) as Hfin.
    { intros w0 Hm ->. eapply moves_after; [exact Hm| |]; destruct o; reflexivity. }
    eapply Hfin; [|reflexivity].
    destruct (connection u) as [[]|]; simpl in Hconns, Hstore.
    + eapply moves_evict; [exact Hstore|exact Hconns].
    + destruct Hstore as [Hstore|(r & Hr & Hstore)];
        [apply moves_same|eapply moves_mark]; eassumption.
    + apply moves_same; assumption.
    + apply moves_same; assumption.
  - destruct (timers w !! i) as [[cb ms]|]; [|apply moves_same; reflexivity].
    assert (∀ w0, moves w0 (exec (run_callback __dirname JSON_parse JSON_stringify cb a) w0))
      as H.
    { intros w0. apply exec_moves. intros o w'.
      destruct cb as [sk ph|sk ph sp|ph sp|ph|fp]; simpl.
      - rewrite pairing_spec. intros [= <- <-]. apply moves_same; reflexivity.
      - destruct (stabilized_spec JSON_parse JSON_stringify sk ph sp a w0)
          as (w1 & -> & Hs & Hc & _).
        intros [= <- <-]. apply moves_same; assumption.
      - rewrite retire_spec. intros [= <- <-].
        destruct (activeSessions w0 !! ph); [destruct (end_ok a)|];
          destruct (existsSync (fs w0) sp);
          first [ eapply moves_evict; reflexivity | apply moves_same; reflexivity ].
      - intros Ha. apply await_keeps in Ha as (Hs & Hc & _).
        apply moves_same; assumption.
      - rewrite delete_spec. intros [= <- <-].
        destruct (fs_lookup fp (fs w0)) as [[]|]; apply moves_same; reflexivity. }
    apply (moves_from _ _ _ (H (with_timers (λ l, delete i l) w))); reflexivity.
  - apply exec_moves. intros o w'. unfold get_download.
    cbv [bind get respond modify].
    destruct (negb _); intros [= <- <-]; apply moves_same; reflexivity.
  - destruct (downloads w !! i) as [[req fp]|]; [|apply moves_same; reflexivity].
    assert (∀ w0, moves w0 (exec (download_callback req fp err) w0)) as H.
    { intros w0. apply exec_moves. intros o w'. unfold download_callback.
      destruct err; cbv [bind respond setTimeout modify]; intros [= <- <-];
        apply moves_same; reflexivity. }
    apply (moves_from _ _ _ (H (with_downloads (λ l, delete i l) w))); reflexivity.
  - apply moves_same; reflexivity.
Qed.

Lemma run_registered evs w :
  registered w → registered (run __dirname JSON_parse JSON_stringify evs w).
Proof.
  revert w. induction evs as [|ev evs IH]; intros w Hw; [exact Hw|].
  apply IH. eapply moves_registered; [apply step_moves|exact Hw].
Qed.

Lemma boot_registered disk : registered (boot __dirname disk).
Proof. intros id r H. unfold boot in H. simpl in H. by rewrite lookup_empty in H. Qed.

(** In every run from start-up the root of the disk is a directory and
    every record of the Store names its own connection. *)
Theorem run_from_boot evs es :
  let w := run __dirname JSON_parse JSON_stringify evs (boot __dirname (Dir es)) in
  is_dir (fs w) ∧ registered w.
Proof.
  split.
  - apply run_root_dir, boot_root_dir.
  - apply run_registered, boot_registered.
Qed.

End Invariants.

(** ** Validation of requests *)

Section Validation.
Context (__dirname : path) (JSON_parse : string → option json)
        (JSON_stringify : json → string).

(** The socket entry point refuses an absent or empty identifier and
    one with fewer than ten digits. *)
Lemma generateSession_refuses w client phoneNumber e_ok :
  missing phoneNumber = true ∨
  (∃ s, phoneNumber = Some s ∧ (String.length (remove_non_digits s) < 10)%nat) →
  refused w (step __dirname JSON_parse JSON_stringify
               (GenerateSession client phoneNumber e_ok) w).
Proof.
  intros H. simpl. unfold on_generateSession.
  assert (∀ message,
    refused w (exec (emit (Socket client) (N_error None message)) w)) as Hemit.
  { intros message. unfold exec, emit, modify. simpl.
    repeat split. left. eauto. }
  destruct phoneNumber as [s|]; [|apply Hemit].
  destruct (String.eqb s "") eqn:E; [apply Hemit|].
  destruct H as [H|(s' & [= <-] & Hlen)]; [simpl in H; congruence|].
  apply Nat.ltb_lt in Hlen. rewrite Hlen. apply Hemit.
Qed.

(** The REST entry point refuses an absent or empty identifier. *)
Lemma post_generate_session_refuses_missing w req phoneNumber e_ok :
  missing phoneNumber = true →
  refused w (step __dirname JSON_parse JSON_stringify
               (PostGenerateSession req phoneNumber e_ok) w).
Proof.
  intros H. simpl. unfold post_generate_session.
  assert (refused w (exec (respond req
            (Json 400 (JObj [("error", JStr "Phone number is required")]))) w))
    as Hresp.
  { unfold exec, respond, modify. simpl. repeat split.
    right. exists req, 400, (JObj [("error", JStr "Phone number is required")]).
    repeat split; lia. }
  destruct phoneNumber as [s|]; [|apply Hresp].
  simpl in H. rewrite H. apply Hresp.
Qed.

End Validation.

(** C4. The REST entry point does not check the length: the request
    for "123" is not refused; it creates the storage directory and
    suspends in [initializeWhatsApp], and once that call resumes the
    Store holds a record, with a live connection, under "123", and
    the response is a 200. *)
Theorem post_generate_session_accepts_short_identifier :
  let w1 := example_step (PostGenerateSession 7 (Some "123") true) example_boot in
  let w2 := example_step (Resume 0 (Made false)) w1 in
  (String.length (remove_non_digits "123") <? 10)%nat = true ∧
  ¬ refused example_boot w1 ∧
  existsSync (fs w1) (getSessionPath example_dirname "123") = true ∧
  awaiting w1 = [{| p_phoneNumber := "123";
                    p_sessionPath := getSessionPath example_dirname "123";
                    p_caller := FromRest 7 |}] ∧
  activeSessions w2 !! "123" =
    Some {| sock := 0; sessionPath := getSessionPath example_dirname "123";
            saveCreds := getSessionPath example_dirname "123";
            connected := false |} ∧
  is_live 0 w2 = true ∧
  responses w2 =
    [(7, Json 200 (JObj [("success", JBool true);
                         ("message", JStr "Session generation started");
                         ("phoneNumber", JStr "123")]))].
Proof.
  cbv zeta. split; [reflexivity|]. split.
  - intros (_ & _ & Hfs & _). vm_compute in Hfs. discriminate.
  - repeat split.
Qed.

(** The socket entry point on the same identifier. *)
Example generateSession_refuses_123 :
  example_step (GenerateSession 7 (Some "123") true) example_boot =
  with_emitted (λ _, [(Socket 7, N_error None "Invalid phone number format")])
    example_boot.
Proof. reflexivity. Qed.

(** ** Runs of the event loop *)

(** C1, as stated, fails: two requests that overlap during
    initialization leave two live connections for the identifier. *)
Lemma overlapping_requests_two_live_connections :
  ¬ one_live_connection example_id (example_run overlapping_requests example_boot).
Proof. unfold one_live_connection. vm_compute. lia. Qed.

Lemma eviction_precedes_registration_witness :
  let w := example_run [GenerateSession 0 (Some example_id) true;
                        Resume 0 (Made true)] example_boot in
  let w1 := example_step (GenerateSession 1 (Some "+1 555 123 4567") true) w in
  activeSessions w1 !! example_id = None ∧ is_live 0 w1 = false.
Proof.
  cbv zeta.
  destruct (eviction_precedes_registration example_dirname example_parse print_json
    (example_run [GenerateSession 0 (Some example_id) true; Resume 0 (Made true)]
       example_boot)
    "+1 555 123 4567" true
    {| sock := 0; sessionPath := example_path; saveCreds := example_path;
       connected := false |}) as (_ & H & _).
  - reflexivity.
  - vm_compute. lia.
  - reflexivity.
  - destruct (H (GenerateSession 1 (Some "+1 555 123 4567") true))
      as (_ & Hs & _ & Hl).
    + left. exists 1. reflexivity.
    + split; [exact Hs|exact (Hl eq_refl)].
Defined.

(** C2, as stated, fails: the retirement armed by the first session
    fires after the identifier was requested again; it ends the
    connection of the second session, removes its record and deletes
    its directory. *)
Lemma retirement_tears_down_newer_session :
  let w := example_run superseded_before_retirement example_boot in
  let w' := example_step (Fire 0 example_answers) w in
  timers w = [(Retire example_id example_path, 10000%Z)] ∧
  activeSessions w !! example_id =
    Some {| sock := 1; sessionPath := example_path; saveCreds := example_path;
            connected := false |} ∧
  is_live 1 w = true ∧ existsSync (fs w) example_path = true ∧
  is_live 1 w' = false ∧ activeSessions w' !! example_id = None ∧
  existsSync (fs w') example_path = false ∧
  ¬ retirement_spares_newer 0 example_id example_path true w.
Proof.
  cbv zeta. repeat split.
  intros H.
  destruct (H {| sock := 1; sessionPath := example_path; saveCreds := example_path;
                 connected := false |}) as (Hc & _); [reflexivity|discriminate|].
  vm_compute in Hc. discriminate.
Qed.

Lemma retirement_acts_on_current_record_witness :
  let w := example_run superseded_before_retirement example_boot in
  example_step (Fire 0 example_answers) w =
  exec (on_retire_timer example_id example_path true)
    (with_timers (λ l, delete 0 l) w).
Proof.
  cbv zeta.
  apply (proj1 (proj2 (retirement_acts_on_current_record example_dirname
           example_parse print_json example_id example_path))
         (example_run superseded_before_retirement example_boot)
         0 10000%Z example_answers).
  reflexivity.
Defined.

(** C3, as stated, fails: the retry fires after the identifier was
    requested again, and when it resumes it puts a third connection
    in the place of the second session's record. *)
Lemma retry_replaces_newer_record :
  let w := example_run requested_before_retry example_boot in
  let w' := example_step (Resume 0 (Made true)) w in
  awaiting w = [{| p_phoneNumber := example_id; p_sessionPath := example_path;
                   p_caller := FromTimer |}] ∧
  activeSessions w !! example_id =
    Some {| sock := 1; sessionPath := example_path; saveCreds := example_path;
            connected := false |} ∧
  activeSessions w' !! example_id =
    Some {| sock := 2; sessionPath := example_path; saveCreds := example_path;
            connected := false |} ∧
  is_live 1 w' = true ∧ is_live 2 w' = true ∧
  ¬ retry_yields_to_newer example_dirname example_parse print_json
      0 (Made true) w.
Proof.
  cbv zeta. repeat split.
  intros H.
  specialize (H {| p_phoneNumber := example_id; p_sessionPath := example_path;
                   p_caller := FromTimer |}
                {| sock := 1; sessionPath := example_path; saveCreds := example_path;
                   connected := false |} eq_refl eq_refl eq_refl).
  vm_compute in H. discriminate.
Qed.

Lemma reconnect_is_unconditional_witness :
  ∃ w1, on_connection_update 0 example_id example_path dropped example_boot
          = (Returned tt, w1) ∧
        timers w1 = [(Reconnect example_id, 5000%Z)].
Proof.
  destruct (reconnect_is_unconditional example_dirname example_boot 0 example_id
              example_path dropped eq_refl) as ((w1 & Hrun & _ & _ & _ & Ht & _) & _).
  - discriminate.
  - exists w1. split; [exact Hrun|exact Ht].
Defined.

(** C6 (defect). A connection drops and the reconnection callback
    starts the initialization again; the library rejects while it
    reads the stored credentials.  The failure is notified and thrown
    again, and as the callback has no handler around the call it ends
    as an unhandled rejection.  The same failure in a request of
    either entry point is caught by the request handler, which
    notifies the client or answers 500. *)
Lemma reconnect_failure_unhandled :
  let e := Error "Unexpected end of JSON input" in
  let ev := Resume 0 (UseMultiFileAuthStateRejects e) in
  let failed := (Io, N_error (Some example_id)
                       "Failed to initialize WhatsApp connection") in
  let w := example_run retry_after_drop example_boot in
  let by_socket := example_step (GenerateSession 7 (Some example_id) true)
                     example_boot in
  let by_rest := example_step (PostGenerateSession 8 (Some example_id) true)
                   example_boot in
  (awaiting w = [{| p_phoneNumber := example_id; p_sessionPath := example_path;
                    p_caller := FromTimer |}] ∧
   rejections w = [] ∧
   emitted (example_step ev w) = (emitted w ++ [failed])%list ∧
   rejections (example_step ev w) = [e] ∧
   ¬ never_rethrown example_dirname example_parse print_json ev w) ∧
  (emitted (example_step ev by_socket) =
     (emitted by_socket ++
      [failed; (Socket 7, N_error (Some example_id) "Failed to generate session")])%list ∧
   never_rethrown example_dirname example_parse print_json ev by_socket) ∧
  (emitted (example_step ev by_rest) = (emitted by_rest ++ [failed])%list ∧
   responses (example_step ev by_rest) =
     [(8, Json 500 (JObj [("error", JStr "Failed to generate session")]))] ∧
   never_rethrown example_dirname example_parse print_json ev by_rest).
Proof.
  cbv zeta. repeat split; try (vm_compute; reflexivity).
  intros H. vm_compute in H. discriminate.
Qed.

(** C8, as stated, fails: when the first message is refused the
    artifact is never sent. *)
Lemma refused_instructions_one_message :
  wire (sendSessionViaWhatsApp 0 example_id "{}" false true example_boot).2 =
    [SendMessage 0 (example_id +:+ "@s.whatsapp.net") instructionsMessage] ∧
  ¬ sends_two_messages 0 example_id "{}" false true example_boot.
Proof.
  split; [reflexivity|]. unfold sends_two_messages. vm_compute. discriminate.
Qed.

Lemma delivery_messages_witness :
  let w := example_run [GenerateSession 0 (Some example_id) true;
                        Resume 0 (Made true);
                        ProtocolSave (example_path ++ ["creds.json"])%list foo_bar;
                        ConnectionUpdate 0 opened] example_boot in
  let text := print_json (JObj [("foo", JStr "bar"); ("preKeys", JObj []);
                                ("senderKeys", JObj []);
                                ("timestamp", JStr (now example_answers))]) in
  ∃ w', on_stabilized_timer example_parse print_json 0 example_id example_path
          example_answers w = (Returned tt, w') ∧
        wire w' = [SendMessage 0 (example_id +:+ "@s.whatsapp.net") instructionsMessage;
                   Sleep 2000;
                   SendMessage 0 (example_id +:+ "@s.whatsapp.net") text].
Proof.
  cbv zeta.
  apply (delivery_messages example_parse print_json
           (example_run [GenerateSession 0 (Some example_id) true;
                         Resume 0 (Made true);
                         ProtocolSave (example_path ++ ["creds.json"])%list foo_bar;
                         ConnectionUpdate 0 opened] example_boot)
           0 example_id example_path example_answers).
  reflexivity.
Defined.

Lemma logout_removes_record_witness :
  ∃ w', on_connection_update 0 example_id example_path logged_out
          (example_run [GenerateSession 0 (Some example_id) true;
                        Resume 0 (Made true)] example_boot) = (Returned tt, w') ∧
        activeSessions w' !! example_id = None ∧ timers w' = [].
Proof.
  destruct (logout_removes_record
              (example_run [GenerateSession 0 (Some example_id) true;
                            Resume 0 (Made true)] example_boot)
              0 example_id example_path logged_out eq_refl eq_refl)
    as (w' & Hrun & _ & _ & Hs & _ & Ht & _).
  exists w'. split; [exact Hrun|]. split; [exact Hs|exact Ht].
Defined.

(** C10, as stated, fails: the sessions directory is empty and the
    request names [../server.js]; the name resolves to the file of the
    application directory, which is handed to the transfer, served
    and, when the removal timer fires, deleted. *)
Lemma download_outside_sessions_directory :
  let file := ["srv"; "app"; "server.js"] in
  let w := deployed in
  let w1 := example_step (GetDownload 3 "../server.js") w in
  let w2 := example_step (DownloadDone 0 false) w1 in
  let w3 := example_step (Fire 0 example_answers) w2 in
  fs_lookup (sessionsDir example_dirname) (fs w) = Some (Dir []) ∧
  fs_lookup file (fs w) = Some (File "code") ∧
  responses w1 = [] ∧ downloads w1 = [(3, file)] ∧
  responses w2 = [(3, Download file)] ∧
  timers w2 = [(DeleteDownloaded file, 5000%Z)] ∧
  fs_lookup file (fs w3) = None ∧
  ¬ absent_download_refused example_dirname example_parse print_json
      3 "../server.js" w.
Proof.
  cbv zeta. repeat split.
  intros H. destruct H as [Hr _].
  - intros (rel & content & Hj & _). vm_compute in Hj. discriminate.
  - vm_compute in Hr. discriminate.
Qed.

(** A file put under the sessions directory, downloaded, then removed
    by the timer; a name with no file, and the name of a file with a
    slash after it, both answered 404. *)
Lemma download_endpoint_witness :
  let saved := example_step
                 (ProtocolSave (sessionsDir example_dirname ++ ["a.zip"])%list "x")
                 example_boot in
  let w := example_run [GetDownload 3 "a.zip"; DownloadDone 0 false] saved in
  timers w = [(DeleteDownloaded (sessionsDir example_dirname ++ ["a.zip"])%list, 5000%Z)] ∧
  fs (example_step (Fire 0 example_answers) w) =
    fs_remove (sessionsDir example_dirname ++ ["a.zip"])%list (fs w) ∧
  example_step (GetDownload 4 "b.zip") example_boot =
    with_responses (λ l, l ++
      [(4, Json 404 (JObj [("error", JStr "File not found")]))])%list example_boot ∧
  example_step (GetDownload 5 "a.zip/") saved =
    with_responses (λ l, l ++
      [(5, Json 404 (JObj [("error", JStr "File not found")]))])%list saved.
Proof.
  cbv zeta. split; [reflexivity|]. split; [|split].
  - eapply (proj2 (proj2 (download_endpoint example_dirname
              example_parse print_json)) _ 0
              (sessionsDir example_dirname ++ ["a.zip"])%list 5000%Z example_answers).
    + reflexivity.
    + eexists. reflexivity.
    + instantiate (1 := "x"). reflexivity.
  - apply (proj1 (download_endpoint example_dirname example_parse print_json)).
    reflexivity.
  - apply (proj1 (download_endpoint example_dirname example_parse print_json)).
    reflexivity.
Defined.

(** End to end: base credentials [{foo: bar}], delivery, retirement. *)
Example end_to_end :
  let w := example_run [GenerateSession 0 (Some example_id) true;
                        Resume 0 (Made true);
                        ConnectionUpdate 0 {| connection := Some connecting;
                                              statusCode := None |};
                        ProtocolSave (example_path ++ ["creds.json"])%list foo_bar;
                        ConnectionUpdate 0 opened;
                        Fire 0 example_answers;
                        Fire 0 example_answers] example_boot in
  activeSessions w !! example_id = None ∧
  existsSync (fs w) example_path = false ∧
  is_live 0 w = false ∧
  emitted w =
    [(Socket 0, N_connectionStatus example_id St_initializing);
     (Io, N_connectionStatus example_id St_connecting);
     (Io, N_connectionStatus example_id St_connected);
     (Io, N_sessionReady example_id
            "Session sent to your WhatsApp! Check your messages." true)].
Proof. cbv zeta. repeat split. Qed.

(** * Further properties of the code *)

(** ** Identifiers and session directories *)

Lemma remove_non_digits_cons c s :
  remove_non_digits (String c s) =
  if is_digit c then String c (remove_non_digits s) else remove_non_digits s.
Proof.
  unfold remove_non_digits. simpl. rewrite filter_cons.
  destruct (is_digit c); simpl; reflexivity.
Qed.

Lemma all_digits_remove_non_digits s : all_digits (remove_non_digits s) = true.
Proof.
  induction s as [|c s IH]; [reflexivity|].
  rewrite remove_non_digits_cons. destruct (is_digit c) eqn:E; [|exact IH].
  simpl. rewrite E. exact IH.
Qed.

Lemma remove_non_digits_fixed s : all_digits s = true → remove_non_digits s = s.
Proof.
  induction s as [|c s IH]; [reflexivity|]. simpl.
  intros [Hc Hs]%andb_true_iff. rewrite remove_non_digits_cons, Hc, IH; auto.
Qed.

Lemma is_digit_not_slash c :
  is_digit c = true → Ascii.eqb c (Ascii.ascii_of_nat 47) = false.
Proof.
  intros H. apply Ascii.eqb_neq. intros ->. vm_compute in H. discriminate.
Qed.

Lemma segments_digits s : all_digits s = true → segments s = [s].
Proof.
  induction s as [|c s IH]; [reflexivity|]. simpl.
  intros [Hc Hs]%andb_true_iff. rewrite (is_digit_not_slash c Hc), (IH Hs).
  reflexivity.
Qed.

Lemma sessionsDir_child (d : path) : sessionsDir d = (d ++ ["sessions"])%list.
Proof. reflexivity. Qed.

Lemma segments_cons c s :
  Ascii.eqb c (Ascii.ascii_of_nat 47) = false →
  segments (String c s) =
  match segments s with
  | h :: t => String c h :: t
  | [] => [String c ""]
  end.
Proof. intros H. simpl. rewrite H. reflexivity. Qed.

Lemma getSessionPath_digits (d : path) s :
  all_digits s = true →
  getSessionPath d s = (d ++ ["sessions"; "session_" +:+ s])%list.
Proof.
  intros H. unfold getSessionPath, path_join. rewrite sessionsDir_child.
  simpl. change ("" +:+ s) with s. rewrite (segments_digits s H). simpl.
  unfold join_segment. simpl. rewrite <- app_assoc. reflexivity.
Qed.

(** X1. Whatever a client sends, the cleaned identifier is made of digits,
    cleaning it again changes nothing, and its storage directory is the
    child [session_<digits>] of the sessions directory. *)
Theorem cleaned_identifier_names_child_directory (d : path) (phoneNumber : string) :
  let clean := remove_non_digits phoneNumber in
  all_digits clean = true ∧
  remove_non_digits clean = clean ∧
  getSessionPath d clean = (sessionsDir d ++ ["session_" +:+ clean])%list.
Proof.
  cbv zeta. pose proof (all_digits_remove_non_digits phoneNumber) as H.
  split; [exact H|]. split; [exact (remove_non_digits_fixed _ H)|].
  rewrite getSessionPath_digits by exact H. rewrite sessionsDir_child.
  rewrite <- app_assoc. reflexivity.
Qed.

Lemma string_app_inj_l (p a b : string) : p +:+ a = p +:+ b → a = b.
Proof. induction p as [|c p IH]; simpl; [auto|]. intros [= H]. auto. Qed.

Lemma session_paths_diverge (d : path) (a b : string) rest :
  all_digits a = true → all_digits b = true → a ≠ b →
  diverge (getSessionPath d a) (getSessionPath d b ++ rest)%list.
Proof.
  intros Ha Hb Hne. rewrite !getSessionPath_digits by assumption.
  exists (d ++ ["sessions"])%list, ("session_" +:+ a), ("session_" +:+ b), [], rest.
  rewrite <- !app_assoc. repeat split.
  intros H. apply Hne. injection H as H. exact H.
Qed.

(** X2. Two different digit identifiers have different storage
    directories, and neither directory lies inside the other. *)
Theorem distinct_identifiers_distinct_directories (d : path) (a b : string) :
  all_digits a = true → all_digits b = true → a ≠ b →
  getSessionPath d a ≠ getSessionPath d b ∧
  ∀ rest, diverge (getSessionPath d a) (getSessionPath d b ++ rest)%list.
Proof.
  intros Ha Hb Hne. split.
  - rewrite !getSessionPath_digits by assumption.
    intros H. apply app_inv_head in H. injection H as H.
    apply Hne. exact H.
  - intros rest. apply session_paths_diverge; assumption.
Qed.

(** ** Shape of the artifact *)

Lemma obj_set_fresh k v l : obj_get k l = None → obj_set k v l = (l ++ [(k, v)])%list.
Proof.
  induction l as [|[k' v'] l IH]; simpl; [reflexivity|].
  destruct (String.eqb k' k); [discriminate|]. intros H. by rewrite IH.
Qed.

Lemma obj_get_app_fresh k l l' :
  obj_get k l = None → obj_get k (l ++ l')%list = obj_get k l'.
Proof.
  induction l as [|[k' v'] l IH]; simpl; [reflexivity|].
  destruct (String.eqb k' k); [discriminate|]. exact IH.
Qed.

(** X3. When the base credentials have no property named [preKeys],
    [senderKeys] or [timestamp], the artifact is the base properties in
    their order, followed by those three in that order. *)
Theorem artifact_appends_three_keys credsData preKeysData senderKeysData now :
  obj_get "preKeys" (spread credsData) = None →
  obj_get "senderKeys" (spread credsData) = None →
  obj_get "timestamp" (spread credsData) = None →
  combinedCreds credsData preKeysData senderKeysData now =
  (spread credsData ++
   [("preKeys", preKeysData); ("senderKeys", senderKeysData);
    ("timestamp", JStr now)])%list.
Proof.
  intros Hp Hs Ht. unfold combinedCreds.
  rewrite (obj_set_fresh "preKeys") by exact Hp.
  rewrite (obj_set_fresh "senderKeys")
    by (rewrite obj_get_app_fresh by exact Hs; reflexivity).
  rewrite (obj_set_fresh "timestamp").
  - rewrite <- !app_assoc. reflexivity.
  - rewrite <- app_assoc. rewrite obj_get_app_fresh by exact Ht. reflexivity.
Qed.

Section Selection.
Context (JSON_parse : string → option json).

(** X4. Of several files with a fragment prefix only the first of the
    listing is read: what is listed after it, and what those files
    hold, does not matter. *)
Theorem first_listed_fragment_wins fs sessionPath prefix before file after :
  Forall (λ f, String.prefix prefix f = false) before →
  String.prefix prefix file = true →
  read_fragment JSON_parse fs sessionPath (before ++ file :: after)%list prefix
  = parse_file JSON_parse fs (path_join sessionPath file).
Proof.
  intros Hb Hf. unfold read_fragment.
  induction Hb as [|f before Hf' Hb IH]; simpl.
  - rewrite Hf. reflexivity.
  - rewrite Hf'. exact IH.
Qed.

End Selection.

(** ** Directories *)

Lemma entry_fmap_const c (x' : node) (es : list (string * node)) :
  entry c ((λ e, if String.eqb e.1 c then (e.1, x') else e) <$> es)
  = (λ _, x') <$> entry c es.
Proof. apply (entry_fmap c (λ _, x')). Qed.

Lemma fs_mkdirp_exists p : ∀ n n',
  fs_mkdirp p n = Some n' → ∃ es, fs_lookup p n' = Some (Dir es).
Proof.
  induction p as [|c p IH]; intros n n'; destruct n as [|es]; simpl;
    try discriminate.
  - intros [= <-]. eauto.
  - destruct (entry c es) as [x|] eqn:E.
    + destruct (fs_mkdirp p x) as [x'|] eqn:Em; [|discriminate].
      intros [= <-]. simpl. rewrite entry_fmap_const, E. simpl. eapply IH, Em.
    + destruct (fs_mkdirp p (Dir [])) as [x'|] eqn:Em; [|discriminate].
      intros [= <-]. simpl.
      assert (entry c (es ++ [(c, x')])%list = Some x') as ->.
      { clear -E. induction es as [|[k v] es IH]; simpl.
        - by rewrite String.eqb_refl.
        - simpl in E. destruct (String.eqb k c); [discriminate|]. apply IH, E. }
      eapply IH, Em.
Qed.


Lemma entry_fmap_ne c c' (f : string * node → string * node) (es : list (string * node)) :
  c' ≠ c → (∀ e, (f e).1 = e.1) →
  entry c' ((λ e, if String.eqb e.1 c then f e else e) <$> es) = entry c' es.
Proof.
  intros Hne Hf. induction es as [|[k x] es IH]; [reflexivity|].
  rewrite fmap_cons. cbn [fst].
  destruct (String.eqb k c) eqn:E.
  - apply String.eqb_eq in E. subst k.
    specialize (Hf (c, x)). destruct (f (c, x)) as [k' x']. simpl in Hf. subst k'.
    simpl. destruct (String.eqb c c') eqn:E'.
    + apply String.eqb_eq in E'. congruence.
    + exact IH.
  - simpl. destruct (String.eqb k c'); [reflexivity|exact IH].
Qed.

Lemma entry_filter_ne c c' (es : list (string * node)) :
  c' ≠ c →
  entry c' (filter (λ e, negb (String.eqb e.1 c) = true) es) = entry c' es.
Proof.
  intros Hne. induction es as [|[k x] es IH]; [reflexivity|].
  rewrite filter_cons. cbn [fst].
  destruct (decide (negb (String.eqb k c) = true)) as [H|H]; simpl.
  - rewrite IH. reflexivity.
  - destruct (String.eqb k c) eqn:E; [|simpl in H; congruence].
    apply String.eqb_eq in E. subst k.
    destruct (String.eqb c c') eqn:E'; [|exact IH].
    apply String.eqb_eq in E'. congruence.
Qed.

Lemma entry_app_l c (es es' : list (string * node)) x :
  entry c es = Some x → entry c (es ++ es')%list = Some x.
Proof.
  induction es as [|[k v] es IH]; simpl; [discriminate|].
  destruct (String.eqb k c); [auto|exact IH].
Qed.

Lemma fs_mkdirp_keeps_files p : ∀ n n' q content,
  fs_mkdirp p n = Some n' →
  fs_lookup q n = Some (File content) → fs_lookup q n' = Some (File content).
Proof.
  induction p as [|c p IH]; intros n n' q content; destruct n as [|es]; simpl;
    try discriminate.
  - intros [= <-]. auto.
  - destruct q as [|c' q]; [discriminate|].
    destruct (entry c es) as [x|] eqn:E.
    + destruct (fs_mkdirp p x) as [x'|] eqn:Em; [|discriminate].
      intros [= <-]. simpl.
      destruct (decide (c' = c)) as [->|Hne].
      * rewrite entry_fmap_const, E. simpl. apply IH. exact Em.
      * rewrite (entry_fmap_ne c c' (λ e, (e.1, x'))) by auto. auto.
    + destruct (fs_mkdirp p (Dir [])) as [x'|] eqn:Em; [|discriminate].
      intros [= <-]. simpl.
      destruct (entry c' es) as [y|] eqn:E'; [|discriminate].
      rewrite (entry_app_l _ _ _ _ E'). auto.
Qed.

(** What is outside the removed path stays as it was. *)
Lemma fs_remove_frame l : ∀ a b p' q' n, a ≠ b →
  fs_lookup (l ++ b :: q')%list (fs_remove (l ++ a :: p')%list n)
  = fs_lookup (l ++ b :: q')%list n.
Proof.
  induction l as [|c l IH]; intros a b p' q' n Hne; destruct n as [|es];
    try reflexivity.
  - rewrite !app_nil_l. destruct p' as [|c' p'].
    + simpl. rewrite entry_filter_ne by auto. reflexivity.
    + change (fs_remove (a :: c' :: p') (Dir es))
        with (Dir ((λ e, if String.eqb e.1 a
                         then (e.1, fs_remove (c' :: p') e.2) else e) <$> es)).
      simpl. rewrite (entry_fmap_ne a b (λ e, (e.1, fs_remove (c' :: p') e.2)));
        auto.
  - assert (∃ x y, (l ++ a :: p')%list = x :: y) as (x & y & Hxy)
      by (destruct l; simpl; eauto).
    rewrite <- !app_comm_cons. rewrite Hxy.
    change (fs_remove (c :: x :: y) (Dir es))
      with (Dir ((λ e, if String.eqb e.1 c
                       then (e.1, fs_remove (x :: y) e.2) else e) <$> es)).
    rewrite <- Hxy. simpl. rewrite entry_fmap.
    destruct (entry c es) as [z|]; simpl; [|reflexivity].
    apply IH. exact Hne.
Qed.

Lemma fs_remove_diverge p q n :
  diverge p q → fs_lookup q (fs_remove p n) = fs_lookup q n.
Proof.
  intros (l & a & b & p' & q' & -> & -> & Hne). apply fs_remove_frame, Hne.
Qed.

Section Directories.
Context (__dirname : path).

(** X5. When the first part of [initializeWhatsApp] returns, its result
    is the identifier's storage path and something exists there; only
    the disk may have changed, no existing file was altered, and with
    the directory already in place nothing changed at all. *)
Theorem storage_directory_ensured phoneNumber w sessionPath w' :
  initializeWhatsApp_enter __dirname phoneNumber w = (Returned sessionPath, w') →
  sessionPath = getSessionPath __dirname phoneNumber ∧
  existsSync (fs w') sessionPath = true ∧
  w' = with_fs (λ _, fs w') w ∧
  (∀ q content, fs_lookup q (fs w) = Some (File content) →
                fs_lookup q (fs w') = Some (File content)) ∧
  (existsSync (fs w) sessionPath = true → w' = w).
Proof.
  rewrite enter_spec. cbv zeta.
  destruct (existsSync (fs w) (getSessionPath __dirname phoneNumber)) eqn:Hex.
  - intros [= <- <-]. repeat split; auto. destruct w; reflexivity.
  - unfold mkdirSync.
    destruct (fs_mkdirp _ (fs w)) as [fs'|] eqn:Em; [|discriminate].
    intros [= <- <-]. split; [reflexivity|]. split; [|split; [|split]].
    + simpl. unfold existsSync.
      destruct (fs_mkdirp_exists _ _ _ Em) as [es ->]. reflexivity.
    + destruct w; reflexivity.
    + intros q content Hq. simpl. eapply fs_mkdirp_keeps_files; eassumption.
    + rewrite Hex. discriminate.
Qed.

End Directories.

(** X6. The two deferred removals, the retirement and the removal of a
    downloaded file, leave every path that parts from their own path as
    it was. *)
Theorem deferred_removals_are_local q :
  (∀ w phoneNumber sessionPath e_ok, diverge sessionPath q →
     fs_lookup q (fs (exec (on_retire_timer phoneNumber sessionPath e_ok) w))
     = fs_lookup q (fs w)) ∧
  (∀ w filePath, diverge filePath q →
     fs_lookup q (fs (exec (on_delete_timer filePath) w)) = fs_lookup q (fs w)).
Proof.
  split.
  - intros w phoneNumber sessionPath e_ok Hd. unfold exec. rewrite retire_spec.
    destruct (activeSessions w !! phoneNumber); [destruct e_ok|];
      destruct (existsSync (fs w) sessionPath); simpl; try reflexivity;
      apply fs_remove_diverge, Hd.
  - intros w filePath Hd. unfold exec. rewrite delete_spec.
    destruct (fs_lookup filePath (fs w)) as [[]|]; simpl; try reflexivity.
    apply fs_remove_diverge, Hd.
Qed.

(** ** Origins *)

Lemma truthy_Some v s : truthy v = Some s ↔ v = Some s ∧ s ≠ "".
Proof.
  destruct v as [t|]; simpl; [|split; [discriminate|intros [? _]; discriminate]].
  destruct (String.eqb t "") eqn:E.
  - apply String.eqb_eq in E. subst t. split; [discriminate|].
    intros [[= <-] H]. contradiction.
  - apply String.eqb_neq in E. split.
    + intros [= <-]. auto.
    + intros [[= <-] _]. reflexivity.
Qed.

(** X7. Outside production, which is any [NODE_ENV] other than exactly
    "production" and also none at all, [FRONTEND_URL] plays no part:
    the allowed origins are the five local ones.  In production a
    non-empty [FRONTEND_URL] is allowed, next to the placeholder
    domain, and an absent or empty one is dropped.  The list is never
    empty and never holds an empty origin. *)
Theorem allowed_origins_by_environment env_NODE_ENV FRONTEND_URL :
  (NODE_ENV env_NODE_ENV ≠ "production" →
   ∀ other, allowedOrigins env_NODE_ENV FRONTEND_URL
            = allowedOrigins env_NODE_ENV other) ∧
  (env_NODE_ENV = Some "production" →
   ∀ url, url ∈ allowedOrigins env_NODE_ENV FRONTEND_URL ↔
          (FRONTEND_URL = Some url ∧ url ≠ "") ∨
          url = "https://your-infinityfree-domain.infinityfreeapp.com") ∧
  allowedOrigins env_NODE_ENV FRONTEND_URL ≠ [] ∧
  "" ∉ allowedOrigins env_NODE_ENV FRONTEND_URL.
Proof.
  unfold allowedOrigins. split; [|split; [|split]].
  - intros H other. apply String.eqb_neq in H. rewrite H. reflexivity.
  - intros -> url. simpl.
    destruct (truthy FRONTEND_URL) as [u|] eqn:E.
    + apply truthy_Some in E as [-> Hu]. rewrite !elem_of_cons, elem_of_nil.
      split.
      * intros [->|[->|[]]]; auto.
      * intros [[[= ->] _]| ->]; auto.
    + rewrite elem_of_cons, elem_of_nil. split.
      * intros [->|[]]; auto.
      * intros [[Hf Hu]| ->]; [|auto].
        assert (truthy FRONTEND_URL = Some url) as H by (apply truthy_Some; auto).
        congruence.
  - destruct (String.eqb _ _); [|discriminate]. simpl.
    destruct (truthy FRONTEND_URL); discriminate.
  - destruct (String.eqb _ _).
    + simpl. destruct (truthy FRONTEND_URL) as [u|] eqn:E.
      * apply truthy_Some in E as [_ Hu].
        rewrite !elem_of_cons, elem_of_nil. intros [H|[H|[]]]; [auto|discriminate].
      * rewrite elem_of_cons, elem_of_nil. intros [H|[]]. discriminate.
    + rewrite !elem_of_cons, elem_of_nil.
      intros [H|[H|[H|[H|[H|[]]]]]]; discriminate.
Qed.

(** X8. A request without an origin, or with an empty one, passes the
    CORS check; any other origin passes exactly when it is in the
    list, and otherwise the error it raises is answered by the error
    middleware with status 403 and a body that lists the allowed
    origins.  Any other error is passed on. *)
Theorem cors_blocks_with_403 allowed origin :
  (truthy origin = None → cors_origin allowed origin = Returned true) ∧
  (∀ o, truthy origin = Some o →
     (o ∈ allowed → cors_origin allowed origin = Returned true) ∧
     (o ∉ allowed →
      ∃ err, cors_origin allowed origin = Thrown err ∧
             cors_error_middleware allowed err =
             Responded (Json 403
               (JObj [("error", JStr "CORS policy violation");
                      ("message", JStr "Origin not allowed");
                      ("allowedOrigins", JArr (JStr <$> allowed))])))) ∧
  (∀ message, message ≠ "Not allowed by CORS" →
     cors_error_middleware allowed (Error message) = Next (Error message)).
Proof.
  unfold cors_origin. split; [|split].
  - intros ->. reflexivity.
  - intros o ->. split.
    + intros H. rewrite bool_decide_eq_true_2 by exact H. reflexivity.
    + intros H. rewrite bool_decide_eq_false_2 by exact H.
      eexists. split; reflexivity.
  - intros message H. unfold cors_error_middleware.
    apply String.eqb_neq in H. rewrite H. reflexivity.
Qed.

(** ** Listing and health *)

(** X9. [GET /api/sessions] lists every identifier of the Store once,
    with the [connected] flag of its record, and nothing else; the
    count reported by [GET /api/health] is the length of that list. *)
Theorem sessions_listing_matches_store env_NODE_ENV FRONTEND_URL now w :
  ∃ entries : list (string * bool),
    api_sessions w =
      JObj [("sessions",
             JArr ((λ e : string * bool,
                      JObj [("phoneNumber", JStr e.1); ("connected", JBool e.2)])
                   <$> entries))] ∧
    NoDup entries.*1 ∧
    (∀ id flag, (id, flag) ∈ entries ↔
                ∃ r, activeSessions w !! id = Some r ∧ connected r = flag) ∧
    obj_get "activeSessions"
      (match api_health env_NODE_ENV FRONTEND_URL now w with
       | JObj props => props
       | _ => []
       end) = Some (JNum (Z.of_nat (length entries))).
Proof.
  exists ((λ kv : string * session, (kv.1, connected kv.2))
          <$> map_to_list (activeSessions w)).
  split; [|split; [|split]].
  - unfold api_sessions. rewrite <- list_fmap_compose. reflexivity.
  - rewrite <- list_fmap_compose.
    apply (NoDup_fst_map_to_list (activeSessions w)).
  - intros id flag. rewrite list_elem_of_fmap. split.
    + intros ([id' r] & [= -> ->] & Hin). apply elem_of_map_to_list in Hin. eauto.
    + intros (r & Hr & <-). exists (id, r). split; [reflexivity|].
      apply elem_of_map_to_list, Hr.
  - simpl. rewrite length_fmap, length_map_to_list. reflexivity.
Qed.

(** ** Shutdown *)

Lemma end_all_spec end_ok l : ∀ w,
  end_all end_ok l w = (Returned tt, with_connections (ended_by end_ok l) w).
Proof.
  induction l as [|[id r] l IH]; intros w.
  - destruct w; reflexivity.
  - simpl. unfold bind, try_catch, sock_end.
    destruct (end_ok (sock r)) eqn:E; cbv [modify throw ret]; rewrite IH;
      destruct w; unfold with_connections, ended_by; simpl; rewrite E;
      reflexivity.
Qed.

Lemma ended_by_dead end_ok l : ∀ cs i,
  (∀ c, cs !! i = Some c → live c = false) →
  ∀ c, ended_by end_ok l cs !! i = Some c → live c = false.
Proof.
  induction l as [|[id r] l IH]; intros cs i Hd; [exact Hd|].
  simpl. apply IH. destruct (end_ok (sock r)); [|exact Hd].
  intros c. unfold close_connection. rewrite list_lookup_alter.
  destruct (decide (sock r = i)) as [->|]; [|apply Hd].
  destruct (cs !! i); simpl; [|discriminate]. intros [= <-]. reflexivity.
Qed.

Lemma ended_by_ends end_ok l : ∀ cs id r c,
  (id, r) ∈ l → end_ok (sock r) = true →
  ended_by end_ok l cs !! sock r = Some c → live c = false.
Proof.
  induction l as [|[id' r'] l IH]; intros cs id r c Hin Hok.
  - apply elem_of_nil in Hin. contradiction.
  - apply elem_of_cons in Hin as [[= <- <-]|Hin].
    + simpl. rewrite Hok. apply ended_by_dead.
      intros c'. unfold close_connection. rewrite list_lookup_alter_eq.
      destruct (cs !! sock r); simpl; [|discriminate]. intros [= <-]. reflexivity.
    + simpl. eapply IH; eassumption.
Qed.

Lemma ended_by_other end_ok l : ∀ cs sk,
  (∀ id r, (id, r) ∈ l → sock r = sk → end_ok sk = false) →
  ended_by end_ok l cs !! sk = cs !! sk.
Proof.
  induction l as [|[id r] l IH]; intros cs sk H; [reflexivity|].
  simpl. rewrite IH.
  - destruct (end_ok (sock r)) eqn:E; [|reflexivity].
    unfold close_connection. rewrite list_lookup_alter_ne; [reflexivity|].
    intros Heq. subst sk. rewrite (H id r) in E; [discriminate| |reflexivity].
    apply elem_of_cons. auto.
  - intros id' r' Hin. apply (H id' r'). apply elem_of_cons. auto.
Qed.

(** X10. [cleanup] never throws.  It empties the Store and ends the
    connection of every record whose [end] returns; a connection that
    no record names, or whose [end] threw, is left as it is, and
    neither the pending timers, the suspended initializations nor the
    disk are touched. *)
Theorem cleanup_empties_store end_ok w :
  ∃ w', cleanup end_ok w = (Returned tt, w') ∧
    activeSessions w' = ∅ ∧
    (∀ id r, activeSessions w !! id = Some r → end_ok (sock r) = true →
             is_live (sock r) w' = false) ∧
    (∀ sk, (∀ id r, activeSessions w !! id = Some r → sock r = sk →
                    end_ok sk = false) →
           connections w' !! sk = connections w !! sk) ∧
    timers w' = timers w ∧ awaiting w' = awaiting w ∧ fs w' = fs w.
Proof.
  unfold cleanup, bind, get. rewrite end_all_spec. unfold modify.
  eexists. split; [reflexivity|]. simpl. split; [reflexivity|].
  split; [|split; [|repeat split]].
  - intros id r Hr Hok. unfold is_live. simpl.
    destruct (ended_by _ _ _ !! sock r) as [c|] eqn:E; [|reflexivity].
    eapply ended_by_ends; [|exact Hok|exact E].
    apply elem_of_map_to_list, Hr.
  - intros sk H. apply ended_by_other.
    intros id r Hin. apply (H id r). apply elem_of_map_to_list, Hin.
Qed.

(** ** Invariants on identifiers, connections and the connected flag *)

Lemma close_connection_named (P : wa_socket → Prop) sk cs :
  (∀ c, P c → P {| owner := owner c; storage := storage c; live := false |}) →
  Forall P cs → Forall P (close_connection sk cs).
Proof. intros HP H. unfold close_connection. apply Forall_alter; auto. Qed.

Section Names.
Context (__dirname : path) (JSON_parse : string → option json)
        (JSON_stringify : json → string).

Local Abbreviation wn := (well_named __dirname).

Lemma wn_frame w w' :
  activeSessions w' = activeSessions w → connections w' = connections w →
  awaiting w' = awaiting w → timers w' = timers w → wn w → wn w'.
Proof. unfold well_named. intros -> -> -> ->. auto. Qed.

Ltac wn_same H := exact (wn_frame _ _ eq_refl eq_refl eq_refl eq_refl H).

Lemma wn_evicted w w' id sk :
  (activeSessions w' = activeSessions w ∨
   activeSessions w' = delete id (activeSessions w)) →
  (connections w' = connections w ∨
   connections w' = close_connection sk (connections w)) →
  awaiting w' = awaiting w → timers w' = timers w → wn w → wn w'.
Proof.
  unfold well_named. intros Hs Hc -> -> (H1 & H2 & H3 & H4).
  split; [|split; [|split]]; auto.
  - intros id' r. destruct Hs as [->| ->]; [apply H1|].
    intros [_ H]%lookup_delete_Some. apply (H1 _ _ H).
  - destruct Hc as [->| ->]; [exact H2|].
    apply close_connection_named; auto.
Qed.

Lemma wn_awaiting w phoneNumber c :
  all_digits phoneNumber = true → wn w →
  wn (with_awaiting (λ l, l ++
        [{| p_phoneNumber := phoneNumber;
            p_sessionPath := getSessionPath __dirname phoneNumber;
            p_caller := c |}])%list w).
Proof.
  unfold well_named. intros Hd (H1 & H2 & H3 & H4). simpl.
  split; [|split; [|split]]; auto.
  apply Forall_app. split; [exact H3|]. constructor; [|constructor].
  split; [exact Hd|reflexivity].
Qed.

Lemma wn_timer w cb ms :
  callback_named __dirname cb → wn w →
  wn (with_timers (λ l, l ++ [(cb, ms)])%list w).
Proof.
  unfold well_named. intros Hd (H1 & H2 & H3 & H4). simpl.
  split; [|split; [|split]]; auto.
  apply Forall_app. split; [exact H4|]. constructor; [exact Hd|constructor].
Qed.

Lemma wn_drop_timer w i : wn w → wn (with_timers (λ l, delete i l) w).
Proof.
  unfold well_named. intros (H1 & H2 & H3 & H4). simpl.
  split; [|split; [|split]]; auto. apply Forall_delete, H4.
Qed.

Lemma wn_drop_awaiting w i : wn w → wn (with_awaiting (λ l, delete i l) w).
Proof.
  unfold well_named. intros (H1 & H2 & H3 & H4). simpl.
  split; [|split; [|split]]; auto. apply Forall_delete, H3.
Qed.

Lemma await_wn phoneNumber c w o w' :
  all_digits phoneNumber = true →
  await_initializeWhatsApp __dirname phoneNumber c w = (o, w') → wn w → wn w'.
Proof.
  intros Hd. unfold await_initializeWhatsApp. rewrite enter_spec. cbv zeta.
  destruct (existsSync _ _).
  - intros [= <- <-] Hw. apply (wn_awaiting w phoneNumber c Hd Hw).
  - destruct (mkdirSync _ _) as [fs'|e].
    + intros [= <- <-] Hw.
      apply (wn_awaiting (with_fs (λ _, fs') w) phoneNumber c Hd).
      wn_same Hw.
    + intros H Hw. apply settle_keeps in H as (Hs & Hc & _ & Ht & Ha).
      eapply wn_frame; [exact Hs|exact Hc|exact Ha|exact Ht|].
      wn_same Hw.
Qed.

Lemma request_wn clean e_ok c (pre : M unit) w o w' :
  all_digits clean = true →
  (∀ w0, ∃ w1, pre w0 = (Returned tt, w1) ∧
               activeSessions w1 = activeSessions w0 ∧
               connections w1 = connections w0 ∧
               awaiting w1 = awaiting w0 ∧ timers w1 = timers w0) →
  bind (evict clean e_ok)
    (λ _, bind pre (λ _, await_initializeWhatsApp __dirname clean c)) w = (o, w') →
  wn w → wn w'.
Proof.
  intros Hd Hpre. unfold bind. rewrite evict_spec.
  match goal with |- context [pre ?x] =>
    destruct (Hpre x) as (w1 & -> & Hs & Hc & Ha & Ht) end.
  intros H Hw. eapply await_wn; [exact Hd|exact H|].
  destruct (activeSessions w !! clean) as [old|] eqn:E.
  - destruct e_ok; simpl in Hs, Hc, Ha, Ht.
    + eapply (wn_evicted w w1 clean (sock old));
        [right; exact Hs|right; exact Hc|exact Ha|exact Ht|exact Hw].
    + eapply (wn_evicted w w1 clean (sock old));
        [right; exact Hs|left; exact Hc|exact Ha|exact Ht|exact Hw].
  - eapply wn_frame; [exact Hs|exact Hc|exact Ha|exact Ht|exact Hw].
Qed.

Lemma exec_wn (m : M unit) w :
  (∀ o w', m w = (o, w') → wn w') → wn (exec m w).
Proof.
  intros H. unfold exec. destruct (m w) as [[]w'] eqn:E; specialize (H _ _ eq_refl).
  - exact H.
  - wn_same H.
Qed.

Lemma stabilized_frame sk phoneNumber sessionPath a w :
  ∃ w', on_stabilized_timer JSON_parse JSON_stringify sk phoneNumber sessionPath a w
        = (Returned tt, w') ∧
    awaiting w' = awaiting w ∧ downloads w' = downloads w ∧
    responses w' = responses w ∧ rejections w' = rejections w.
Proof.
  unfold on_stabilized_timer, createCredsJson.
  cbv [bind get lift try_catch].
  destruct (createCredsJson_try _ _ _ _ _) as [text|e]; simpl.
  - destruct (String.eqb text "") eqn:E.
    + unfold_m. eexists; split; [reflexivity|]. repeat split.
    + rewrite send_spec.
      destruct (first_send_ok a), (second_send_ok a); unfold_m; simpl;
        (eexists; split; [reflexivity|]); repeat split.
  - unfold_m. eexists; split; [reflexivity|]. repeat split.
Qed.

Lemma step_wn ev w :
  wn w → wn (step __dirname JSON_parse JSON_stringify ev w).
Proof.
  intros Hw.
  destruct ev as [client phone e_ok|req phone e_ok|i r|sk u|i a|req f|i err|p content];
    simpl.
  - apply exec_wn. intros o w'. unfold on_generateSession.
    assert (∀ n, emit (Socket client) n w = (o, w') → wn w') as Hemit.
    { intros n [= <- <-]. wn_same Hw. }
    destruct phone as [s|]; [|apply Hemit].
    destruct (String.eqb s ""); [apply Hemit|].
    destruct (_ <? _)%nat; [apply Hemit|].
    intros H. eapply request_wn; [apply all_digits_remove_non_digits| |exact H|exact Hw].
    intros w0. eexists. split; [reflexivity|]. repeat split.
  - apply exec_wn. intros o w'. unfold post_generate_session.
    assert (∀ r, respond req r w = (o, w') → wn w') as Hresp.
    { intros r [= <- <-]. wn_same Hw. }
    destruct phone as [s|]; [|apply Hresp].
    destruct (String.eqb s ""); [apply Hresp|].
    intros H.
    eapply (request_wn _ _ _ (ret tt));
      [apply all_digits_remove_non_digits| |exact H|exact Hw].
    intros w0. eexists. split; [reflexivity|]. repeat split.
  - destruct (awaiting w !! i) as [p|] eqn:Ep; [|exact Hw].
    assert (named __dirname (p_phoneNumber p) (p_sessionPath p)) as [Hd Hp].
    { destruct Hw as (_ & _ & H3 & _).
      rewrite Forall_lookup in H3. apply (H3 i p Ep). }
    apply exec_wn. intros o w'.
    pose proof (wn_drop_awaiting w i Hw) as Hw0.
    generalize dependent (with_awaiting (λ l, delete i l) w). intros w0 Hw0.
    unfold resume_initializeWhatsApp. rewrite leave_spec.
    assert (wn (with_activeSessions
             (λ m, <[p_phoneNumber p :=
                {| sock := length (connections w0); sessionPath := p_sessionPath p;
                   saveCreds := p_sessionPath p; connected := false |}]> m)
             (with_connections
                (λ cs, cs ++ [{| owner := p_phoneNumber p; storage := p_sessionPath p;
                                 live := true |}])%list w0))) as Hreg.
    { destruct Hw0 as (H1 & H2 & H3 & H4). unfold well_named. simpl.
      split; [|split; [|split]]; auto.
      - intros id r0. destruct (decide (p_phoneNumber p = id)) as [<-|Hne].
        + rewrite lookup_insert_eq. intros [= <-]. split; assumption.
        + rewrite lookup_insert_ne by exact Hne. apply H1.
      - apply Forall_app. split; [exact H2|].
        constructor; [split; assumption|constructor]. }
    destruct r as [e|e|e|registered]; cbv zeta;
      intros H; apply settle_keeps in H as (Hs & Hc & _ & Ht & Ha);
      (eapply wn_frame; [exact Hs|exact Hc|exact Ha|exact Ht|]);
      try (wn_same Hw0).
    destruct registered; [exact Hreg|].
    apply wn_timer; [exact Hd|exact Hreg].
  - destruct (connections w !! sk) as [c|] eqn:Ec; [|exact Hw].
    assert (named __dirname (owner c) (storage c)) as Hn.
    { destruct Hw as (_ & H2 & _). rewrite Forall_lookup in H2. apply (H2 sk c Ec). }
    assert (wn match connection u with
               | Some close => with_connections (close_connection sk) w
               | _ => w
               end) as Hw0.
    { destruct (connection u) as [[]|]; try exact Hw.
      eapply (wn_evicted w _ "" sk); [left| right| | |exact Hw]; reflexivity. }
    apply exec_wn. intros o w'. unfold on_connection_update.
    destruct (connection u) as [[]|].
    + destruct (shouldReconnect u); unfold_m; intros [= <- <-].
      * apply wn_timer; [apply Hn|].
        eapply (wn_evicted _ _ (owner c) sk); [right|left| | |exact Hw0]; reflexivity.
      * eapply (wn_evicted _ _ (owner c) sk); [right|left| | |exact Hw0]; reflexivity.
    + unfold_m. simpl.
      destruct (activeSessions w !! owner c) as [r|] eqn:Er; intros [= <- <-].
      * apply wn_timer; [exact Hn|].
        destruct Hw as (H1 & H2 & H3 & H4). unfold well_named. simpl.
        split; [|split; [|split]]; auto.
        intros id r0. destruct (decide (owner c = id)) as [<-|Hne].
        -- rewrite lookup_insert_eq. intros [= <-]. apply (H1 _ _ Er).
        -- rewrite lookup_insert_ne by exact Hne. apply H1.
      * wn_same Hw.
    + unfold_m. intros [= <- <-]. wn_same Hw.
    + unfold_m. intros [= <- <-]. exact Hw.
  - destruct (timers w !! i) as [[cb ms]|] eqn:Et; [|exact Hw].
    assert (callback_named __dirname cb) as Hn.
    { destruct Hw as (_ & _ & _ & H4). rewrite Forall_lookup in H4.
      apply (H4 i (cb, ms) Et). }
    pose proof (wn_drop_timer w i Hw) as Hw0.
    generalize dependent (with_timers (λ l, delete i l) w). intros w0 Hw0.
    apply exec_wn. intros o w'.
    destruct cb as [sk ph|sk ph sp|ph sp|ph|fp]; simpl.
    + rewrite pairing_spec. intros [= <- <-].
      wn_same Hw0.
    + destruct (stabilized_spec JSON_parse JSON_stringify sk ph sp a w0)
        as (w1 & Hrun & Hs & Hc & _ & Ht & _).
      destruct (stabilized_frame sk ph sp a w0) as (w2 & Hrun2 & Ha & _).
      rewrite Hrun in Hrun2. injection Hrun2 as <-.
      rewrite Hrun. intros [= <- <-].
      destruct (delivered _ _ _ _ _).
      * pose proof (wn_timer w0 (Retire ph sp) 10000%Z Hn Hw0) as Hw1.
        exact (wn_frame (with_timers (λ l, l ++ [(Retire ph sp, 10000%Z)])%list w0)
                 w1 Hs Hc Ha Ht Hw1).
      * rewrite app_nil_r in Ht.
        eapply wn_frame; [exact Hs|exact Hc|exact Ha|exact Ht|exact Hw0].
    + rewrite retire_spec. intros [= <- <-].
      destruct (activeSessions w0 !! ph) as [r|] eqn:Er; [destruct (end_ok a)|];
        destruct (existsSync (fs w0) sp);
        first [ exact Hw0
              | wn_same Hw0
              | eapply (wn_evicted w0 _ ph (sock r)); [right|right| | |exact Hw0];
                reflexivity ].
    + intros H. eapply await_wn; [exact Hn|exact H|exact Hw0].
    + rewrite delete_spec. intros [= <- <-].
      destruct (fs_lookup fp (fs w0)) as [[]|];
        first [exact Hw0 | wn_same Hw0].
  - apply exec_wn. intros o w'. unfold get_download. cbv [bind get respond modify].
    destruct (negb _); intros [= <- <-]; wn_same Hw.
  - destruct (downloads w !! i) as [[req fp]|]; [|exact Hw].
    apply exec_wn. intros o w'. unfold download_callback.
    destruct err; cbv [bind respond setTimeout modify]; intros [= <- <-].
    + wn_same Hw.
    + apply (wn_timer _ (DeleteDownloaded fp) 5000%Z); [exact I|].
      wn_same Hw.
  - wn_same Hw.
Qed.

End Names.

Section Runs.
Context (__dirname : path) (JSON_parse : string → option json)
        (JSON_stringify : json → string).

Local Abbreviation run' := (run __dirname JSON_parse JSON_stringify).
Local Abbreviation step' := (step __dirname JSON_parse JSON_stringify).

Lemma boot_well_named disk : well_named __dirname (boot __dirname disk).
Proof.
  unfold well_named, boot. simpl. split; [|repeat split; constructor].
  intros id r H. by rewrite lookup_empty in H.
Qed.

Lemma run_well_named evs : ∀ w,
  well_named __dirname w → well_named __dirname (run' evs w).
Proof.
  induction evs as [|ev evs IH]; intros w Hw; [exact Hw|].
  apply IH, step_wn, Hw.
Qed.

(** X11. In every run from start-up, every identifier in the Store is
    made of digits and its record's storage path is the child
    [session_<identifier>] of the sessions directory; the same holds
    for the identifier and directory of every connection. *)
Theorem identifiers_stay_clean evs disk :
  let w := run' evs (boot __dirname disk) in
  (∀ id r, activeSessions w !! id = Some r →
     all_digits id = true ∧
     sessionPath r = (sessionsDir __dirname ++ ["session_" +:+ id])%list) ∧
  (∀ sk c, connections w !! sk = Some c →
     all_digits (owner c) = true ∧
     storage c = (sessionsDir __dirname ++ ["session_" +:+ owner c])%list).
Proof.
  cbv zeta.
  destruct (run_well_named evs _ (boot_well_named disk)) as (H1 & H2 & _).
  assert (∀ id p, named __dirname id p →
            all_digits id = true ∧
            p = (sessionsDir __dirname ++ ["session_" +:+ id])%list) as Hn.
  { intros id p [Hd ->]. split; [exact Hd|].
    rewrite getSessionPath_digits by exact Hd.
    rewrite sessionsDir_child, <- app_assoc. reflexivity. }
  split.
  - intros id r Hr. apply Hn, (H1 id r Hr).
  - intros sk c Hc. apply Hn. rewrite Forall_lookup in H2. apply (H2 sk c Hc).
Qed.

Lemma close_connection_kept sk cs i c :
  cs !! i = Some c →
  ∃ c', close_connection sk cs !! i = Some c' ∧ owner c' = owner c ∧
        storage c' = storage c ∧ (live c' = true → live c = true).
Proof.
  intros H. unfold close_connection. rewrite list_lookup_alter.
  destruct (decide (sk = i)) as [->|]; rewrite H; simpl;
    (eexists; split; [reflexivity|]); repeat split; auto. discriminate.
Qed.

Lemma moves_kept w w' : moves w w' → kept w w'.
Proof.
  intros Hm i c Hi.
  destruct Hm as [_ Hc|? _ Hc|sk _ Hc|? sk _ Hc|? ? _ _ Hc|? ? _ Hc]; rewrite Hc;
    try (exists c; repeat split; auto; fail);
    try (apply close_connection_kept, Hi).
  exists c. split; [|repeat split; auto].
  rewrite lookup_app_l; [exact Hi|]. eapply lookup_lt_Some, Hi.
Qed.

Lemma run_kept evs : ∀ w, kept w (run' evs w).
Proof.
  induction evs as [|ev evs IH]; intros w i c Hi.
  - exists c. repeat split; auto.
  - destruct (moves_kept _ _ (step_moves __dirname JSON_parse JSON_stringify ev w)
                i c Hi) as (c1 & H1 & Ho & Hs & Hl).
    destruct (IH (step' ev w) i c1 H1) as (c2 & H2 & Ho2 & Hs2 & Hl2).
    exists c2. split; [exact H2|]. repeat split; try congruence. auto.
Qed.

(** X12. Whatever happens next, a connection that was made stays in
    place with its identifier and its directory, and a connection that
    is no longer live never becomes live again. *)
Theorem connections_never_revive evs w sk c :
  connections w !! sk = Some c →
  ∃ c', connections (run __dirname JSON_parse JSON_stringify evs w) !! sk = Some c' ∧
        owner c' = owner c ∧ storage c' = storage c ∧
        (live c = false → live c' = false).
Proof.
  intros H. destruct (run_kept evs w sk c H) as (c' & H' & Ho & Hs & Hl).
  exists c'. repeat split; auto.
  intros Hd. destruct (live c'); [|reflexivity]. rewrite Hl in Hd; auto.
Qed.

Lemma step_stays_connected id sk ev w :
  stays_connected id sk w → stays_connected id sk (step' ev w).
Proof.
  intros (Hreg & Hlt & Hc).
  pose proof (step_moves __dirname JSON_parse JSON_stringify ev w) as Hm.
  split; [eapply moves_registered; eassumption|]. split.
  - destruct Hm as [_ Hcs|? _ Hcs|? _ Hcs|? ? _ Hcs|? ? _ _ Hcs|? ? _ Hcs];
      rewrite Hcs; unfold close_connection;
      rewrite ?length_alter, ?length_app; simpl; lia.
  - intros r. destruct Hm as [Hs _|id' Hs _|? Hs _|id' ? Hs _|id' r0 Hr0 Hs _|id' p Hs _];
      rewrite Hs.
    + apply Hc.
    + intros [_ H]%lookup_delete_Some. apply Hc, H.
    + apply Hc.
    + intros [_ H]%lookup_delete_Some. apply Hc, H.
    + destruct (decide (id' = id)) as [->|Hne].
      * rewrite lookup_insert_eq. intros [= <-] _. reflexivity.
      * rewrite lookup_insert_ne by exact Hne. apply Hc.
    + destruct (decide (id' = id)) as [->|Hne].
      * rewrite lookup_insert_eq. intros [= <-]. simpl. lia.
      * rewrite lookup_insert_ne by exact Hne. apply Hc.
Qed.

(** X13. Once the record of a session is marked connected, no later
    event resets the flag: as long as the Store holds a record of that
    connection under the identifier, it is marked connected. *)
Theorem connected_is_never_reset evs w id r r' :
  registered w →
  activeSessions w !! id = Some r → connected r = true →
  activeSessions (run' evs w) !! id = Some r' → sock r' = sock r →
  connected r' = true.
Proof.
  intros Hreg Hr Hc.
  assert (stays_connected id (sock r) w) as H0.
  { split; [exact Hreg|]. split.
    - destruct (Hreg id r Hr) as (c & Hl & _). eapply lookup_lt_Some, Hl.
    - intros r0 Hr0 _. congruence. }
  assert (∀ w0, stays_connected id (sock r) w0 →
                stays_connected id (sock r) (run' evs w0)) as Hrun.
  { induction evs as [|ev evs IH]; intros w0 H; [exact H|].
    apply IH, step_stays_connected, H. }
  destruct (Hrun w H0) as (_ & _ & H). apply H.
Qed.

End Runs.

(** ** Requests, answers and callbacks *)

Section Answers.
Context (__dirname : path) (JSON_parse : string → option json)
        (JSON_stringify : json → string).

Local Abbreviation step' := (step __dirname JSON_parse JSON_stringify).

Lemma await_rest_spec clean req w :
  ∃ w', exec (await_initializeWhatsApp __dirname clean (FromRest req)) w = w' ∧
    ((∃ r, responses w' = (responses w ++ [(req, r)])%list ∧
           awaiting w' = awaiting w) ∨
     (responses w' = responses w ∧
      awaiting w' = (awaiting w ++
        [{| p_phoneNumber := clean;
            p_sessionPath := getSessionPath __dirname clean;
            p_caller := FromRest req |}])%list)).
Proof.
  eexists. split; [reflexivity|].
  unfold exec, await_initializeWhatsApp. rewrite enter_spec. cbv zeta.
  destruct (existsSync _ _); [right; split; reflexivity|].
  destruct (mkdirSync _ _); [right; split; reflexivity|].
  left. eexists. split; reflexivity.
Qed.

(** X14. A request to [POST /api/generate-session] either is answered
    at once and suspends nothing, or is not answered yet and suspends
    one initialization that carries its request; when that
    initialization resumes it leaves the suspended ones and the request
    gets one answer, 200 if the connection was made and 500 if not.
    An initialization started by another caller answers no request. *)
Theorem rest_request_answered_once :
  (∀ w req phoneNumber e_ok,
     let w' := step' (PostGenerateSession req phoneNumber e_ok) w in
     (∃ r, responses w' = (responses w ++ [(req, r)])%list ∧
           awaiting w' = awaiting w) ∨
     (responses w' = responses w ∧
      ∃ clean, awaiting w' = (awaiting w ++
        [{| p_phoneNumber := clean;
            p_sessionPath := getSessionPath __dirname clean;
            p_caller := FromRest req |}])%list)) ∧
  (∀ w i p r, awaiting w !! i = Some p →
     let w' := step' (Resume i r) w in
     awaiting w' = delete i (awaiting w) ∧
     match p_caller p with
     | FromRest req =>
         ∃ body, responses w' =
           (responses w ++
            [(req, Json (match r with Made _ => 200 | _ => 500 end) body)])%list
     | _ => responses w' = responses w
     end).
Proof.
  split.
  - intros w req phoneNumber e_ok. cbv zeta. simpl. unfold post_generate_session.
    assert (∀ r0, (∃ r, responses (exec (respond req r0) w)
                        = (responses w ++ [(req, r)])%list ∧
                        awaiting (exec (respond req r0) w) = awaiting w)) as Hresp.
    { intros r0. eexists. split; reflexivity. }
    destruct phoneNumber as [s|]; [|left; apply Hresp].
    destruct (String.eqb s ""); [left; apply Hresp|].
    set (clean := remove_non_digits s).
    assert (∃ w0, evict clean e_ok w = (Returned tt, w0) ∧
                  responses w0 = responses w ∧ awaiting w0 = awaiting w)
      as (w0 & He & Hr0 & Ha0).
    { rewrite evict_spec. eexists. split; [reflexivity|].
      destruct (activeSessions w !! clean); [destruct e_ok|]; split; reflexivity. }
    assert (exec (bind (evict clean e_ok)
                    (λ _, await_initializeWhatsApp __dirname clean (FromRest req))) w
            = exec (await_initializeWhatsApp __dirname clean (FromRest req)) w0)
      as ->.
    { unfold exec, bind. rewrite He. reflexivity. }
    destruct (await_rest_spec clean req w0) as (w' & -> & [(r & Hr & Ha)|[Hr Ha]]).
    + left. exists r. rewrite Hr, Ha, Hr0, Ha0. split; reflexivity.
    + right. rewrite Hr, Ha, Hr0, Ha0. split; [reflexivity|]. eauto.
  - intros w i p r Hp. cbv zeta. simpl. rewrite Hp.
    unfold exec, resume_initializeWhatsApp. rewrite leave_spec.
    destruct r as [e|e|e|[]], (p_caller p); simpl; unfold_m; simpl;
      (split; [reflexivity|]); first [reflexivity | eexists; reflexivity].
Qed.

(** X15. A pairing code is asked for only when the credentials are not
    registered, 3000 ms after the connection is made and with the
    fixed code SAMUEL01.  Whether the request succeeds or fails, the
    callback emits one notification and leaves the Store, the
    connections, the disk and the timers as they are. *)
Theorem pairing_request_is_harmless phoneNumber :
  (∀ w sessionPath registered, ∃ sk w',
     initializeWhatsApp_leave phoneNumber sessionPath (Made registered) w
       = (Returned sk, w') ∧
     timers w' = (timers w ++
       if registered then [] else [(PairingCode sk phoneNumber, 3000%Z)])%list) ∧
  (∀ w sk answer, ∃ w' n,
     on_pairing_timer sk phoneNumber answer w = (Returned tt, w') ∧
     wire w' = (wire w ++ [RequestPairingCode sk phoneNumber "SAMUEL01"])%list ∧
     emitted w' = (emitted w ++ [(Io, n)])%list ∧
     match answer with
     | Returned pairingCode => n = N_pairingCode phoneNumber pairingCode
     | Thrown _ => ∃ message, n = N_error (Some phoneNumber) message
     end ∧
     activeSessions w' = activeSessions w ∧ connections w' = connections w ∧
     fs w' = fs w ∧ timers w' = timers w).
Proof.
  split.
  - intros w sessionPath registered. rewrite leave_spec. cbv zeta.
    eexists _, _. split; [reflexivity|].
    destruct registered; simpl; [rewrite app_nil_r|]; reflexivity.
  - intros w sk answer. rewrite pairing_spec. eexists _, _.
    split; [reflexivity|]. simpl. do 2 (split; [reflexivity|]).
    split; [|repeat split]. destruct answer; eauto.
Qed.

(** X16. The stabilization callback never throws and leaves the Store,
    the connections, the disk and the suspended initializations as
    they are.  It emits one notification: [sessionReady] when the
    artifact was delivered, an error otherwise; only in the first case
    is a timer armed, so after a failed assembly or delivery the
    session stays as it was. *)
Theorem stabilization_only_notifies sk phoneNumber sessionPath a w :
  ∃ w' n,
    on_stabilized_timer JSON_parse JSON_stringify sk phoneNumber sessionPath a w
      = (Returned tt, w') ∧
    activeSessions w' = activeSessions w ∧ connections w' = connections w ∧
    fs w' = fs w ∧ awaiting w' = awaiting w ∧
    emitted w' = (emitted w ++ [(Io, n)])%list ∧
    match delivered JSON_parse JSON_stringify w sessionPath a with
    | Some _ =>
        n = N_sessionReady phoneNumber
              "Session sent to your WhatsApp! Check your messages." true ∧
        timers w' = (timers w ++ [(Retire phoneNumber sessionPath, 10000%Z)])%list
    | None =>
        (∃ message, n = N_error (Some phoneNumber) message) ∧ timers w' = timers w
    end.
Proof.
  unfold on_stabilized_timer, delivered, createCredsJson.
  cbv [bind get lift try_catch].
  destruct (createCredsJson_try _ _ _ _ _) as [text|e]; simpl.
  - destruct (String.eqb text "") eqn:E.
    + unfold_m. eexists _, _. split; [reflexivity|]. simpl.
      do 5 (split; [reflexivity|]). split; [eauto|reflexivity].
    + rewrite send_spec.
      destruct (first_send_ok a), (second_send_ok a); unfold_m; simpl;
        eexists _, _; (split; [reflexivity|]); simpl;
        do 5 (split; [reflexivity|]); (split; [eauto|reflexivity]).
  - unfold_m. eexists _, _. split; [reflexivity|]. simpl.
    do 5 (split; [reflexivity|]). split; [eauto|reflexivity].
Qed.

Lemma segments_no_slash s : no_slash s = true → segments s = [s].
Proof.
  induction s as [|c s IH]; [reflexivity|]. simpl.
  intros [Hc Hs]%andb_true_iff. apply negb_true_iff in Hc.
  rewrite Hc, (IH Hs). reflexivity.
Qed.

Lemma path_join_plain (p : path) name :
  plain_name name = true → path_join p name = (p ++ [name])%list.
Proof.
  unfold plain_name. rewrite !andb_true_iff, !negb_true_iff.
  intros [[[Hs H0] H1] H2]. unfold path_join.
  rewrite (segments_no_slash _ Hs). simpl. unfold join_segment.
  rewrite H0, H1, H2. reflexivity.
Qed.

Lemma path_join_up (p : path) dir name :
  plain_name name = true →
  path_join (p ++ [dir])%list ("../" +:+ name) = (p ++ [name])%list.
Proof.
  unfold plain_name. rewrite !andb_true_iff, !negb_true_iff.
  intros [[[Hs H0] H1] H2]. unfold path_join. simpl.
  change ("" +:+ name) with name.
  rewrite (segments_no_slash _ Hs). simpl. unfold join_segment at 2. simpl.
  rewrite removelast_last. unfold join_segment. rewrite H0, H1, H2. reflexivity.
Qed.

Lemma ends_with_slash_no_slash s : no_slash s = true → ends_with_slash s = false.
Proof.
  induction s as [|c s IH]; [reflexivity|]. simpl.
  intros [Hc Hs]%andb_true_iff. apply negb_true_iff in Hc.
  destruct s; [exact Hc|exact (IH Hs)].
Qed.

Lemma ends_with_slash_up name :
  plain_name name = true → ends_with_slash ("../" +:+ name) = false.
Proof.
  unfold plain_name. rewrite !andb_true_iff, !negb_true_iff.
  intros [[[Hs H0] _] _]. destruct name as [|c name]; [discriminate|].
  exact (ends_with_slash_no_slash _ Hs).
Qed.

(** X17. The download handler joins the requested name to the sessions
    directory without confining the result: a plain name resolves to a
    child of the sessions directory, but "../" before a plain name
    resolves to a sibling of the sessions directory.  When a file is
    there the request is accepted, and after a completed download the
    removal timer deletes that file. *)
Theorem download_is_not_confined name :
  plain_name name = true →
  path_join (sessionsDir __dirname) name = (sessionsDir __dirname ++ [name])%list ∧
  path_join (sessionsDir __dirname) ("../" +:+ name) = (__dirname ++ [name])%list ∧
  ∀ w req content,
    fs_lookup (__dirname ++ [name])%list (fs w) = Some (File content) →
    let w1 := step' (GetDownload req ("../" +:+ name)) w in
    w1 = with_downloads (λ l, l ++ [(req, (__dirname ++ [name])%list)])%list w ∧
    let w2 := step' (DownloadDone (length (downloads w)) false) w1 in
    timers w2 = (timers w ++
      [(DeleteDownloaded (__dirname ++ [name])%list, 5000%Z)])%list ∧
    ∀ a, fs (step' (Fire (length (timers w)) a) w2)
         = fs_remove (__dirname ++ [name])%list (fs w).
Proof.
  intros Hn. split; [apply path_join_plain, Hn|].
  assert (path_join (sessionsDir __dirname) ("../" +:+ name)
          = (__dirname ++ [name])%list) as Hup.
  { rewrite sessionsDir_child. apply path_join_up, Hn. }
  split; [exact Hup|].
  intros w req content Hfile. cbv zeta.
  assert (step' (GetDownload req ("../" +:+ name)) w
          = with_downloads (λ l, l ++ [(req, (__dirname ++ [name])%list)])%list w)
    as H1.
  { simpl. unfold exec, get_download. cbv [bind get modify].
    unfold existsSync_join. rewrite Hup, Hfile, (ends_with_slash_up _ Hn).
    reflexivity. }
  rewrite H1. split; [reflexivity|].
  assert (step' (DownloadDone (length (downloads w)) false)
            (with_downloads (λ l, l ++ [(req, (__dirname ++ [name])%list)])%list w)
          = with_timers (λ l, l ++
              [(DeleteDownloaded (__dirname ++ [name])%list, 5000%Z)])%list
              (with_responses (λ l, l ++
                 [(req, Download (__dirname ++ [name])%list)])%list
                 (with_downloads (λ l, delete (length (downloads w))
                    (l ++ [(req, (__dirname ++ [name])%list)]))%list w))) as H2.
  { simpl. rewrite lookup_app_r by reflexivity. rewrite Nat.sub_diag. simpl.
    unfold exec, download_callback. unfold_m. destruct w; reflexivity. }
  rewrite H2. split; [reflexivity|].
  intros a. simpl. rewrite lookup_app_r by reflexivity. rewrite Nat.sub_diag. simpl.
  unfold exec. rewrite delete_spec. simpl. rewrite Hfile. reflexivity.
Qed.

End Answers.

(** ** Stale events and what retirement leaves *)

(** X18. The close handler goes by the identifier, not by the
    connection the event comes from: a close event of an older
    connection removes the record that a newer connection has under
    the same identifier.  The newer connection is not ended; it stays
    live without a record. *)
Theorem stale_close_orphans_newer_connection
    (__dirname : path) (JSON_parse : string → option json)
    (JSON_stringify : json → string) w sk c r c' u :
  connections w !! sk = Some c →
  activeSessions w !! owner c = Some r →
  sock r ≠ sk →
  connections w !! sock r = Some c' → live c' = true →
  connection u = Some close →
  let w' := step __dirname JSON_parse JSON_stringify (ConnectionUpdate sk u) w in
  activeSessions w' !! owner c = None ∧
  is_live (sock r) w' = true ∧
  (statusCode u ≠ Some DisconnectReason_loggedOut →
   timers w' = (timers w ++ [(Reconnect (owner c), 5000%Z)])%list).
Proof.
  intros Hc Hr Hne Hc' Hlive Hu. cbv zeta. simpl. rewrite Hc, Hu.
  assert (is_live (sock r) (with_connections (close_connection sk) w) = true) as Hl.
  { unfold is_live. simpl. unfold close_connection.
    rewrite list_lookup_alter_ne by congruence. rewrite Hc'. exact Hlive. }
  unfold exec, on_connection_update. rewrite Hu.
  destruct (shouldReconnect u) eqn:Es; unfold_m; simpl.
  - split; [apply lookup_delete_eq|]. split; [exact Hl|]. reflexivity.
  - split; [apply lookup_delete_eq|]. split; [exact Hl|].
    intros Hs. unfold shouldReconnect in Es.
    rewrite bool_decide_eq_false_2 in Es by exact Hs. discriminate.
Qed.

Lemma existsSync_rmSync fs p : p ≠ [] → existsSync (rmSync fs p) p = false.
Proof.
  intros Hp. unfold existsSync, rmSync. rewrite fs_lookup_remove by exact Hp.
  reflexivity.
Qed.

(** X19. When the retirement has run and [end] did not throw, the Store
    has no record under the identifier and nothing exists any more at
    the storage path. *)
Theorem retirement_leaves_nothing_behind phoneNumber sessionPath w :
  sessionPath ≠ [] →
  let w' := exec (on_retire_timer phoneNumber sessionPath true) w in
  activeSessions w' !! phoneNumber = None ∧
  existsSync (fs w') sessionPath = false.
Proof.
  intros Hp. cbv zeta. unfold exec. rewrite retire_spec.
  destruct (activeSessions w !! phoneNumber) as [r|] eqn:Er;
    destruct (existsSync (fs w) sessionPath) eqn:Ex; simpl.
  - split; [apply lookup_delete_eq|apply existsSync_rmSync, Hp].
  - split; [apply lookup_delete_eq|exact Ex].
  - split; [exact Er|apply existsSync_rmSync, Hp].
  - split; [exact Er|exact Ex].
Qed.

(** ** The further properties at work *)

Lemma distinct_identifiers_distinct_directories_witness :
  example_path ≠ other_path ∧
  ∀ rest, diverge example_path (other_path ++ rest)%list.
Proof.
  apply (distinct_identifiers_distinct_directories example_dirname
           example_id other_id); [reflexivity|reflexivity|discriminate].
Defined.

Lemma artifact_appends_three_keys_witness :
  combinedCreds (JObj [("foo", JStr "bar")]) (JObj []) (JObj []) "T" =
  [("foo", JStr "bar"); ("preKeys", JObj []); ("senderKeys", JObj []);
   ("timestamp", JStr "T")].
Proof.
  apply (artifact_appends_three_keys (JObj [("foo", JStr "bar")])
           (JObj []) (JObj []) "T"); reflexivity.
Defined.

Lemma first_listed_fragment_wins_witness :
  readdirSync two_prekeys_disk ["s"] =
    Returned (["creds.json"] ++ "pre-key-1.json" :: ["pre-key-2.json"])%list ∧
  read_fragment example_parse two_prekeys_disk ["s"]
    (["creds.json"] ++ "pre-key-1.json" :: ["pre-key-2.json"])%list "pre-key-"
  = parse_file example_parse two_prekeys_disk (path_join ["s"] "pre-key-1.json").
Proof.
  split; [reflexivity|].
  apply (first_listed_fragment_wins example_parse two_prekeys_disk ["s"]
           "pre-key-" ["creds.json"] "pre-key-1.json" ["pre-key-2.json"]).
  - repeat constructor.
  - reflexivity.
Defined.

Lemma storage_directory_ensured_witness :
  existsSync
    (fs (initializeWhatsApp_enter example_dirname example_id example_boot).2)
    example_path = true.
Proof.
  destruct (storage_directory_ensured example_dirname example_id example_boot
              example_path
              (initializeWhatsApp_enter example_dirname example_id example_boot).2
              eq_refl) as (_ & H & _).
  exact H.
Defined.

(** The retirement of one identifier leaves the credentials of the
    other where they are. *)
Lemma deferred_removals_are_local_witness :
  fs_lookup (other_path ++ ["creds.json"])%list
    (fs (exec (on_retire_timer example_id example_path true) two_sessions))
  = Some (File foo_bar).
Proof.
  rewrite (proj1 (deferred_removals_are_local (other_path ++ ["creds.json"])%list)
             two_sessions example_id example_path true).
  - reflexivity.
  - apply session_paths_diverge; [reflexivity|reflexivity|discriminate].
Defined.

Lemma allowed_origins_by_environment_witness :
  allowedOrigins None (Some "https://app.example") = allowedOrigins None None ∧
  "https://app.example"
    ∈ allowedOrigins (Some "production") (Some "https://app.example").
Proof.
  split.
  - apply (proj1 (allowed_origins_by_environment None (Some "https://app.example"))).
    discriminate.
  - apply (proj1 (proj2 (allowed_origins_by_environment (Some "production")
                           (Some "https://app.example"))) eq_refl).
    left. split; [reflexivity|discriminate].
Defined.

Lemma cors_blocks_with_403_witness :
  cors_origin (allowedOrigins None None) None = Returned true ∧
  ∃ err, cors_origin (allowedOrigins None None) (Some "https://evil.example")
           = Thrown err ∧
         cors_error_middleware (allowedOrigins None None) err =
         Responded (Json 403
           (JObj [("error", JStr "CORS policy violation");
                  ("message", JStr "Origin not allowed");
                  ("allowedOrigins", JArr (JStr <$> allowedOrigins None None))])).
Proof.
  split.
  - apply (proj1 (cors_blocks_with_403 (allowedOrigins None None) None)).
    reflexivity.
  - apply (proj1 (proj2 (cors_blocks_with_403 (allowedOrigins None None)
                           (Some "https://evil.example")))
             "https://evil.example" eq_refl).
    apply (bool_decide_eq_false_1
             ("https://evil.example" ∈ allowedOrigins None None)).
    vm_compute. reflexivity.
Defined.

(** After the overlap of two requests, [cleanup] ends the connection
    the Store names and leaves the other one live. *)
Lemma cleanup_empties_store_witness :
  ∃ w', cleanup (λ _, true) (example_run overlapping_requests example_boot)
          = (Returned tt, w') ∧
        activeSessions w' = ∅ ∧ is_live 1 w' = false ∧ is_live 0 w' = true.
Proof.
  destruct (cleanup_empties_store (λ _, true)
              (example_run overlapping_requests example_boot))
    as (w' & Hrun & Hs & Hend & Hother & _).
  exists w'. split; [exact Hrun|]. split; [exact Hs|]. split.
  - apply (Hend example_id
             {| sock := 1; sessionPath := example_path; saveCreds := example_path;
                connected := false |}); reflexivity.
  - unfold is_live. rewrite (Hother 0); [reflexivity|].
    intros id r Hr Hsock. apply elem_of_map_to_list in Hr.
    assert (map_to_list
              (activeSessions (example_run overlapping_requests example_boot))
            = [(example_id,
                {| sock := 1; sessionPath := example_path;
                   saveCreds := example_path; connected := false |})]) as Hl
      by (vm_compute; reflexivity).
    rewrite Hl in Hr. apply list_elem_of_singleton in Hr.
    injection Hr as -> ->. discriminate Hsock.
Defined.

Lemma identifiers_stay_clean_witness :
  all_digits "123" = true ∧
  sessionPath {| sock := 0; sessionPath := getSessionPath example_dirname "123";
                 saveCreds := getSessionPath example_dirname "123";
                 connected := false |}
  = (sessionsDir example_dirname ++ ["session_" +:+ "123"])%list.
Proof.
  apply (proj1 (identifiers_stay_clean example_dirname example_parse print_json
                  [PostGenerateSession 7 (Some "12-3") true; Resume 0 (Made false)]
                  example_disk) "123").
  reflexivity.
Defined.

(** The dropped first connection stays dead while the identifier is
    requested again. *)
Lemma connections_never_revive_witness :
  ∃ c', connections
          (example_run [GenerateSession 1 (Some example_id) true;
                        Resume 0 (Made true)]
             (example_run retry_after_drop example_boot)) !! 0 = Some c' ∧
        owner c' = example_id ∧ storage c' = example_path ∧
        (false = false → live c' = false).
Proof.
  apply (connections_never_revive example_dirname example_parse print_json
           [GenerateSession 1 (Some example_id) true; Resume 0 (Made true)]
           (example_run retry_after_drop example_boot) 0
           {| owner := example_id; storage := example_path; live := false |}).
  reflexivity.
Defined.

(** The flag set by [open] survives the delivery and a later update. *)
Lemma connected_is_never_reset_witness :
  ∃ r', activeSessions
          (example_run [Fire 0 example_answers;
                        ConnectionUpdate 0 {| connection := Some connecting;
                                              statusCode := None |}]
             connected_world) !! example_id = Some r' ∧
        sock r' = 0 ∧ connected r' = true.
Proof.
  eexists. split; [reflexivity|]. split; [reflexivity|].
  apply (connected_is_never_reset example_dirname example_parse print_json
           [Fire 0 example_answers;
            ConnectionUpdate 0 {| connection := Some connecting; statusCode := None |}]
           connected_world example_id
           {| sock := 0; sessionPath := example_path; saveCreds := example_path;
              connected := true |}).
  - apply (run_from_boot example_dirname example_parse print_json
             [GenerateSession 0 (Some example_id) true;
              Resume 0 (Made true);
              ConnectionUpdate 0 opened]
             [("srv", Dir [("app", Dir [])])]).
  - reflexivity.
  - reflexivity.
  - reflexivity.
  - reflexivity.
Defined.

Lemma rest_request_answered_once_witness :
  let w := example_step (PostGenerateSession 7 (Some "123") true) example_boot in
  let w' := example_step
              (Resume 0 (MakeWASocketThrows (Error "boom"))) w in
  awaiting w' = [] ∧
  ∃ body, responses w' = [(7, Json 500 body)].
Proof.
  cbv zeta.
  apply (proj2 (rest_request_answered_once example_dirname example_parse print_json)
           (example_step (PostGenerateSession 7 (Some "123") true) example_boot)
           0
           {| p_phoneNumber := "123";
              p_sessionPath := getSessionPath example_dirname "123";
              p_caller := FromRest 7 |}
           (MakeWASocketThrows (Error "boom"))).
  reflexivity.
Defined.

(** [GET /download/..%2Fserver.js], once decoded, reaches and in the
    end removes the server's own source file. *)
Lemma download_is_not_confined_witness :
  path_join (sessionsDir example_dirname) "../server.js" = ["srv"; "app"; "server.js"] ∧
  fs (example_step (Fire 0 example_answers)
        (example_step (DownloadDone 0 false)
           (example_step (GetDownload 3 "../server.js") deployed)))
  = fs_remove ["srv"; "app"; "server.js"] (fs deployed).
Proof.
  destruct (download_is_not_confined example_dirname example_parse print_json
              "server.js" eq_refl) as (_ & Hup & H).
  split; [exact Hup|].
  destruct (H deployed 3 "code" eq_refl) as (_ & _ & Hfire).
  exact (Hfire example_answers).
Defined.

Lemma stale_close_orphans_newer_connection_witness :
  let w' := example_step (ConnectionUpdate 0 dropped) superseded in
  activeSessions w' !! example_id = None ∧ is_live 1 w' = true ∧
  (statusCode dropped ≠ Some DisconnectReason_loggedOut →
   timers w' = (timers superseded ++ [(Reconnect example_id, 5000%Z)])%list).
Proof.
  apply (stale_close_orphans_newer_connection example_dirname example_parse
           print_json superseded 0
           {| owner := example_id; storage := example_path; live := false |}
           {| sock := 1; sessionPath := example_path; saveCreds := example_path;
              connected := false |}
           {| owner := example_id; storage := example_path; live := true |}
           dropped); try reflexivity.
  discriminate.
Defined.

Lemma retirement_leaves_nothing_behind_witness :
  let w' := exec (on_retire_timer example_id example_path true) connected_world in
  activeSessions w' !! example_id = None ∧
  existsSync (fs w') example_path = false.
Proof.
  apply (retirement_leaves_nothing_behind example_id example_path connected_world).
  discriminate.
Defined.
